(** * V4 backtest engine: portfolio accounting, allocation planning,
      order execution and the date loop

    Shallow embedding of [engine/portfolio_v4.py], [engine/orders_v4.py],
    [engine/execution_v4.py], [engine/allocation_v4.py] and the main loop of
    [engine/backtest_v4.py].

    Conventions.
    - Python numbers (int and float alike) are exact rationals [Q]; equality
      of computed amounts is [Qeq] ([==]).  Where the rounding of binary
      floating point decides what the code does (the quantity a buy is cut
      to), the functions are given a second time in [Binary64], on IEEE 754
      doubles.
    - Python dicts keyed by symbol or by date are [gmap]s; where the code
      iterates a dict and the iteration order is observable (the order list
      built by [generate_orders]) the dict is an association list in
      insertion order.
    - Dates are day ordinals ([Z]); [d + pd.Timedelta(days=n)] is [d + n].
    - Logging and the uuid fields of [Order] and [Trade] are not modelled. *)

From Stdlib Require Import QArith Qround Qabs Lqa ZArith Lia List Sorted.
From Stdlib Require Import SpecFloat.
From stdpp Require Import gmap strings list fin_maps.
Import ListNotations.

Local Open Scope Q_scope.

(* ===================================================================== *)
(** ** Python numeric built-ins *)
(* ===================================================================== *)

Module PyNum.

(** [a < b] and [a <= b] on numbers, as booleans. *)
Definition leb (a b : Q) : bool := Qle_bool a b.
Definition ltb (a b : Q) : bool := negb (Qle_bool b a).
Definition eqb (a b : Q) : bool := Qeq_bool a b.

(** [int(x)]: truncation toward zero. *)
Definition py_int (x : Q) : Z :=
  if leb 0 x then Qfloor x else Qceiling x.

(** [round(x)]: nearest integer, ties to the even neighbour. *)
Definition py_round (x : Q) : Z :=
  let f := Qfloor x in
  match Qcompare (x - inject_Z f) (1 # 2) with
  | Lt => f
  | Gt => (f + 1)%Z
  | Eq => if Z.even f then f else (f + 1)%Z
  end.

End PyNum.
Import PyNum.

(* ===================================================================== *)
(** ** engine/orders_v4.py *)
(* ===================================================================== *)

(** The [price] attribute of an [Order].  [generate_orders] builds its sell
    orders as [Order(symbol, quantity, order_date)], which stores the date in
    the third positional parameter, [price]. *)
Inductive OrderPrice : Type :=
| PriceNone
| PriceNum (p : Q)
| PriceDate (d : option Z).

(** The [order_date] attribute: the date passed in, or [date.today()] when the
    argument is missing. *)
Inductive OrderDate : Type :=
| DateToday
| DateAt (d : Z).

Record Order : Type := mkOrder {
  ord_symbol : string;
  ord_quantity : Q;
  ord_price : OrderPrice;
  ord_type : string;
  ord_date : OrderDate
}.

(** [self.order_date = order_date if order_date else date.today()] *)
Definition order_date_of (d : option Z) : OrderDate :=
  match d with Some x => DateAt x | None => DateToday end.

Record Trade : Type := mkTrade {
  trd_symbol : string;
  trd_quantity : Q;
  trd_order_date : OrderDate;
  trd_order_type : string;
  trd_execution_date : Z;
  trd_execution_price : Q;
  trd_commission : Q;
  trd_amount : Q;
  trd_pnl : Q
}.

(** [Trade(order, execution_date, execution_price, commission, amount)];
    [pnl] starts at [0.0]. *)
Definition Trade_init (order : Order) (execution_date : Z)
    (execution_price commission amount : Q) : Trade :=
  {| trd_symbol := ord_symbol order;
     trd_quantity := ord_quantity order;
     trd_order_date := ord_date order;
     trd_order_type := ord_type order;
     trd_execution_date := execution_date;
     trd_execution_price := execution_price;
     trd_commission := commission;
     trd_amount := amount;
     trd_pnl := 0 |}.

Definition set_pnl (t : Trade) (pnl : Q) : Trade :=
  {| trd_symbol := trd_symbol t;
     trd_quantity := trd_quantity t;
     trd_order_date := trd_order_date t;
     trd_order_type := trd_order_type t;
     trd_execution_date := trd_execution_date t;
     trd_execution_price := trd_execution_price t;
     trd_commission := trd_commission t;
     trd_amount := trd_amount t;
     trd_pnl := pnl |}.

(** [TradeLog.trades], in insertion order. *)
Definition TradeLog : Type := list Trade.

Definition add_trade (log : TradeLog) (t : Trade) : TradeLog := log ++ [t].

(* ===================================================================== *)
(** ** engine/portfolio_v4.py *)
(* ===================================================================== *)

(** One entry of [Portfolio.positions]:
    [{'quantity': .., 'cost_basis': .., 'value': ..}]. *)
Record Position : Type := mkPosition {
  pos_quantity : Q;
  pos_cost_basis : Q;
  pos_value : Q
}.

(** One entry of [Portfolio.history]:
    [{'cash': .., 'positions': deepcopy(..), 'total_value': ..}]. *)
Record Snapshot : Type := mkSnapshot {
  snap_cash : Q;
  snap_positions : gmap string Position;
  snap_total_value : Q
}.

Record Portfolio : Type := mkPortfolio {
  cash : Q;
  positions : gmap string Position;
  history : gmap Z Snapshot
}.

(** [Portfolio()]: cash is the configured [initial_capital]. *)
Definition Portfolio_init (initial_capital : Q) : Portfolio :=
  {| cash := initial_capital; positions := ∅; history := ∅ |}.

Definition with_cash (pf : Portfolio) (c : Q) : Portfolio :=
  {| cash := c; positions := positions pf; history := history pf |}.

Definition with_positions (pf : Portfolio) (ps : gmap string Position)
    : Portfolio :=
  {| cash := cash pf; positions := ps; history := history pf |}.

Definition get_position (pf : Portfolio) (symbol : string) : option Position :=
  positions pf !! symbol.

(** [add_position(symbol, quantity, price, cost_basis=None)] *)
Definition add_position (pf : Portfolio) (symbol : string)
    (quantity price : Q) (cost_basis : option Q) : Portfolio :=
  let cost_basis := match cost_basis with Some c => c | None => price end in
  match positions pf !! symbol with
  | Some pos =>
      let current_quantity := pos_quantity pos in
      let current_cost := pos_cost_basis pos * current_quantity in
      let new_quantity := current_quantity + quantity in
      let new_cost := current_cost + quantity * cost_basis in
      if negb (eqb new_quantity 0) then
        with_positions pf
          (<[symbol := {| pos_quantity := new_quantity;
                          pos_cost_basis := new_cost / new_quantity;
                          pos_value := new_quantity * price |}]>
             (positions pf))
      else
        with_positions pf (delete symbol (positions pf))
  | None =>
      with_positions pf
        (<[symbol := {| pos_quantity := quantity;
                        pos_cost_basis := cost_basis;
                        pos_value := quantity * price |}]>
           (positions pf))
  end.

(** [remove_position(symbol, quantity, price) -> (success, pnl)] together
    with the portfolio it leaves behind. *)
Definition remove_position (pf : Portfolio) (symbol : string)
    (quantity price : Q) : bool * Q * Portfolio :=
  match positions pf !! symbol with
  | Some pos =>
      let current_quantity := pos_quantity pos in
      if leb quantity current_quantity then
        let cost_basis := pos_cost_basis pos in
        let pnl := (price - cost_basis) * quantity in
        let new_quantity := current_quantity - quantity in
        if ltb 0 new_quantity then
          (true, pnl,
           with_positions pf
             (<[symbol := {| pos_quantity := new_quantity;
                             pos_cost_basis := pos_cost_basis pos;
                             pos_value := new_quantity * price |}]>
                (positions pf)))
        else
          (true, pnl, with_positions pf (delete symbol (positions pf)))
      else (false, 0, pf)
  | None => (false, 0, pf)
  end.

(** [update_from_trade(trade) -> (success, pnl)] *)
Definition update_from_trade (pf : Portfolio) (trade : Trade)
    : bool * Q * Portfolio :=
  let symbol := trd_symbol trade in
  let quantity := trd_quantity trade in
  let price := trd_execution_price trade in
  let pf1 := with_cash pf (cash pf - trd_amount trade) in
  if ltb 0 quantity then
    (true, 0, add_position pf1 symbol quantity price None)
  else
    remove_position pf1 symbol (Qabs quantity) price.

(** The loop of [mark_to_market] over the held symbols: a priced symbol gets
    [value = quantity * price], an unpriced one keeps its entry. *)
Definition refresh_position (prices : gmap string Q) (symbol : string)
    (pos : Position) : Position :=
  match prices !! symbol with
  | Some price =>
      {| pos_quantity := pos_quantity pos;
         pos_cost_basis := pos_cost_basis pos;
         pos_value := pos_quantity pos * price |}
  | None => pos
  end.

Definition refresh_positions (prices : gmap string Q)
    (ps : gmap string Position) : gmap string Position :=
  map_imap (fun symbol pos => Some (refresh_position prices symbol pos)) ps.

(** [sum(pos['value'] for pos in self.positions.values())] *)
Definition sum_values (ps : gmap string Position) : Q :=
  map_fold (fun _ pos acc => acc + pos_value pos) 0 ps.

(** [mark_to_market(current_date, prices)] *)
Definition mark_to_market (pf : Portfolio) (current_date : Z)
    (prices : gmap string Q) : Portfolio :=
  let ps := refresh_positions prices (positions pf) in
  let total_value := cash pf + sum_values ps in
  {| cash := cash pf;
     positions := ps;
     history := <[current_date := {| snap_cash := cash pf;
                                     snap_positions := ps;
                                     snap_total_value := total_value |}]>
                  (history pf) |}.

(** [get_total_value(prices=None)] *)
Definition get_total_value (pf : Portfolio) (prices : option (gmap string Q))
    : Q :=
  match prices with
  | None => cash pf + sum_values (positions pf)
  | Some prices =>
      cash pf +
      map_fold (fun symbol pos acc =>
                  match prices !! symbol with
                  | Some p => acc + pos_quantity pos * p
                  | None => acc + pos_value pos
                  end) 0 (positions pf)
  end.

(* ===================================================================== *)
(** ** engine/execution_v4.py *)
(* ===================================================================== *)

Record ExecutionEngine : Type := mkEngine {
  portfolio : Portfolio;
  trade_log : TradeLog
}.

Section Execution.

(** The module-level settings [commission_rate] and [slippage_rate]. *)
Variables commission_rate slippage_rate : Q.

(** [PercentSlippageModel.calculate_slippage(order, price)] *)
Definition calculate_slippage (order : Order) (price : Q) : Q :=
  if ltb 0 (ord_quantity order)
  then price * (1 + slippage_rate)
  else price * (1 - slippage_rate).

(** [PercentCommissionModel.calculate_commission(order, execution_price)] *)
Definition calculate_commission (order : Order) (execution_price : Q) : Q :=
  Qabs (ord_quantity order * execution_price * commission_rate).

(** The order rebuilt by the validators with a new quantity. *)
Definition adjusted_order (order : Order) (quantity : Q) : Order :=
  {| ord_symbol := ord_symbol order;
     ord_quantity := quantity;
     ord_price := ord_price order;
     ord_type := ord_type order;
     ord_date := ord_date order |}.

(** [validate_sell_order(order, prices, execution_date)]: [None] for
    [(False, None, msg)], [Some o] for [(True, o, _)]. *)
Definition validate_sell_order (pf : Portfolio) (order : Order)
    (prices : gmap string Q) : option Order :=
  let symbol := ord_symbol order in
  match prices !! symbol with
  | None => None
  | Some _ =>
      match get_position pf symbol with
      | None => None
      | Some position =>
          if leb (pos_quantity position) 0 then None
          else
            let sell_quantity := Qabs (ord_quantity order) in
            let current_quantity := pos_quantity position in
            if ltb current_quantity sell_quantity
            then Some (adjusted_order order (- current_quantity))
            else Some order
      end
  end.

(** [validate_buy_order(order, prices, execution_date, available_cash)],
    with the quotient and [int()] taken exactly; [Binary64.validate_buy_order]
    takes them as the machine does, and models the division by a zero
    execution price, which here yields 0. *)
Definition validate_buy_order (order : Order) (prices : gmap string Q)
    (available_cash : Q) : option Order :=
  let symbol := ord_symbol order in
  match prices !! symbol with
  | None => None
  | Some price =>
      let execution_price := calculate_slippage order price in
      let commission := calculate_commission order execution_price in
      let total_amount := ord_quantity order * execution_price + commission in
      if ltb available_cash total_amount then
        if leb available_cash commission then None
        else
          let max_shares :=
            py_int ((available_cash - commission) / execution_price) in
          if (max_shares <=? 0)%Z then None
          else Some (adjusted_order order (inject_Z max_shares))
      else Some order
  end.

(** Body of the first loop of [execute_orders]: the sell [Trade] built for
    one order, if the order passes validation. *)
Definition build_sell_trade (pf : Portfolio) (execution_date : Z)
    (prices : gmap string Q) (order : Order) : option Trade :=
  match validate_sell_order pf order prices with
  | None => None
  | Some order =>
      match prices !! ord_symbol order with
      | None => None  (* not reached: the validator has checked the key *)
      | Some price =>
          let execution_price := calculate_slippage order price in
          let commission := calculate_commission order execution_price in
          let amount := ord_quantity order * execution_price - commission in
          Some (Trade_init order execution_date execution_price
                  commission amount)
      end
  end.

(** Body of the second loop: apply one sell trade. *)
Definition apply_sell_trade (st : ExecutionEngine * list Trade)
    (trade : Trade) : ExecutionEngine * list Trade :=
  let '(eng, executed_trades) := st in
  let '(success, pnl, pf) := update_from_trade (portfolio eng) trade in
  if success then
    let trade := set_pnl trade pnl in
    ({| portfolio := pf; trade_log := add_trade (trade_log eng) trade |},
     executed_trades ++ [trade])
  else
    ({| portfolio := pf; trade_log := trade_log eng |}, executed_trades).

(** Body of the third loop: validate one buy order against the live cash
    balance and apply it. *)
Definition execute_buy (execution_date : Z) (prices : gmap string Q)
    (st : ExecutionEngine * list Trade) (order : Order)
    : ExecutionEngine * list Trade :=
  let '(eng, executed_trades) := st in
  match validate_buy_order order prices (cash (portfolio eng)) with
  | None => st
  | Some order =>
      match prices !! ord_symbol order with
      | None => st  (* not reached: the validator has checked the key *)
      | Some price =>
          let execution_price := calculate_slippage order price in
          let commission := calculate_commission order execution_price in
          let amount := ord_quantity order * execution_price + commission in
          let trade := Trade_init order execution_date execution_price
                         commission amount in
          let '(success, _, pf) := update_from_trade (portfolio eng) trade in
          if success then
            ({| portfolio := pf;
                trade_log := add_trade (trade_log eng) trade |},
             executed_trades ++ [trade])
          else
            ({| portfolio := pf; trade_log := trade_log eng |},
             executed_trades)
      end
  end.

Definition is_sell (order : Order) : bool := ltb (ord_quantity order) 0.
Definition is_buy (order : Order) : bool := ltb 0 (ord_quantity order).

(** [execute_orders(orders, execution_date, prices)]: the executed trades
    and the engine after the call.  All sell trades are built against the
    portfolio as it is on entry, then applied; then the buys are validated
    and applied one by one. *)
Definition execute_orders (eng : ExecutionEngine) (orders : list Order)
    (execution_date : Z) (prices : gmap string Q)
    : list Trade * ExecutionEngine :=
  match orders with
  | [] => ([], eng)
  | _ =>
      let sell_orders := List.filter is_sell orders in
      let buy_orders := List.filter is_buy orders in
      let sell_trades :=
        omap (build_sell_trade (portfolio eng) execution_date prices)
             sell_orders in
      let st1 := fold_left apply_sell_trade sell_trades (eng, []) in
      let st2 := fold_left (execute_buy execution_date prices)
                   buy_orders st1 in
      (snd st2, fst st2)
  end.

End Execution.

Definition ExecutionEngine_init (initial_capital : Q) : ExecutionEngine :=
  {| portfolio := Portfolio_init initial_capital; trade_log := [] |}.

(* ===================================================================== *)
(** ** engine/allocation_v4.py *)
(* ===================================================================== *)

(** [compare_positions(current_positions, target_allocations,
    portfolio_value, prices)].  The result dict is filled while iterating a
    Python [set], whose order is unspecified; the model enumerates the key
    set with [elements].  [target_allocations] is the mapping from symbol to
    weight of the docstring.  (The date loop passes a pandas Series;
    iterating a Series yields its values, and the keys this adds get weight
    0 on both sides, hence a zero dollar change that the filter drops.)
    A zero [portfolio_value] or price is outside the model: [Q] division by
    zero yields 0 where Python raises or produces inf. *)
Definition compare_positions (current_positions : gmap string Position)
    (target_allocations : gmap string Q) (portfolio_value : Q)
    (prices : gmap string Q) : list (string * Q) :=
  let current_allocations : gmap string Q :=
    map_imap (fun symbol position =>
                Some (match prices !! symbol with
                      | Some p => (pos_quantity position * p) / portfolio_value
                      | None => pos_value position / portfolio_value
                      end)) current_positions in
  (* symbols in target but not in current get weight 0.0, and conversely *)
  let current_allocations :=
    current_allocations ∪ ((fun _ => 0) <$> target_allocations) in
  let target_allocations :=
    target_allocations ∪ ((fun _ => 0) <$> current_allocations) in
  let symbols : list string :=
    elements (dom current_allocations ∪ dom target_allocations) in
  omap (fun symbol =>
          let current_weight := default 0 (current_allocations !! symbol) in
          let target_weight := default 0 (target_allocations !! symbol) in
          let dollar_change :=
            (target_weight - current_weight) * portfolio_value in
          if ltb (1 # 100) (Qabs dollar_change)
          then Some (symbol, dollar_change) else None)
       symbols.

(** One entry of [buy_order_estimates]. *)
Record BuyEstimate : Type := mkEstimate {
  est_quantity : Z;
  est_price : Q;
  est_adjusted_price : Q;
  est_cost : Q;
  est_commission : Q;
  est_total_cost : Q;
  est_single_share_cost : Q;
  est_dollar_change : Q
}.

(** One entry of [adjusted_orders]. *)
Record AdjustedOrder : Type := mkAdjusted {
  adj_quantity : Z;
  adj_cost : Q;
  adj_commission : Q;
  adj_total : Q;
  adj_original : Z
}.

(** [sorted(items, key=dollar_change, reverse=True)]: stable, descending. *)
Fixpoint insert_by_change (x : string * BuyEstimate)
    (l : list (string * BuyEstimate)) : list (string * BuyEstimate) :=
  match l with
  | [] => [x]
  | y :: l' =>
      if ltb (est_dollar_change (snd y)) (est_dollar_change (snd x))
      then x :: y :: l'
      else y :: insert_by_change x l'
  end.

Definition sort_by_change_desc (l : list (string * BuyEstimate))
    : list (string * BuyEstimate) :=
  fold_left (fun acc x => insert_by_change x acc) l [].

(** [d[symbol]] and [symbol in d] on an insertion-ordered dict. *)
Fixpoint assoc_get {A : Type} (symbol : string) (d : list (string * A))
    : option A :=
  match d with
  | [] => None
  | (k, v) :: d' => if String.eqb k symbol then Some v else assoc_get symbol d'
  end.

(** [d[symbol] = f(d[symbol])] for a key that is present. *)
Fixpoint assoc_alter {A : Type} (f : A -> A) (symbol : string)
    (d : list (string * A)) : list (string * A) :=
  match d with
  | [] => []
  | (k, v) :: d' =>
      if String.eqb k symbol then (k, f v) :: d'
      else (k, v) :: assoc_alter f symbol d'
  end.

Section Allocation.

(** [commission_rate] and [slippage_rate] as this module reads them from
    the [backtest] settings. *)
Variables commission_rate slippage_rate : Q.

Definition cash_buffer_factor : Q := 999 # 1000.

Definition held_quantity (current_positions : option (gmap string Position))
    (symbol : string) : option Q :=
  match current_positions with
  | Some ps => pos_quantity <$> (ps !! symbol)
  | None => None
  end.

(** The loop over [sell_changes]: the orders so far and [cash_freed]. *)
Definition plan_sell (prices : gmap string Q) (order_date : option Z)
    (current_positions : option (gmap string Position))
    (st : list Order * Q) (item : string * Q) : list Order * Q :=
  let '(orders, cash_freed) := st in
  let '(symbol, dollar_change) := item in
  match prices !! symbol with
  | None => st
  | Some price =>
      let target_quantity := dollar_change / price in
      let current_qty := default 0 (held_quantity current_positions symbol) in
      let max_sellable := inject_Z (Z.abs (py_round target_quantity)) in
      let max_sellable :=
        if ltb current_qty max_sellable then current_qty else max_sellable in
      if leb max_sellable 0 then st
      else
        let quantity := - max_sellable in
        if eqb quantity 0 then st
        else
          let actual_dollars := Qabs (quantity * price) in
          let commission := actual_dollars * commission_rate in
          (orders ++ [ {| ord_symbol := symbol;
                          ord_quantity := quantity;
                          ord_price := PriceDate order_date;
                          ord_type := "MARKET";
                          ord_date := DateToday |} ],
           cash_freed + (actual_dollars - commission))
  end.

(** First pass over [buy_changes]: one estimate per symbol whose rounded
    quantity is positive.  A price of zero is outside the model: the code
    divides by it, here the quotient is 0 and the symbol is skipped. *)
Definition estimate_buy (prices : gmap string Q) (item : string * Q)
    : option (string * BuyEstimate) :=
  let '(symbol, dollar_change) := item in
  match prices !! symbol with
  | None => None
  | Some price =>
      let adjusted_price := price * (1 + slippage_rate) in
      let quantity := py_round (dollar_change / price) in
      if (quantity <=? 0)%Z then None
      else
        let cost := inject_Z quantity * adjusted_price in
        let commission_cost := cost * commission_rate in
        let total_cost := cost + commission_cost in
        let single_share_cost := adjusted_price * (1 + commission_rate) in
        Some (symbol,
              {| est_quantity := quantity;
                 est_price := price;
                 est_adjusted_price := adjusted_price;
                 est_cost := cost;
                 est_commission := commission_cost;
                 est_total_cost := total_cost;
                 est_single_share_cost := single_share_cost;
                 est_dollar_change := dollar_change |})
  end.

(** Proportional pass of the scaling branch: [adjusted_orders] and
    [remaining_cash]. *)
Definition scale_buy (scaling_factor : Q)
    (st : list (string * AdjustedOrder) * Q)
    (item : string * BuyEstimate) : list (string * AdjustedOrder) * Q :=
  let '(adjusted_orders, remaining_cash) := st in
  let '(symbol, estimate) := item in
  let scaled_quantity :=
    py_int (inject_Z (est_quantity estimate) * scaling_factor) in
  let scaled_quantity :=
    if ((scaled_quantity <? 1)%Z
        && leb (est_single_share_cost estimate) remaining_cash)%bool
    then 1%Z else scaled_quantity in
  if (0 <? scaled_quantity)%Z then
    let adjusted_cost :=
      inject_Z scaled_quantity * est_adjusted_price estimate in
    let adjusted_commission := adjusted_cost * commission_rate in
    let adjusted_total := adjusted_cost + adjusted_commission in
    if leb adjusted_total remaining_cash then
      (adjusted_orders ++
         [(symbol, {| adj_quantity := scaled_quantity;
                      adj_cost := adjusted_cost;
                      adj_commission := adjusted_commission;
                      adj_total := adjusted_total;
                      adj_original := est_quantity estimate |})],
       remaining_cash - adjusted_total)
    else st
  else st.

(** Top-up pass: spend what is left on more shares, up to the original
    quantity. *)
Definition top_up_buy (st : list (string * AdjustedOrder) * Q)
    (item : string * BuyEstimate) : list (string * AdjustedOrder) * Q :=
  let '(adjusted_orders, remaining_cash) := st in
  let '(symbol, estimate) := item in
  match assoc_get symbol adjusted_orders with
  | None => st
  | Some adjusted =>
      if leb (est_single_share_cost estimate) remaining_cash then
        let additional_shares :=
          py_int (remaining_cash / est_single_share_cost estimate) in
        if (0 <? additional_shares)%Z then
          let max_additional :=
            (est_quantity estimate - adj_quantity adjusted)%Z in
          let additional_shares := Z.min additional_shares max_additional in
          if (0 <? additional_shares)%Z then
            let additional_cost :=
              inject_Z additional_shares * est_adjusted_price estimate in
            let additional_commission := additional_cost * commission_rate in
            let additional_total :=
              additional_cost + additional_commission in
            (assoc_alter
               (fun a =>
                  {| adj_quantity := (adj_quantity a + additional_shares)%Z;
                     adj_cost := adj_cost a + additional_cost;
                     adj_commission :=
                       adj_commission a + additional_commission;
                     adj_total := adj_total a + additional_total;
                     adj_original := adj_original a |})
               symbol adjusted_orders,
             remaining_cash - additional_total)
          else st
        else st
      else st
  end.

Definition buy_order (prices : gmap string Q) (order_date : option Z)
    (symbol : string) (quantity : Z) (fallback : Q) : Order :=
  {| ord_symbol := symbol;
     ord_quantity := inject_Z quantity;
     ord_price := PriceNum (default fallback (prices !! symbol));
     ord_type := "MARKET";
     ord_date := order_date_of order_date |}.

(** Which branch the second pass of [generate_orders] takes. *)
Inductive BuyPath : Type :=
| NoBuys          (* returned before sizing any buy *)
| AsIs            (* enough cash: candidates emitted unchanged *)
| Scaled (topped_up : bool).  (* scaling; whether the top-up loop ran *)

(** [generate_orders(dollar_changes, prices, order_date, available_cash,
    current_positions)], with the branch taken. *)
Definition generate_orders_path (dollar_changes : list (string * Q))
    (prices : gmap string Q) (order_date : option Z)
    (available_cash : option Q)
    (current_positions : option (gmap string Position))
    : list Order * BuyPath :=
  let priced :=
    List.filter (fun it => bool_decide (is_Some (prices !! fst it)))
                dollar_changes in
  let buy_changes := List.filter (fun it => ltb 0 (snd it)) priced in
  let sell_changes :=
    List.filter
      (fun it =>
         (negb (ltb 0 (snd it)) && ltb (snd it) 0 &&
          match held_quantity current_positions (fst it) with
          | Some current_qty => ltb 0 current_qty
          | None => false
          end)%bool) priced in
  let '(orders, cash_freed) :=
    fold_left (plan_sell prices order_date current_positions)
              sell_changes ([], 0) in
  let total_available_cash := default 0 available_cash + cash_freed in
  if (leb total_available_cash 0
      || match buy_changes with [] => true | _ => false end)%bool
  then (orders, NoBuys)
  else
    let buy_order_estimates := omap (estimate_buy prices) buy_changes in
    let total_estimated_cost :=
      fold_left (fun acc it => acc + est_total_cost (snd it))
                buy_order_estimates 0 in
    if (ltb (total_available_cash * cash_buffer_factor) total_estimated_cost
        && match buy_order_estimates with [] => false | _ => true end)%bool
    then
      let buffered_cash := total_available_cash * cash_buffer_factor in
      let scaling_factor := buffered_cash / total_estimated_cost in
      let prioritized_orders := sort_by_change_desc buy_order_estimates in
      let '(adjusted_orders, remaining_cash) :=
        fold_left (scale_buy scaling_factor) prioritized_orders
                  ([], buffered_cash) in
      let second_pass := ltb 0 remaining_cash in
      let '(adjusted_orders, _) :=
        if second_pass
        then fold_left top_up_buy prioritized_orders
                       (adjusted_orders, remaining_cash)
        else (adjusted_orders, remaining_cash) in
      (orders ++
         omap (fun it =>
                 if (0 <? adj_quantity (snd it))%Z
                 then Some (buy_order prices order_date (fst it)
                              (adj_quantity (snd it)) 0)
                 else None) adjusted_orders,
       Scaled second_pass)
    else
      (orders ++
         List.map (fun it => buy_order prices order_date (fst it)
                               (est_quantity (snd it)) (est_price (snd it)))
                  buy_order_estimates,
       AsIs).

Definition generate_orders (dollar_changes : list (string * Q))
    (prices : gmap string Q) (order_date : option Z)
    (available_cash : option Q)
    (current_positions : option (gmap string Position)) : list Order :=
  fst (generate_orders_path dollar_changes prices order_date
         available_cash current_positions).

(** [calculate_rebalance_orders(portfolio, target_allocations, prices,
    order_date)] *)
Definition calculate_rebalance_orders (pf : Portfolio)
    (target_allocations : gmap string Q) (prices : gmap string Q)
    (order_date : option Z) : list Order :=
  let current_positions := positions pf in
  let portfolio_value := get_total_value pf (Some prices) in
  let dollar_changes :=
    compare_positions current_positions target_allocations
                      portfolio_value prices in
  generate_orders dollar_changes prices order_date (Some (cash pf))
                  (Some current_positions).

End Allocation.

(* ===================================================================== *)
(** ** engine/backtest_v4.py: the date loop of [run_backtest] *)
(* ===================================================================== *)

(** Calls the loop makes to the planner and to the execution engine, in
    order.  The trace is observation only; nothing reads it. *)
Inductive DriverEvent : Type :=
| PendingExecuted (current_date : Z) (orders : list Order)
| Planned (current_date : Z) (orders : list Order)
| Executed (current_date execution_date : Z) (orders : list Order).

(** The state the loop carries from one date to the next.  [signals] is the
    local variable of that name: [None] until the first assignment.  The
    reporting tables ([signal_history], [weights_history],
    [portfolio_history]) never feed back into the loop and are left out. *)
Record BacktestState : Type := mkState {
  execution_engine : ExecutionEngine;
  pending_orders : gmap Z (list Order);
  signals : option (gmap string Q);
  last_rebalance_date : option Z;
  trace : list DriverEvent
}.

Inductive Outcome (A : Type) : Type :=
| Done (a : A)
| Raised (exn : string).
Arguments Done {A} a.
Arguments Raised {A} exn.

Definition BacktestEngine_init (initial_capital : Q) : BacktestState :=
  {| execution_engine := ExecutionEngine_init initial_capital;
     pending_orders := ∅;
     signals := None;
     last_rebalance_date := None;
     trace := [] |}.

(** [price_data.loc[d]] and [d in price_data.index] on the date-indexed
    price table. *)
Fixpoint price_row (price_data : list (Z * gmap string Q)) (d : Z)
    : option (gmap string Q) :=
  match price_data with
  | [] => None
  | (d', row) :: rest => if (d' =? d)%Z then Some row else price_row rest d
  end.

Section Backtest.

(** Settings: the rates as [allocation_v4] reads them ([backtest] section)
    and as [execution_v4] reads them ([strategy] section first), and
    [strategy.execution_delay]. *)
Variables alloc_commission_rate alloc_slippage_rate : Q.
Variables commission_rate slippage_rate : Q.
Variable execution_delay : Z.

(** Inputs of one run: the price table, the precomputed signals and the
    rebalance schedule derived from the configured frequency. *)
Variable price_data : list (Z * gmap string Q).
Variable signals_dict : gmap Z (gmap string Q).
Variable rebalance_dates : list Z.

(** [_should_rebalance(current_date, rebalance_dates)] *)
Definition _should_rebalance (current_date : Z) : bool :=
  bool_decide (current_date ∈ rebalance_dates).

(** The part of the loop body up to and including [mark_to_market]. *)
Definition pop_and_mark (st : BacktestState) (current_date : Z)
    (current_prices : gmap string Q) : BacktestState :=
  let st :=
    match pending_orders st !! current_date with
    | Some pending =>
        let '(_, eng) :=
          execute_orders commission_rate slippage_rate
            (execution_engine st) pending current_date current_prices in
        {| execution_engine := eng;
           pending_orders := delete current_date (pending_orders st);
           signals := signals st;
           last_rebalance_date := last_rebalance_date st;
           trace := trace st ++ [PendingExecuted current_date pending] |}
    | None => st
    end in
  let eng := execution_engine st in
  {| execution_engine :=
       {| portfolio :=
            mark_to_market (portfolio eng) current_date current_prices;
          trade_log := trade_log eng |};
     pending_orders := pending_orders st;
     signals := signals st;
     last_rebalance_date := last_rebalance_date st;
     trace := trace st |}.

(** The block under [if not signals.empty:]. *)
Definition plan_and_execute (st : BacktestState) (current_date : Z)
    (current_prices : gmap string Q) (sig : gmap string Q)
    : BacktestState :=
  let eng := execution_engine st in
  let orders :=
    calculate_rebalance_orders alloc_commission_rate alloc_slippage_rate
      (portfolio eng) sig current_prices (Some current_date) in
  let tr := trace st ++ [Planned current_date orders] in
  let '(eng, tr) :=
    if (0 <? execution_delay)%Z then
      let execution_date := (current_date + execution_delay)%Z in
      match price_row price_data execution_date with
      | Some execution_prices =>
          (snd (execute_orders commission_rate slippage_rate eng orders
                  execution_date execution_prices),
           tr ++ [Executed current_date execution_date orders])
      | None => (eng, tr)
      end
    else
      (snd (execute_orders commission_rate slippage_rate eng orders
              current_date current_prices),
       tr ++ [Executed current_date current_date orders]) in
  {| execution_engine := eng;
     pending_orders := pending_orders st;
     signals := signals st;
     last_rebalance_date := Some current_date;
     trace := tr |}.

(** One iteration of [for current_date in price_data.index].  The one
    exception modelled is the read of [signals] before its first assignment.
    The planner's divisions by a zero price or a zero portfolio value, and
    [signals.to_dict()] on a value that is not a pandas Series, are not:
    what is proved of a run holds for the runs that complete. *)
Definition backtest_step (st : BacktestState)
    (row : Z * gmap string Q) : Outcome BacktestState :=
  let '(current_date, current_prices) := row in
  let st := pop_and_mark st current_date current_prices in
  let st :=
    if _should_rebalance current_date then
      {| execution_engine := execution_engine st;
         pending_orders := pending_orders st;
         signals := Some (default ∅ (signals_dict !! current_date));
         last_rebalance_date := last_rebalance_date st;
         trace := trace st |}
    else st in
  (* the two statements below sit outside [if should_rebalance:] *)
  match signals st with
  | None => Raised "UnboundLocalError"
  | Some sig =>
      if bool_decide (sig = ∅) then Done st
      else Done (plan_and_execute st current_date current_prices sig)
  end.

Fixpoint backtest_loop (st : BacktestState)
    (rows : list (Z * gmap string Q)) : Outcome BacktestState :=
  match rows with
  | [] => Done st
  | row :: rest =>
      match backtest_step st row with
      | Done st' => backtest_loop st' rest
      | Raised e => Raised e
      end
  end.

(** [run_backtest]: the loop over the whole price table, from a fresh
    engine. *)
Definition run_backtest (initial_capital : Q) : Outcome BacktestState :=
  backtest_loop (BacktestEngine_init initial_capital) price_data.

End Backtest.

(* ===================================================================== *)
(** ** engine/portfolio_v4.py: cash operations and weights *)
(* ===================================================================== *)

(** [add_cash(amount)] *)
Definition add_cash (pf : Portfolio) (amount : Q) : Portfolio :=
  with_cash pf (cash pf + amount).

(** [remove_cash(amount) -> bool] with the portfolio it leaves behind. *)
Definition remove_cash (pf : Portfolio) (amount : Q) : bool * Portfolio :=
  if leb amount (cash pf)
  then (true, with_cash pf (cash pf - amount))
  else (false, pf).

(** [max(a, b)] of two numbers: the first one unless the second is larger. *)
Definition py_max (a b : Q) : Q := if ltb a b then b else a.

(** [np.isclose(a, b)] with the default [rtol = 1e-05], [atol = 1e-08]. *)
Definition isclose (a b : Q) : bool :=
  leb (Qabs (a - b)) ((1 # 100000000) + (1 # 100000) * Qabs b).

(** [sum(weights.values())] *)
Definition sum_weights (weights : gmap string Q) : Q :=
  map_fold (fun _ w acc => acc + w) 0 weights.

(** The value [get_weights] uses for one position: [quantity * price] when
    prices are given and quote the symbol, the stored value otherwise. *)
Definition held_value (prices : option (gmap string Q)) (symbol : string)
    (position : Position) : Q :=
  match prices with
  | Some prices =>
      match prices !! symbol with
      | Some price => pos_quantity position * price
      | None => pos_value position
      end
  | None => pos_value position
  end.

(** [get_weights(prices=None)].  The conversion of a pandas Series argument
    to a dict happens before anything else and is not modelled: [prices] is
    the dict (or [None]) the rest of the method works with. *)
Definition get_weights (pf : Portfolio) (prices : option (gmap string Q))
    : gmap string Q :=
  let total_value := get_total_value pf prices in
  if eqb total_value 0 then
    <["Cash"%string :=
        if (eqb (cash pf) 0 && bool_decide (positions pf = ∅))%bool
        then 1 else 0]>
      ((fun _ => 0) <$> positions pf)
  else
    let weights : gmap string Q :=
      map_imap (fun symbol position =>
                  Some (held_value prices symbol position / total_value))
               (positions pf) in
    let cash_weight := cash pf / total_value in
    let weights := <["Cash"%string := py_max 0 cash_weight]> weights in
    let current_sum := sum_weights weights in
    if (negb (isclose current_sum 1) && negb (eqb current_sum 0))%bool
    then (fun w => w / current_sum) <$> weights
    else weights.

(* ===================================================================== *)
(** ** engine/orders_v4.py: queries on the trade log *)
(* ===================================================================== *)

(** [get_trades_for_symbol(symbol)] *)
Definition get_trades_for_symbol (log : TradeLog) (symbol : string)
    : list Trade :=
  List.filter (fun t => String.eqb (trd_symbol t) symbol) log.

(** [get_trades_for_date(date_val)] *)
Definition get_trades_for_date (log : TradeLog) (date_val : Z) : list Trade :=
  List.filter (fun t => (trd_execution_date t =? date_val)%Z) log.

(** [calculate_pnl(cost_basis_dict)]: rewrites [pnl] on the sell trades
    whose symbol is in the dict. *)
Definition calculate_pnl (log : TradeLog) (cost_basis_dict : gmap string Q)
    : TradeLog :=
  List.map
    (fun t =>
       if ltb (trd_quantity t) 0 then
         match cost_basis_dict !! trd_symbol t with
         | Some cost_basis =>
             set_pnl t ((- trd_quantity t)
                        * (trd_execution_price t - cost_basis)
                        - trd_commission t)
         | None => t
         end
       else t)
    log.

(* ===================================================================== *)
(** ** engine/signal_generator_v4.py *)
(* ===================================================================== *)

(** [SignalGenerator.validate_signals(signals)]; [None] is Python's
    [None]. *)
Definition validate_signals (signals : option (gmap string Q))
    : gmap string Q :=
  match signals with
  | None => ∅
  | Some signals =>
      if (size signals =? 0)%nat then ∅
      else
        let signals := (fun w => if ltb w 0 then 0 else w) <$> signals in
        let total_weight := sum_weights signals in
        if ltb 0 total_weight then
          (fun w => w / total_weight) <$> signals
        else
          let equal_weight := 1 / inject_Z (Z.of_nat (size signals)) in
          (fun _ => equal_weight) <$> signals
  end.

(** [EqualWeightSignalGenerator.generate_signals(price_data)], from the
    column labels of the price table; no columns is a division by zero. *)
Definition equal_weight_signals (columns : list string)
    : Outcome (gmap string Q) :=
  match columns with
  | [] => Raised "ZeroDivisionError"
  | _ =>
      let equal_weight := 1 / inject_Z (Z.of_nat (length columns)) in
      Done (validate_signals
              (Some (list_to_map ((fun s => (s, equal_weight)) <$> columns))))
  end.

(* ===================================================================== *)
(** ** engine/backtest_v4.py: validation, win rate, pre-computed signals *)
(* ===================================================================== *)

(** [_validate_portfolio_state(portfolio, prices)]: false as soon as a
    priced symbol is held with a negative quantity. *)
Definition _validate_portfolio_state (pf : Portfolio)
    (prices : gmap string Q) : bool :=
  map_fold (fun symbol position valid =>
              match prices !! symbol with
              | None => valid
              | Some _ =>
                  if ltb (pos_quantity position) 0 then false else valid
              end)
           true (positions pf).

(** The win-rate block of [_calculate_results]:
    [wins / len(trades)] over all logged trades, [0] without trades. *)
Definition win_rate (trades : list Trade) : Q :=
  if (0 <? length trades)%nat then
    inject_Z (Z.of_nat (length (List.filter (fun t => ltb 0 (trd_pnl t))
                                            trades)))
    / inject_Z (Z.of_nat (length trades))
  else 0.

(** The loop of [run_backtest_with_signals] applies every trade that
    [execute_orders] returns to the same portfolio once more and keeps its
    own trade log. *)
Definition reapply_trade (st : Portfolio * TradeLog) (trade : Trade)
    : Portfolio * TradeLog :=
  let '(pf, log) := st in
  (snd (update_from_trade pf trade), add_trade log trade).

Section SignalsBacktest.

Variables alloc_commission_rate alloc_slippage_rate : Q.
Variables commission_rate slippage_rate : Q.

(** [signals]: the pre-computed targets, one row per date. *)
Variable signals_table : gmap Z (gmap string Q).

(** One iteration of the loop of [run_backtest_with_signals]: the engine
    and the loop's local trade log.  The [try/except] blocks guard
    exceptions that the modelled planner and engine do not raise. *)
Definition signals_step (st : ExecutionEngine * TradeLog)
    (row : Z * gmap string Q) : ExecutionEngine * TradeLog :=
  let '(eng, log) := st in
  let '(current_date, current_prices) := row in
  match signals_table !! current_date with
  | None => st
  | Some current_signals =>
      let pf := mark_to_market (portfolio eng) current_date current_prices in
      let orders :=
        calculate_rebalance_orders alloc_commission_rate alloc_slippage_rate
          pf current_signals current_prices (Some current_date) in
      match orders with
      | [] => ({| portfolio := pf; trade_log := trade_log eng |}, log)
      | _ =>
          let '(trade_results, eng) :=
            execute_orders commission_rate slippage_rate
              {| portfolio := pf; trade_log := trade_log eng |}
              orders current_date current_prices in
          let '(pf, log) :=
            fold_left reapply_trade trade_results (portfolio eng, log) in
          ({| portfolio := mark_to_market pf current_date current_prices;
              trade_log := trade_log eng |}, log)
      end
  end.

(** [run_backtest_with_signals(signals, price_data)]: a fresh portfolio
    and trade logs, then the loop over the price table. *)
Definition run_backtest_with_signals (initial_capital : Q)
    (price_data : list (Z * gmap string Q)) : ExecutionEngine * TradeLog :=
  fold_left signals_step price_data
    (ExecutionEngine_init initial_capital, []).

End SignalsBacktest.

(* ===================================================================== *)
(** ** engine/execution_v4.py at binary64 precision *)
(* ===================================================================== *)

(** The definitions above compute every amount exactly.  Python computes
    them in IEEE 754 binary64, and for the quantity a buy is cut to the
    rounding decides.  This module repeats [execute_orders], its two
    validators and the [Portfolio] methods they call with every operation
    rounded to nearest-even as the machine does it ([SpecFloat], precision
    53, exponent bound 1024).

    Conventions of this module.
    - A Python [float] is a [spec_float]; the prices, rates and the cash
      balance are floats.
    - A whole-number quantity (the Python [int] that [int()] returns) is held
      as the double of the same value; the integer part of a double is always
      a double, and sums of share counts are exact below [2^53].
    - [a / b] raises [ZeroDivisionError] when [b] is zero, [int(x)] raises
      [OverflowError] on an infinity and [ValueError] on a NaN; comparisons
      with a NaN are false. *)
Module Binary64.

Definition float : Type := spec_float.
Definition prec : Z := 53.
Definition emax : Z := 1024.

Definition fadd : float -> float -> float := SFadd prec emax.
Definition fsub : float -> float -> float := SFsub prec emax.
Definition fmul : float -> float -> float := SFmul prec emax.
Definition fdiv : float -> float -> float := SFdiv prec emax.
Definition fabs : float -> float := SFabs.
Definition fopp : float -> float := SFopp.
Definition fltb : float -> float -> bool := SFltb.
Definition fleb : float -> float -> bool := SFleb.
Definition feqb : float -> float -> bool := SFeqb.

Definition zero : float := S754_zero false.

(** [float(z)] for an integer [z]. *)
Definition of_Z (z : Z) : float := binary_normalize prec emax z 0 false.

Definition one : float := of_Z 1.

(** The double a decimal literal denotes: the one nearest to [n / d], for
    [n] and [d] below [2^53] ([10.05] is [of_ratio 1005 100]). *)
Definition of_ratio (n : Z) (d : positive) : float :=
  fdiv (of_Z n) (of_Z (Zpos d)).

Definition is_zero (x : float) : bool :=
  match x with S754_zero _ => true | _ => false end.

(** [a / b] *)
Definition py_div (a b : float) : Outcome float :=
  if is_zero b then Raised "ZeroDivisionError" else Done (fdiv a b).

(** [int(x)]: the integer part.  For a double [m * 2^e] with [e < 0] it is
    [m / 2^(-e)] rounded toward zero, written back at the same exponent. *)
Definition py_int (x : float) : Outcome float :=
  match x with
  | S754_nan => Raised "ValueError"
  | S754_infinity _ => Raised "OverflowError"
  | S754_zero _ => Done zero
  | S754_finite s m e =>
      if (0 <=? e)%Z then Done x
      else
        let scale := (2 ^ Z.to_pos (- e))%positive in
        match (Zpos m / Zpos scale)%Z with
        | Zpos q => Done (S754_finite s (q * scale) e)
        | _ => Done zero
        end
  end.

(** The rational a finite double stands for. *)
Definition value (x : float) : Q :=
  match x with
  | S754_finite s m e =>
      let v :=
        if (0 <=? e)%Z then inject_Z (Zpos m * 2 ^ e)
        else Zpos m # 2 ^ Z.to_pos (- e) in
      if s then - v else v
  | _ => 0
  end.

(** *** engine/orders_v4.py *)

Inductive OrderPrice : Type :=
| PriceNone
| PriceNum (p : float)
| PriceDate (d : option Z).

Record Order : Type := mkOrder {
  ord_symbol : string;
  ord_quantity : float;
  ord_price : OrderPrice;
  ord_type : string;
  ord_date : OrderDate
}.

Record Trade : Type := mkTrade {
  trd_symbol : string;
  trd_quantity : float;
  trd_order_date : OrderDate;
  trd_order_type : string;
  trd_execution_date : Z;
  trd_execution_price : float;
  trd_commission : float;
  trd_amount : float;
  trd_pnl : float
}.

Definition Trade_init (order : Order) (execution_date : Z)
    (execution_price commission amount : float) : Trade :=
  {| trd_symbol := ord_symbol order;
     trd_quantity := ord_quantity order;
     trd_order_date := ord_date order;
     trd_order_type := ord_type order;
     trd_execution_date := execution_date;
     trd_execution_price := execution_price;
     trd_commission := commission;
     trd_amount := amount;
     trd_pnl := zero |}.

Definition set_pnl (t : Trade) (pnl : float) : Trade :=
  {| trd_symbol := trd_symbol t;
     trd_quantity := trd_quantity t;
     trd_order_date := trd_order_date t;
     trd_order_type := trd_order_type t;
     trd_execution_date := trd_execution_date t;
     trd_execution_price := trd_execution_price t;
     trd_commission := trd_commission t;
     trd_amount := trd_amount t;
     trd_pnl := pnl |}.

Definition TradeLog : Type := list Trade.

Definition add_trade (log : TradeLog) (t : Trade) : TradeLog := log ++ [t].

(** *** engine/portfolio_v4.py *)

Record Position : Type := mkPosition {
  pos_quantity : float;
  pos_cost_basis : float;
  pos_value : float
}.

Record Snapshot : Type := mkSnapshot {
  snap_cash : float;
  snap_positions : gmap string Position;
  snap_total_value : float
}.

Record Portfolio : Type := mkPortfolio {
  cash : float;
  positions : gmap string Position;
  history : gmap Z Snapshot
}.

Definition Portfolio_init (initial_capital : float) : Portfolio :=
  {| cash := initial_capital; positions := ∅; history := ∅ |}.

Definition with_cash (pf : Portfolio) (c : float) : Portfolio :=
  {| cash := c; positions := positions pf; history := history pf |}.

Definition with_positions (pf : Portfolio) (ps : gmap string Position)
    : Portfolio :=
  {| cash := cash pf; positions := ps; history := history pf |}.

Definition get_position (pf : Portfolio) (symbol : string) : option Position :=
  positions pf !! symbol.

(** [add_position(symbol, quantity, price, cost_basis=None)].  The division
    is guarded by [new_quantity != 0]. *)
Definition add_position (pf : Portfolio) (symbol : string)
    (quantity price : float) (cost_basis : option float) : Portfolio :=
  let cost_basis := match cost_basis with Some c => c | None => price end in
  match positions pf !! symbol with
  | Some pos =>
      let current_quantity := pos_quantity pos in
      let current_cost := fmul (pos_cost_basis pos) current_quantity in
      let new_quantity := fadd current_quantity quantity in
      let new_cost := fadd current_cost (fmul quantity cost_basis) in
      if negb (feqb new_quantity zero) then
        with_positions pf
          (<[symbol := {| pos_quantity := new_quantity;
                          pos_cost_basis := fdiv new_cost new_quantity;
                          pos_value := fmul new_quantity price |}]>
             (positions pf))
      else
        with_positions pf (delete symbol (positions pf))
  | None =>
      with_positions pf
        (<[symbol := {| pos_quantity := quantity;
                        pos_cost_basis := cost_basis;
                        pos_value := fmul quantity price |}]>
           (positions pf))
  end.

(** [remove_position(symbol, quantity, price) -> (success, pnl)] *)
Definition remove_position (pf : Portfolio) (symbol : string)
    (quantity price : float) : bool * float * Portfolio :=
  match positions pf !! symbol with
  | Some pos =>
      let current_quantity := pos_quantity pos in
      if fleb quantity current_quantity then
        let cost_basis := pos_cost_basis pos in
        let pnl := fmul (fsub price cost_basis) quantity in
        let new_quantity := fsub current_quantity quantity in
        if fltb zero new_quantity then
          (true, pnl,
           with_positions pf
             (<[symbol := {| pos_quantity := new_quantity;
                             pos_cost_basis := pos_cost_basis pos;
                             pos_value := fmul new_quantity price |}]>
                (positions pf)))
        else
          (true, pnl, with_positions pf (delete symbol (positions pf)))
      else (false, zero, pf)
  | None => (false, zero, pf)
  end.

(** [update_from_trade(trade) -> (success, pnl)] *)
Definition update_from_trade (pf : Portfolio) (trade : Trade)
    : bool * float * Portfolio :=
  let symbol := trd_symbol trade in
  let quantity := trd_quantity trade in
  let price := trd_execution_price trade in
  let pf1 := with_cash pf (fsub (cash pf) (trd_amount trade)) in
  if fltb zero quantity then
    (true, zero, add_position pf1 symbol quantity price None)
  else
    remove_position pf1 symbol (fabs quantity) price.

(** *** engine/execution_v4.py *)

Record ExecutionEngine : Type := mkEngine {
  portfolio : Portfolio;
  trade_log : TradeLog
}.

Definition ExecutionEngine_init (initial_capital : float) : ExecutionEngine :=
  {| portfolio := Portfolio_init initial_capital; trade_log := [] |}.

Section Execution.

Variables commission_rate slippage_rate : float.

(** [PercentSlippageModel.calculate_slippage(order, price)] *)
Definition calculate_slippage (order : Order) (price : float) : float :=
  if fltb zero (ord_quantity order)
  then fmul price (fadd one slippage_rate)
  else fmul price (fsub one slippage_rate).

(** [PercentCommissionModel.calculate_commission(order, execution_price)] *)
Definition calculate_commission (order : Order) (execution_price : float)
    : float :=
  fabs (fmul (fmul (ord_quantity order) execution_price) commission_rate).

Definition adjusted_order (order : Order) (quantity : float) : Order :=
  {| ord_symbol := ord_symbol order;
     ord_quantity := quantity;
     ord_price := ord_price order;
     ord_type := ord_type order;
     ord_date := ord_date order |}.

(** [validate_sell_order(order, prices, execution_date)] *)
Definition validate_sell_order (pf : Portfolio) (order : Order)
    (prices : gmap string float) : option Order :=
  let symbol := ord_symbol order in
  match prices !! symbol with
  | None => None
  | Some _ =>
      match get_position pf symbol with
      | None => None
      | Some position =>
          if fleb (pos_quantity position) zero then None
          else
            let sell_quantity := fabs (ord_quantity order) in
            let current_quantity := pos_quantity position in
            if fltb current_quantity sell_quantity
            then Some (adjusted_order order (fopp current_quantity))
            else Some order
      end
  end.

(** [max_shares = int((available_cash - commission) / execution_price)] *)
Definition max_shares (available_cash commission execution_price : float)
    : Outcome float :=
  match py_div (fsub available_cash commission) execution_price with
  | Done q => py_int q
  | Raised e => Raised e
  end.

(** [validate_buy_order(order, prices, execution_date, available_cash)]:
    [Done None] for [(False, None, msg)], [Done (Some o)] for
    [(True, o, _)]. *)
Definition validate_buy_order (order : Order) (prices : gmap string float)
    (available_cash : float) : Outcome (option Order) :=
  let symbol := ord_symbol order in
  match prices !! symbol with
  | None => Done None
  | Some price =>
      let execution_price := calculate_slippage order price in
      let commission := calculate_commission order execution_price in
      let total_amount :=
        fadd (fmul (ord_quantity order) execution_price) commission in
      if fltb available_cash total_amount then
        if fleb available_cash commission then Done None
        else
          match max_shares available_cash commission execution_price with
          | Raised e => Raised e
          | Done max_shares =>
              if fleb max_shares zero then Done None
              else Done (Some (adjusted_order order max_shares))
          end
      else Done (Some order)
  end.

(** Body of the first loop of [execute_orders]. *)
Definition build_sell_trade (pf : Portfolio) (execution_date : Z)
    (prices : gmap string float) (order : Order) : option Trade :=
  match validate_sell_order pf order prices with
  | None => None
  | Some order =>
      match prices !! ord_symbol order with
      | None => None  (* not reached: the validator has checked the key *)
      | Some price =>
          let execution_price := calculate_slippage order price in
          let commission := calculate_commission order execution_price in
          let amount :=
            fsub (fmul (ord_quantity order) execution_price) commission in
          Some (Trade_init order execution_date execution_price
                  commission amount)
      end
  end.

(** Body of the second loop: apply one sell trade. *)
Definition apply_sell_trade (st : ExecutionEngine * list Trade)
    (trade : Trade) : ExecutionEngine * list Trade :=
  let '(eng, executed_trades) := st in
  let '(success, pnl, pf) := update_from_trade (portfolio eng) trade in
  if success then
    let trade := set_pnl trade pnl in
    ({| portfolio := pf; trade_log := add_trade (trade_log eng) trade |},
     executed_trades ++ [trade])
  else
    ({| portfolio := pf; trade_log := trade_log eng |}, executed_trades).

(** Body of the third loop: validate one buy order against the live cash
    balance and apply it. *)
Definition execute_buy (execution_date : Z) (prices : gmap string float)
    (st : ExecutionEngine * list Trade) (order : Order)
    : Outcome (ExecutionEngine * list Trade) :=
  let '(eng, executed_trades) := st in
  match validate_buy_order order prices (cash (portfolio eng)) with
  | Raised e => Raised e
  | Done None => Done st
  | Done (Some order) =>
      match prices !! ord_symbol order with
      | None => Done st  (* not reached: the validator has checked the key *)
      | Some price =>
          let execution_price := calculate_slippage order price in
          let commission := calculate_commission order execution_price in
          let amount :=
            fadd (fmul (ord_quantity order) execution_price) commission in
          let trade := Trade_init order execution_date execution_price
                         commission amount in
          let '(success, _, pf) := update_from_trade (portfolio eng) trade in
          if success then
            Done ({| portfolio := pf;
                     trade_log := add_trade (trade_log eng) trade |},
                  executed_trades ++ [trade])
          else
            Done ({| portfolio := pf; trade_log := trade_log eng |},
                  executed_trades)
      end
  end.

(** The third loop; an exception leaves it at once. *)
Fixpoint execute_buys (execution_date : Z) (prices : gmap string float)
    (st : ExecutionEngine * list Trade) (buy_orders : list Order)
    : Outcome (ExecutionEngine * list Trade) :=
  match buy_orders with
  | [] => Done st
  | order :: rest =>
      match execute_buy execution_date prices st order with
      | Done st => execute_buys execution_date prices st rest
      | Raised e => Raised e
      end
  end.

Definition is_sell (order : Order) : bool := fltb (ord_quantity order) zero.
Definition is_buy (order : Order) : bool := fltb zero (ord_quantity order).

(** [execute_orders(orders, execution_date, prices)] *)
Definition execute_orders (eng : ExecutionEngine) (orders : list Order)
    (execution_date : Z) (prices : gmap string float)
    : Outcome (list Trade * ExecutionEngine) :=
  match orders with
  | [] => Done ([], eng)
  | _ =>
      let sell_orders := List.filter is_sell orders in
      let buy_orders := List.filter is_buy orders in
      let sell_trades :=
        omap (build_sell_trade (portfolio eng) execution_date prices)
             sell_orders in
      let st1 := fold_left apply_sell_trade sell_trades (eng, []) in
      match execute_buys execution_date prices st1 buy_orders with
      | Done st2 => Done (snd st2, fst st2)
      | Raised e => Raised e
      end
  end.

End Execution.

End Binary64.

(* ===================================================================== *)
(** ** Auxiliary notions and test scenarios *)
(* ===================================================================== *)

(** Closes a comparison between concrete rationals or integers. *)
Ltac by_computation :=
  vm_compute; first [ reflexivity | discriminate | intro; discriminate ].

(** A sell of 5 shares of B at 12, for a portfolio that holds no B. *)
Definition rejected_sell_trade : Trade :=
  {| trd_symbol := "B"; trd_quantity := - (5); trd_order_date := DateToday;
     trd_order_type := "MARKET"; trd_execution_date := 1;
     trd_execution_price := 12; trd_commission := 0;
     trd_amount := - (60); trd_pnl := 0 |}.

(** A portfolio without cash that holds one symbol. *)
Definition one_position (symbol : string) (quantity cost : Q) : Portfolio :=
  {| cash := 0;
     positions := {[ symbol := {| pos_quantity := quantity;
                                  pos_cost_basis := cost;
                                  pos_value := quantity * cost |} ]};
     history := ∅ |}.

(** Scenario B: 50 shares of B held at cost basis 10 and sold at 12. *)
Definition scenario_B_engine : ExecutionEngine :=
  {| portfolio := one_position "B" 50 10; trade_log := [] |}.

Definition scenario_B_trade (commission : Q) : Trade :=
  {| trd_symbol := "B"; trd_quantity := - (50); trd_order_date := DateToday;
     trd_order_type := "MARKET"; trd_execution_date := 1;
     trd_execution_price := 12; trd_commission := commission;
     trd_amount := - (50) * 12 - commission; trd_pnl := 0 |}.

(** Market orders as the planner would hand them over. *)
Definition sell_order (symbol : string) (quantity : Q) : Order :=
  {| ord_symbol := symbol; ord_quantity := - quantity;
     ord_price := PriceDate None; ord_type := "MARKET";
     ord_date := DateToday |}.

Definition buy_order_of (symbol : string) (quantity : Q) : Order :=
  {| ord_symbol := symbol; ord_quantity := quantity;
     ord_price := PriceNone; ord_type := "MARKET"; ord_date := DateToday |}.

(** The values stored in a positions map, and their sum. *)
Definition stored_values (ps : gmap string Position) : list Q :=
  (fun kv => pos_value (snd kv)) <$> map_to_list ps.

Definition Qsum (l : list Q) : Q := foldr Qplus 0 l.

(** A fresh engine with 1000 in cash. *)
Definition clipped_buy_engine : ExecutionEngine := ExecutionEngine_init 1000.

(** Every quoted price is strictly positive. *)
Definition prices_positive (prices : gmap string Q) : Prop :=
  forall symbol price, prices !! symbol = Some price -> 0 < price.

(** The engine after a sequence of [execute_orders] calls, each with its own
    orders, date and prices. *)
Definition execute_batches (cr sr : Q) (eng : ExecutionEngine)
    (batches : list (list Order * Z * gmap string Q)) : ExecutionEngine :=
  fold_left (fun eng b =>
               snd (execute_orders cr sr eng (fst (fst b)) (snd (fst b))
                      (snd b)))
            batches eng.

(** Prices of the single symbol A, day by day. *)
Definition prices_A (p : Q) : gmap string Q := {[ "A"%string := p ]}.

(** A price table of two consecutive days. *)
Definition two_days : list (Z * gmap string Q) :=
  [(0%Z, prices_A 100); (1%Z, prices_A 50)].

(** Target weight 1 for A, supplied for day 0 only. *)
Definition signals_day0 : gmap Z (gmap string Q) :=
  {[ 0%Z := {[ "A"%string := 1 ]} ]}.

(** Views of the state a run ends in: execution date, quantity and price of
    each logged trade; the calls made; the queue. *)
Definition log_dates (o : Outcome BacktestState) : list (Z * Q * Q) :=
  match o with
  | Done st =>
      (fun t => (trd_execution_date t, trd_quantity t, trd_execution_price t))
        <$> trade_log (execution_engine st)
  | Raised _ => []
  end.

Definition final_trace (o : Outcome BacktestState) : list DriverEvent :=
  match o with Done st => trace st | Raised _ => [] end.

Definition final_pending (o : Outcome BacktestState)
    : option (gmap Z (list Order)) :=
  match o with Done st => Some (pending_orders st) | Raised _ => None end.

(** Every held quantity is positive: the shape of the positions map in
    the data model ([_validate_portfolio_state] reports a negative quantity
    as an invalid portfolio). *)
Definition holdings_positive (pf : Portfolio) : Prop :=
  forall symbol pos,
    positions pf !! symbol = Some pos -> 0 < pos_quantity pos.

(** What the planner reckons one share of a symbol costs, slippage and
    commission included ([single_share_cost]), and what an order then costs
    or brings in. *)
Definition unit_cost (cr sr : Q) (prices : gmap string Q) (symbol : string)
    : Q :=
  match prices !! symbol with
  | Some price => price * (1 + sr) * (1 + cr)
  | None => 0
  end.

Definition estimated_cost (cr sr : Q) (prices : gmap string Q) (o : Order)
    : Q :=
  ord_quantity o * unit_cost cr sr prices (ord_symbol o).

Definition estimated_proceeds (cr : Q) (prices : gmap string Q) (o : Order)
    : Q :=
  match prices !! ord_symbol o with
  | Some price => Qabs (ord_quantity o * price) * (1 - cr)
  | None => 0
  end.

(** Descending order of the planner's priority list. *)
Definition change_ge (a b : string * BuyEstimate) : Prop :=
  est_dollar_change (snd b) <= est_dollar_change (snd a).

(** The weight a symbol has in a portfolio valued at given prices: its
    value over the total value, 0 when it is not held. *)
Definition current_weight (pf : Portfolio) (prices : gmap string Q)
    (symbol : string) : Q :=
  match positions pf !! symbol with
  | Some pos =>
      held_value (Some prices) symbol pos / get_total_value pf (Some prices)
  | None => 0
  end.

(** Cash 1005.0, the symbol A priced 10.05, and a buy of 1100 shares of A:
    a batch in which rounding decides how many shares are bought. *)
Definition rounding_engine : Binary64.ExecutionEngine :=
  Binary64.ExecutionEngine_init (Binary64.of_Z 1005).

Definition rounding_prices : gmap string Binary64.float :=
  {[ "A"%string := Binary64.of_ratio 1005 100 ]}.

Definition rounding_order : Binary64.Order :=
  {| Binary64.ord_symbol := "A";
     Binary64.ord_quantity := Binary64.of_Z 1100;
     Binary64.ord_price := Binary64.PriceNone;
     Binary64.ord_type := "MARKET";
     Binary64.ord_date := DateToday |}.

(** The trade that batch produces on day 1: 100 shares at 10.05. *)
Definition rounding_trade : Binary64.Trade :=
  {| Binary64.trd_symbol := "A";
     Binary64.trd_quantity := Binary64.of_Z 100;
     Binary64.trd_order_date := DateToday;
     Binary64.trd_order_type := "MARKET";
     Binary64.trd_execution_date := 1;
     Binary64.trd_execution_price :=
       Binary64.fmul (Binary64.of_ratio 1005 100)
         (Binary64.fadd Binary64.one Binary64.zero);
     Binary64.trd_commission := Binary64.zero;
     Binary64.trd_amount :=
       Binary64.fmul (Binary64.of_Z 100) (Binary64.of_ratio 1005 100);
     Binary64.trd_pnl := Binary64.zero |}.

(** An engine without cash that holds 10 shares of A bought at 100, and a
    sell of those shares. *)
Definition rounding_holder : Binary64.ExecutionEngine :=
  {| Binary64.portfolio :=
       {| Binary64.cash := Binary64.zero;
          Binary64.positions :=
            {[ "A"%string :=
                 {| Binary64.pos_quantity := Binary64.of_Z 10;
                    Binary64.pos_cost_basis := Binary64.of_Z 100;
                    Binary64.pos_value := Binary64.of_Z 1000 |} ]};
          Binary64.history := ∅ |};
     Binary64.trade_log := [] |}.

Definition rounding_sell : Binary64.Order :=
  {| Binary64.ord_symbol := "A";
     Binary64.ord_quantity := Binary64.of_Z (-10);
     Binary64.ord_price := Binary64.PriceDate None;
     Binary64.ord_type := "MARKET";
     Binary64.ord_date := DateToday |}.

(* ===================================================================== *)
(** * Properties *)
(* ===================================================================== *)

(** ** Facts about the numeric built-ins *)

Lemma leb_le a b : leb a b = true <-> a <= b.
Proof. apply Qle_bool_iff. Qed.

Lemma leb_gt a b : leb a b = false <-> b < a.
Proof.
  unfold leb. split; intros H.
  - apply Qnot_le_lt. intros Hle. apply Qle_bool_iff in Hle. congruence.
  - destruct (Qle_bool a b) eqn:E; [|reflexivity].
    apply Qle_bool_iff in E. exfalso. apply (Qlt_not_le _ _ H E).
Qed.

Lemma ltb_lt a b : ltb a b = true <-> a < b.
Proof.
  unfold ltb. rewrite negb_true_iff. apply (leb_gt b a).
Qed.

Lemma ltb_ge a b : ltb a b = false <-> b <= a.
Proof.
  unfold ltb. rewrite negb_false_iff. apply (leb_le b a).
Qed.

Lemma eqb_eq a b : eqb a b = true <-> a == b.
Proof. apply Qeq_bool_iff. Qed.

Lemma eqb_neq a b : eqb a b = false <-> ~ a == b.
Proof.
  unfold eqb. split; intros H.
  - intros Heq. apply Qeq_bool_iff in Heq. congruence.
  - destruct (Qeq_bool a b) eqn:E; [|reflexivity].
    apply Qeq_bool_iff in E. contradiction.
Qed.

(** On non-negative numbers [int] is the floor. *)
Lemma py_int_nonneg x : 0 <= x -> py_int x = Qfloor x.
Proof.
  intros H. unfold py_int. apply leb_le in H. now rewrite H.
Qed.

Lemma py_int_le x : 0 <= x -> inject_Z (py_int x) <= x.
Proof.
  intros H. rewrite py_int_nonneg by exact H. apply Qfloor_le.
Qed.

Lemma py_int_neg_nonpos x : x < 0 -> (py_int x <= 0)%Z.
Proof.
  intros H. unfold py_int.
  assert (E : leb 0 x = false) by (apply leb_gt; exact H).
  rewrite E. unfold Qceiling.
  assert (0 <= Qfloor (- x))%Z; [|lia].
  change 0%Z with (Qfloor 0). apply Qfloor_resp_le. lra.
Qed.

Lemma Qfloor_neg_negative x : x < 0 -> (Qfloor x < 0)%Z.
Proof.
  intros H. destruct (Z_lt_le_dec (Qfloor x) 0) as [|Hge]; [assumption|].
  exfalso. assert (Hx : inject_Z (Qfloor x) <= x) by apply Qfloor_le.
  assert (0 <= inject_Z (Qfloor x)).
  { change 0 with (inject_Z 0). rewrite <- Zle_Qle. exact Hge. }
  lra.
Qed.

(** [int(x)] and [floor(x)] agree on whether the result is positive, and
    agree in value when it is. *)
Lemma py_int_pos_iff_floor x : (0 < py_int x)%Z <-> (0 < Qfloor x)%Z.
Proof.
  destruct (Qlt_le_dec x 0) as [Hneg|Hpos].
  - pose proof (py_int_neg_nonpos x Hneg).
    pose proof (Qfloor_neg_negative x Hneg). lia.
  - now rewrite py_int_nonneg.
Qed.

Lemma py_int_pos_floor x : (0 < py_int x)%Z -> py_int x = Qfloor x.
Proof.
  intros H. destruct (Qlt_le_dec x 0) as [Hneg|Hpos].
  - pose proof (py_int_neg_nonpos x Hneg). lia.
  - now apply py_int_nonneg.
Qed.

(* ===================================================================== *)
(** ** Portfolio: applying trades *)
(* ===================================================================== *)

Lemma update_from_trade_buy (pf : Portfolio) (t : Trade) :
  0 < trd_quantity t ->
  update_from_trade pf t =
  (true, 0,
   add_position (with_cash pf (cash pf - trd_amount t)) (trd_symbol t)
     (trd_quantity t) (trd_execution_price t) None).
Proof.
  intros H. unfold update_from_trade.
  apply ltb_lt in H. now rewrite H.
Qed.

Lemma update_from_trade_sell (pf : Portfolio) (t : Trade) :
  trd_quantity t <= 0 ->
  update_from_trade pf t =
  remove_position (with_cash pf (cash pf - trd_amount t)) (trd_symbol t)
    (Qabs (trd_quantity t)) (trd_execution_price t).
Proof.
  intros H. unfold update_from_trade.
  apply ltb_ge in H. now rewrite H.
Qed.

Lemma add_position_cash (pf : Portfolio) symbol quantity price cb :
  cash (add_position pf symbol quantity price cb) = cash pf.
Proof.
  unfold add_position.
  destruct (positions pf !! symbol) as [pos|]; [|reflexivity].
  destruct (negb _); reflexivity.
Qed.

Lemma remove_position_cash (pf : Portfolio) symbol quantity price :
  cash (snd (remove_position pf symbol quantity price)) = cash pf.
Proof.
  unfold remove_position.
  destruct (positions pf !! symbol) as [pos|]; [|reflexivity].
  destruct (leb _ _); [|reflexivity].
  destruct (ltb _ _); reflexivity.
Qed.

(** Whatever the outcome, [update_from_trade] moves cash by [-amount]. *)
Lemma update_from_trade_cash (pf : Portfolio) (t : Trade) :
  cash (snd (update_from_trade pf t)) = cash pf - trd_amount t.
Proof.
  unfold update_from_trade. destruct (ltb 0 (trd_quantity t)).
  - cbn [snd]. now rewrite add_position_cash.
  - now rewrite remove_position_cash.
Qed.

(** C10.  A sell trade whose symbol is not held, or is held in a smaller
    quantity than the trade asks for, makes [update_from_trade] return
    [(False, 0)] with the positions map untouched, yet the cash balance has
    already moved by [-amount] and stays moved. *)
Theorem update_from_trade_rejected_sell_keeps_cash_change
    (pf : Portfolio) (t : Trade) :
  trd_quantity t < 0 ->
  (positions pf !! trd_symbol t = None \/
   exists pos, positions pf !! trd_symbol t = Some pos /\
               pos_quantity pos < Qabs (trd_quantity t)) ->
  exists pf',
    update_from_trade pf t = (false, 0, pf') /\
    positions pf' = positions pf /\
    cash pf' = cash pf - trd_amount t.
Proof.
  intros Hneg Hheld.
  exists (with_cash pf (cash pf - trd_amount t)).
  split; [|split; reflexivity].
  rewrite update_from_trade_sell by lra.
  unfold remove_position. cbn [positions with_cash].
  destruct Hheld as [Hnone | (pos & Hsome & Hlt)].
  - now rewrite Hnone.
  - rewrite Hsome. apply leb_gt in Hlt. now rewrite Hlt.
Qed.

Lemma update_from_trade_rejected_sell_witness :
  trd_quantity rejected_sell_trade < 0 /\
  positions (Portfolio_init 1000) !! trd_symbol rejected_sell_trade = None /\
  exists pf',
    update_from_trade (Portfolio_init 1000) rejected_sell_trade
      = (false, 0, pf') /\
    positions pf' = positions (Portfolio_init 1000) /\
    cash pf' = cash (Portfolio_init 1000) - trd_amount rejected_sell_trade.
Proof.
  split; [reflexivity|]. split; [reflexivity|].
  apply (update_from_trade_rejected_sell_keeps_cash_change
           (Portfolio_init 1000) rejected_sell_trade).
  - reflexivity.
  - left. reflexivity.
Defined.

(** The rejected sell above credits 60 to cash although nothing was sold. *)
Example rejected_sell_cash :
  cash (snd (update_from_trade (Portfolio_init 1000) rejected_sell_trade))
  == 1060.
Proof. by_computation. Qed.

(** C9.  Buying [buy_qty] shares at price [p]: an existing position of
    [old_qty] shares at cost basis [old_cost] becomes [old_qty + buy_qty]
    shares at cost basis
    [(old_qty * old_cost + buy_qty * p) / (old_qty + buy_qty)]; a symbol
    without a position gets a new one of [buy_qty] shares at cost basis
    [p].  The only assumption is that the quotient is defined, that is
    [old_qty + buy_qty] is not zero; it always is when held quantities are
    positive and [buy_qty > 0]. *)
Theorem add_position_weighted_average_cost
    (pf : Portfolio) (symbol : string) (buy_qty p : Q) :
  (forall pos, positions pf !! symbol = Some pos ->
               ~ pos_quantity pos + buy_qty == 0) ->
  match positions pf !! symbol with
  | Some old =>
      exists pos',
        positions (add_position pf symbol buy_qty p None) !! symbol
          = Some pos' /\
        pos_quantity pos' == pos_quantity old + buy_qty /\
        pos_cost_basis pos' ==
          (pos_quantity old * pos_cost_basis old + buy_qty * p)
          / (pos_quantity old + buy_qty)
  | None =>
      positions (add_position pf symbol buy_qty p None) !! symbol
        = Some {| pos_quantity := buy_qty;
                  pos_cost_basis := p;
                  pos_value := buy_qty * p |}
  end.
Proof.
  intros Hdefined. unfold add_position.
  destruct (positions pf !! symbol) as [old|] eqn:E.
  - specialize (Hdefined old eq_refl).
    assert (Hne : eqb (pos_quantity old + buy_qty) 0 = false)
      by (apply eqb_neq; exact Hdefined).
    rewrite Hne. cbn [negb positions with_positions].
    eexists. split; [apply lookup_insert_eq|].
    cbn [pos_quantity pos_cost_basis]. split; [reflexivity|].
    now rewrite (Qmult_comm (pos_cost_basis old) (pos_quantity old)).
  - cbn [positions with_positions]. apply lookup_insert_eq.
Qed.

Lemma add_position_weighted_average_cost_witness :
  (forall pos, positions (one_position "A" 30 8) !! "A"%string = Some pos ->
               ~ pos_quantity pos + 10 == 0) /\
  exists pos',
    positions (add_position (one_position "A" 30 8) "A" 10 12 None)
      !! "A"%string = Some pos' /\
    pos_quantity pos' == 30 + 10 /\
    pos_cost_basis pos' == (30 * 8 + 10 * 12) / (30 + 10).
Proof.
  assert (Hdefined : forall pos,
             positions (one_position "A" 30 8) !! "A"%string = Some pos ->
             ~ pos_quantity pos + 10 == 0).
  { intros pos H. vm_compute in H. injection H as <-. by_computation. }
  split; [exact Hdefined|].
  exact (add_position_weighted_average_cost
           (one_position "A" 30 8) "A" 10 12 Hdefined).
Defined.

(** On a portfolio with positive holdings every buy meets the assumption. *)
Lemma buy_keeps_quotient_defined (pf : Portfolio) (symbol : string)
    (buy_qty : Q) :
  holdings_positive pf -> 0 < buy_qty ->
  forall pos, positions pf !! symbol = Some pos ->
              ~ pos_quantity pos + buy_qty == 0.
Proof.
  intros Hpf Hbuy pos Hpos H0. pose proof (Hpf _ _ Hpos). lra.
Qed.

(** 30 shares at 8 plus 10 shares at 12 are 40 shares at 9. *)
Example add_position_weighted_average_value :
  (pos_cost_basis <$>
     positions (add_position (one_position "A" 30 8) "A" 10 12 None)
       !! "A"%string) = Some (360 # 40).
Proof. vm_compute. reflexivity. Qed.

(** The same update reaches the portfolio through a buy trade. *)
Lemma update_from_trade_buy_positions (pf : Portfolio) (t : Trade) :
  0 < trd_quantity t ->
  positions (snd (update_from_trade pf t)) =
  positions (add_position pf (trd_symbol t) (trd_quantity t)
               (trd_execution_price t) None).
Proof.
  intros H. rewrite update_from_trade_buy by exact H. cbn [snd].
  unfold add_position. cbn [positions with_cash].
  destruct (positions pf !! trd_symbol t) as [pos|]; [|reflexivity].
  destruct (negb _); reflexivity.
Qed.

(** Trades applied through [update_from_trade] keep every held quantity
    positive, so the portfolios the engine reaches from [Portfolio()] have
    positive holdings. *)
Lemma Portfolio_init_holdings_positive (initial_capital : Q) :
  holdings_positive (Portfolio_init initial_capital).
Proof. intros symbol pos H. cbn in H. now rewrite lookup_empty in H. Qed.

Lemma update_from_trade_holdings_positive (pf : Portfolio) (t : Trade) :
  holdings_positive pf ->
  holdings_positive (snd (update_from_trade pf t)).
Proof.
  intros Hpf symbol pos'. unfold update_from_trade.
  destruct (ltb 0 (trd_quantity t)) eqn:Hq; cbn [snd].
  - apply ltb_lt in Hq. unfold add_position. cbn [positions with_cash].
    destruct (positions pf !! trd_symbol t) as [old|] eqn:Hold.
    + pose proof (Hpf _ _ Hold) as Hpos.
      assert (Hne : eqb (pos_quantity old + trd_quantity t) 0 = false)
        by (apply eqb_neq; intros H0; lra).
      rewrite Hne. cbn [negb positions with_positions].
      intros H. apply lookup_insert_Some in H as [[_ <-] | [_ H]].
      * cbn. lra.
      * exact (Hpf _ _ H).
    + cbn [positions with_positions].
      intros H. apply lookup_insert_Some in H as [[_ <-] | [_ H]].
      * exact Hq.
      * exact (Hpf _ _ H).
  - unfold remove_position. cbn [positions with_cash].
    destruct (positions pf !! trd_symbol t) as [old|] eqn:Hold;
      [|cbn; apply Hpf].
    destruct (leb _ _); [|cbn; apply Hpf].
    destruct (ltb 0 (pos_quantity old - Qabs (trd_quantity t))) eqn:Hleft;
      cbn [snd positions with_positions].
    + apply ltb_lt in Hleft.
      intros H. apply lookup_insert_Some in H as [[_ <-] | [_ H]].
      * exact Hleft.
      * exact (Hpf _ _ H).
    + intros H. apply lookup_delete_Some in H as [_ H]. exact (Hpf _ _ H).
Qed.

(** C7.  A sell trade of [sell_qty = |quantity|] shares applied while
    [sell_qty <= held] is executed, and the trade put on the log carries
    [pnl = sell_qty * (execution_price - cost_basis)].  The trade's
    commission and amount are arbitrary here: commission moves cash only
    (through [amount]) and is not subtracted from the recorded pnl. *)
Theorem executed_sell_realized_pnl
    (eng : ExecutionEngine) (executed : list Trade) (t : Trade)
    (pos : Position) :
  trd_quantity t < 0 ->
  positions (portfolio eng) !! trd_symbol t = Some pos ->
  Qabs (trd_quantity t) <= pos_quantity pos ->
  exists eng' t',
    apply_sell_trade (eng, executed) t = (eng', executed ++ [t']) /\
    trade_log eng' = trade_log eng ++ [t'] /\
    trd_pnl t' ==
      Qabs (trd_quantity t) * (trd_execution_price t - pos_cost_basis pos) /\
    trd_quantity t' = trd_quantity t /\
    trd_commission t' = trd_commission t /\
    cash (portfolio eng') = cash (portfolio eng) - trd_amount t.
Proof.
  intros Hneg Hpos Hle.
  unfold apply_sell_trade.
  rewrite update_from_trade_sell by lra.
  unfold remove_position. cbn [positions with_cash].
  rewrite Hpos. apply leb_le in Hle. rewrite Hle.
  destruct (ltb 0 (pos_quantity pos - Qabs (trd_quantity t)));
    (eexists; eexists; split; [reflexivity|];
     cbn [trade_log portfolio set_pnl trd_pnl trd_quantity trd_commission
          cash with_positions with_cash];
     repeat split; try reflexivity; apply Qmult_comm).
Qed.

Lemma executed_sell_realized_pnl_witness :
  trd_quantity (scenario_B_trade 0) < 0 /\
  positions (portfolio scenario_B_engine) !! trd_symbol (scenario_B_trade 0)
    = Some {| pos_quantity := 50; pos_cost_basis := 10;
              pos_value := 50 * 10 |} /\
  Qabs (trd_quantity (scenario_B_trade 0)) <= 50 /\
  exists eng' t',
    apply_sell_trade (scenario_B_engine, []) (scenario_B_trade 0)
      = (eng', [] ++ [t']) /\
    trade_log eng' = trade_log scenario_B_engine ++ [t'] /\
    trd_pnl t' == Qabs (- (50)) * (12 - 10) /\
    trd_quantity t' = - (50) /\
    trd_commission t' = 0 /\
    cash (portfolio eng') =
      cash (portfolio scenario_B_engine) - trd_amount (scenario_B_trade 0).
Proof.
  split; [reflexivity|]. split; [reflexivity|].
  split; [by_computation|].
  apply (executed_sell_realized_pnl scenario_B_engine [] (scenario_B_trade 0)
           {| pos_quantity := 50; pos_cost_basis := 10;
              pos_value := 50 * 10 |}).
  - reflexivity.
  - reflexivity.
  - by_computation.
Defined.

(** Scenario B through [execute_orders], without costs and with a 1%
    commission: the recorded pnl is 100 both times. *)
Example scenario_B_pnl :
  (trd_pnl <$> fst (execute_orders 0 0 scenario_B_engine
                      [sell_order "B" 50] 1 {[ "B"%string := 12 ]}))
    = [100] /\
  (trd_pnl <$> fst (execute_orders (1 # 100) 0 scenario_B_engine
                      [sell_order "B" 50] 1 {[ "B"%string := 12 ]}))
    = [100].
Proof. split; vm_compute; reflexivity. Qed.

(* ===================================================================== *)
(** ** Portfolio: mark-to-market *)
(* ===================================================================== *)

Lemma sum_values_Qsum (ps : gmap string Position) :
  sum_values ps == Qsum (stored_values ps).
Proof.
  unfold sum_values, stored_values. rewrite map_fold_foldr.
  induction (map_to_list ps) as [|[k v] l IH]; cbn.
  - reflexivity.
  - rewrite IH. apply Qplus_comm.
Qed.

Lemma refresh_positions_lookup (prices : gmap string Q)
    (ps : gmap string Position) (symbol : string) :
  refresh_positions prices ps !! symbol =
  refresh_position prices symbol <$> ps !! symbol.
Proof.
  unfold refresh_positions. rewrite map_lookup_imap.
  destruct (ps !! symbol); reflexivity.
Qed.

(** C8.  The snapshot that [mark_to_market] records for a date has
    [total_value = cash + sum of the stored position values] (exactly, hence
    within 1e-6); every held symbol is stored with its quantity and cost
    basis unchanged and with value [quantity * price] when a price is
    supplied, its previous value otherwise; the snapshot is what the history
    holds for that date whatever it held before, and other dates keep their
    snapshots. *)
Theorem mark_to_market_snapshot
    (pf : Portfolio) (current_date : Z) (prices : gmap string Q) :
  exists snap,
    history (mark_to_market pf current_date prices) !! current_date
      = Some snap /\
    snap_cash snap = cash pf /\
    snap_total_value snap
      == snap_cash snap + Qsum (stored_values (snap_positions snap)) /\
    Qabs (snap_total_value snap
          - (snap_cash snap + Qsum (stored_values (snap_positions snap))))
      <= 1 # 1000000 /\
    (forall symbol,
        match positions pf !! symbol with
        | Some pos =>
            exists pos',
              snap_positions snap !! symbol = Some pos' /\
              pos_quantity pos' = pos_quantity pos /\
              pos_cost_basis pos' = pos_cost_basis pos /\
              pos_value pos' =
                match prices !! symbol with
                | Some price => pos_quantity pos * price
                | None => pos_value pos
                end
        | None => snap_positions snap !! symbol = None
        end) /\
    (forall d, d <> current_date ->
        history (mark_to_market pf current_date prices) !! d
          = history pf !! d).
Proof.
  eexists. split; [apply lookup_insert_eq|].
  cbn [snap_cash snap_total_value snap_positions].
  assert (Hsum : cash pf + sum_values (refresh_positions prices (positions pf))
                 == cash pf + Qsum (stored_values
                                      (refresh_positions prices (positions pf)))).
  { now rewrite sum_values_Qsum. }
  split; [reflexivity|]. split; [exact Hsum|]. split; [|split].
  - match goal with |- Qabs ?d <= _ => assert (H0 : d == 0) end.
    { rewrite Hsum. ring. }
    rewrite H0. by_computation.
  - intros symbol. rewrite refresh_positions_lookup.
    destruct (positions pf !! symbol) as [pos|]; [|reflexivity].
    eexists. split; [reflexivity|]. unfold refresh_position.
    destruct (prices !! symbol); repeat split; reflexivity.
  - intros d Hd. cbn [history mark_to_market].
    now rewrite lookup_insert_ne.
Qed.

(* ===================================================================== *)
(** ** ExecutionEngine: buys *)
(* ===================================================================== *)

Lemma calculate_slippage_buy sr (order : Order) (price : Q) :
  0 < ord_quantity order ->
  calculate_slippage sr order price = price * (1 + sr).
Proof.
  intros H. unfold calculate_slippage. apply ltb_lt in H. now rewrite H.
Qed.

Lemma calculate_slippage_sell sr (order : Order) (price : Q) :
  ord_quantity order <= 0 ->
  calculate_slippage sr order price = price * (1 - sr).
Proof.
  intros H. unfold calculate_slippage. apply ltb_ge in H. now rewrite H.
Qed.

Lemma inject_Z_pos (z : Z) : (0 < z)%Z -> 0 < inject_Z z.
Proof. intros H. change 0 with (inject_Z 0). now rewrite <- Zlt_Qlt. Qed.

Example clipped_buy_quantity :
  (trd_quantity <$>
     fst (execute_orders (1 # 10) 0 clipped_buy_engine
            [buy_order_of "A" 20] 1 {[ "A"%string := 100 ]})) = [8].
Proof. vm_compute. reflexivity. Qed.

(* ===================================================================== *)
(** ** ExecutionEngine: the cash balance in exact arithmetic *)
(* ===================================================================== *)

Section CashInvariant.

Variables cr sr : Q.
Hypothesis cr_nonneg : 0 <= cr.
Hypothesis sr_nonneg : 0 <= sr.

Variable prices : gmap string Q.
Hypothesis prices_pos : prices_positive prices.

Variable execution_date : Z.

(** What a validated sell order looks like. *)
Lemma validate_sell_order_shape (pf : Portfolio) (order o : Order) :
  ord_quantity order < 0 ->
  validate_sell_order pf order prices = Some o ->
  ord_symbol o = ord_symbol order /\ ord_quantity o < 0.
Proof.
  intros Hneg. unfold validate_sell_order, get_position.
  destruct (prices !! ord_symbol order); [|discriminate].
  destruct (positions pf !! ord_symbol order) as [pos|]; [|discriminate].
  destruct (leb (pos_quantity pos) 0) eqn:Hheld; [discriminate|].
  apply leb_gt in Hheld.
  destruct (ltb _ _); intros [= <-]; cbn; split; try reflexivity; lra.
Qed.

(** With a slippage rate of at most 1 a sell never takes cash away: its
    signed amount is not positive. *)
Lemma build_sell_trade_amount (pf : Portfolio) (order : Order) (t : Trade) :
  sr <= 1 ->
  ord_quantity order < 0 ->
  build_sell_trade cr sr pf execution_date prices order = Some t ->
  trd_amount t <= 0.
Proof.
  intros Hsr Hneg. unfold build_sell_trade.
  destruct (validate_sell_order pf order prices) as [o|] eqn:Hval;
    [|discriminate].
  destruct (validate_sell_order_shape pf order o Hneg Hval) as [_ Hq].
  destruct (prices !! ord_symbol o) as [price|] eqn:Hp; [|discriminate].
  intros [= <-]. cbn [Trade_init trd_amount].
  rewrite calculate_slippage_sell by lra.
  unfold calculate_commission.
  pose proof (prices_pos _ _ Hp) as Hprice.
  pose proof (Qabs_nonneg (ord_quantity o * (price * (1 - sr)) * cr)).
  assert (0 <= price * (1 - sr)) by (apply Qmult_le_0_compat; lra).
  assert (0 <= (- ord_quantity o) * (price * (1 - sr)))
    by (apply Qmult_le_0_compat; lra).
  lra.
Qed.

Lemma apply_sell_trade_cash (st : ExecutionEngine * list Trade) (t : Trade) :
  cash (portfolio (fst (apply_sell_trade st t)))
  = cash (portfolio (fst st)) - trd_amount t.
Proof.
  destruct st as [eng executed]. unfold apply_sell_trade.
  pose proof (update_from_trade_cash (portfolio eng) t) as Hc.
  destruct (update_from_trade (portfolio eng) t) as [[success pnl] pf].
  cbn [snd] in Hc. destruct success; exact Hc.
Qed.

Lemma apply_sell_trades_cash (trades : list Trade) :
  Forall (fun t => trd_amount t <= 0) trades ->
  forall st, 0 <= cash (portfolio (fst st)) ->
  0 <= cash (portfolio (fst (fold_left apply_sell_trade trades st))).
Proof.
  induction 1 as [|t trades Ht _ IH]; intros st Hst; cbn [fold_left].
  - exact Hst.
  - apply IH. rewrite apply_sell_trade_cash. lra.
Qed.

Lemma sell_trades_amounts (pf : Portfolio) (orders : list Order) :
  sr <= 1 ->
  Forall (fun t => trd_amount t <= 0)
    (omap (build_sell_trade cr sr pf execution_date prices)
          (List.filter is_sell orders)).
Proof.
  intros Hsr. induction orders as [|o orders IH]; cbn [List.filter omap].
  - constructor.
  - destruct (is_sell o) eqn:Hs; [|exact IH]. cbn [omap list_omap].
    destruct (build_sell_trade cr sr pf execution_date prices o) as [t|]
      eqn:Hb; [|exact IH].
    constructor; [|exact IH].
    apply (build_sell_trade_amount pf o t Hsr); [|exact Hb].
    unfold is_sell in Hs. now apply ltb_lt in Hs.
Qed.

(** A buy never spends more than the cash that is there when it is
    validated. *)
Lemma execute_buy_cash (st : ExecutionEngine * list Trade) (order : Order) :
  0 < ord_quantity order ->
  0 <= cash (portfolio (fst st)) ->
  0 <= cash (portfolio
               (fst (execute_buy cr sr execution_date prices st order))).
Proof.
  intros Hbuy. destruct st as [eng executed]. cbn [fst]. intros Hcash.
  unfold execute_buy, validate_buy_order.
  destruct (prices !! ord_symbol order) as [price|] eqn:Hp; [|exact Hcash].
  pose proof (prices_pos _ _ Hp) as Hprice.
  rewrite calculate_slippage_buy by exact Hbuy.
  unfold calculate_commission.
  set (ep := price * (1 + sr)).
  set (comm := Qabs (ord_quantity order * ep * cr)).
  assert (Hep : 0 < ep) by (apply Qmult_lt_0_compat; lra).
  assert (Hqep : 0 <= ord_quantity order * ep)
    by (apply Qmult_le_0_compat; lra).
  assert (Hcomm : comm == ord_quantity order * ep * cr).
  { apply Qabs_pos. apply Qmult_le_0_compat; assumption. }
  destruct (ltb (cash (portfolio eng)) (ord_quantity order * ep + comm))
    eqn:Hover.
  - (* the order is cut, or dropped *)
    apply ltb_lt in Hover.
    destruct (leb (cash (portfolio eng)) comm) eqn:Hle; [exact Hcash|].
    apply leb_gt in Hle.
    set (x := (cash (portfolio eng) - comm) / ep).
    destruct (py_int x <=? 0)%Z eqn:Hm; [exact Hcash|].
    apply Z.leb_gt in Hm.
    cbn [adjusted_order ord_symbol]. rewrite Hp.
    assert (Hm' : 0 < inject_Z (py_int x)) by (apply inject_Z_pos; exact Hm).
    rewrite calculate_slippage_buy by exact Hm'.
    rewrite update_from_trade_buy by exact Hm'.
    cbn [fst portfolio Trade_init trd_amount trd_symbol trd_quantity
         trd_execution_price ord_quantity].
    rewrite add_position_cash. cbn [cash with_cash]. fold ep.
    assert (Hx : 0 <= x).
    { unfold x. apply Qle_shift_div_l; [exact Hep|]. lra. }
    assert (Hxe : x * ep == cash (portfolio eng) - comm).
    { unfold x. field. lra. }
    assert (Hme : inject_Z (py_int x) * ep <= cash (portfolio eng) - comm).
    { rewrite <- Hxe. apply Qmult_le_compat_r; [|lra].
      apply py_int_le. exact Hx. }
    assert (Hgap : 0 <= (ord_quantity order * ep
                         - inject_Z (py_int x) * ep) * cr)
      by (apply Qmult_le_0_compat; lra).
    assert (Hcomm' : Qabs (inject_Z (py_int x) * ep * cr)
                     == inject_Z (py_int x) * ep * cr).
    { apply Qabs_pos. apply Qmult_le_0_compat; [|exact cr_nonneg].
      apply Qmult_le_0_compat; lra. }
    unfold calculate_commission. cbn [adjusted_order ord_quantity].
    rewrite Hcomm'.
    assert (Hexp : (ord_quantity order * ep - inject_Z (py_int x) * ep) * cr
                   == ord_quantity order * ep * cr
                      - inject_Z (py_int x) * ep * cr) by ring.
    rewrite Hexp in Hgap. lra.
  - (* the order fits *)
    apply ltb_ge in Hover. rewrite Hp.
    rewrite calculate_slippage_buy by exact Hbuy.
    rewrite update_from_trade_buy by exact Hbuy.
    cbn [fst portfolio Trade_init trd_amount trd_symbol trd_quantity
         trd_execution_price].
    rewrite add_position_cash. cbn [cash with_cash].
    unfold calculate_commission. fold ep. fold comm. lra.
Qed.

Lemma execute_buys_cash (orders : list Order) :
  forall st, 0 <= cash (portfolio (fst st)) ->
  0 <= cash (portfolio
               (fst (fold_left (execute_buy cr sr execution_date prices)
                       (List.filter is_buy orders) st))).
Proof.
  induction orders as [|o orders IH]; intros st Hst; cbn [List.filter].
  - exact Hst.
  - destruct (is_buy o) eqn:Hb; [|apply IH; exact Hst].
    cbn [fold_left]. apply IH. apply execute_buy_cash; [|exact Hst].
    unfold is_buy in Hb. now apply ltb_lt in Hb.
Qed.

(** Sells first, then buys: in exact arithmetic, and with a slippage rate
    of at most 1, neither phase can take the balance below zero. *)
Lemma execute_orders_preserves_nonneg_cash
    (eng : ExecutionEngine) (orders : list Order) :
  sr <= 1 ->
  0 <= cash (portfolio eng) ->
  0 <= cash (portfolio
               (snd (execute_orders cr sr eng orders execution_date prices))).
Proof.
  intros Hsr Hcash. unfold execute_orders.
  destruct orders as [|o orders]; [exact Hcash|].
  cbn [snd]. apply execute_buys_cash.
  apply apply_sell_trades_cash; [|exact Hcash].
  apply sell_trades_amounts. exact Hsr.
Qed.

End CashInvariant.

(** In exact arithmetic, from a non-negative initial capital the balance is
    non-negative after every call, however many calls precede it. *)
Corollary execute_batches_cash_nonneg (cr sr initial_capital : Q)
    (batches : list (list Order * Z * gmap string Q)) :
  0 <= cr -> 0 <= sr -> sr <= 1 ->
  0 <= initial_capital ->
  Forall (fun b => prices_positive (snd b)) batches ->
  0 <= cash (portfolio (execute_batches cr sr
                          (ExecutionEngine_init initial_capital) batches)).
Proof.
  intros Hcr Hsr Hsr1 Hcap Hall. unfold execute_batches.
  assert (Hinit : 0 <= cash (portfolio (ExecutionEngine_init initial_capital)))
    by exact Hcap.
  revert Hinit. generalize (ExecutionEngine_init initial_capital).
  induction Hall as [|b batches Hb _ IH]; intros eng Heng; cbn [fold_left].
  - exact Heng.
  - apply IH. now apply execute_orders_preserves_nonneg_cash.
Qed.

Lemma singleton_prices_positive (symbol : string) (price : Q) :
  0 < price -> prices_positive {[ symbol := price ]}.
Proof.
  intros Hp s p Hs. apply lookup_singleton_Some in Hs as [_ <-]. exact Hp.
Qed.

(** Nothing bounds the slippage rate.  Initial capital 3000, price 100, no
    commission and a slippage rate of 2: buying 10 shares costs
    [10 * 300 = 3000]; selling them executes at [100 * (1 - 2) = -100] a
    share, so the sell takes 1000 out of an empty cash balance. *)
Lemma cash_negative_when_slippage_exceeds_one :
  0 <= 3000 /\
  prices_positive {[ "A"%string := 100 ]} /\
  0 <= 0 /\ 0 <= 2 /\
  cash (portfolio
          (snd (execute_orders 0 2
                  (snd (execute_orders 0 2 (ExecutionEngine_init 3000)
                          [buy_order_of "A" 10] 1 {[ "A"%string := 100 ]}))
                  [sell_order "A" 10] 2 {[ "A"%string := 100 ]})))
  < 0.
Proof.
  split; [by_computation|].
  split; [apply singleton_prices_positive; reflexivity|].
  split; [by_computation|]. split; [by_computation|].
  by_computation.
Qed.

(* ===================================================================== *)
(** ** ExecutionEngine at binary64 precision *)
(* ===================================================================== *)

Section Binary64Facts.

Import Binary64.

(** The literals of the scenario, bit for bit: [10.05] is
    [0x1.419999999999ap+3], a little above 10.05, and [1005.0] is exact. *)
Example literal_10_05 :
  of_ratio 1005 100 = S754_finite false 5657647031884186 (-49) /\
  1005 # 100 < value (of_ratio 1005 100) /\
  value (of_Z 1005) == 1005.
Proof. repeat split; vm_compute; reflexivity. Qed.

Lemma py_int_not_nan (x n : float) : py_int x = Done n -> n <> S754_nan.
Proof.
  destruct x as [s|s| |s m e]; cbn [py_int]; try discriminate.
  - intros [= <-]. discriminate.
  - destruct (0 <=? e)%Z.
    + intros [= <-]. discriminate.
    + destruct (Z.pos m / Z.pos (2 ^ Z.to_pos (- e)))%Z;
        intros [= <-]; discriminate.
Qed.

(** A number that is not [<= 0] and not a NaN is [> 0]. *)
Lemma fleb_zero_false_pos (n : float) :
  n <> S754_nan -> fleb n zero = false -> fltb zero n = true.
Proof.
  intros Hn. destruct n as [s|s| |s m e]; cbn; try discriminate;
    try (destruct s; cbn; congruence).
  congruence.
Qed.

(** On a positive result [int()] is the floor of the number's value. *)
Lemma py_int_floor (x n : float) :
  py_int x = Done n ->
  fleb n zero = false ->
  value n == inject_Z (Qfloor (value x)).
Proof.
  destruct x as [s|s| |s m e]; cbn [py_int]; try discriminate.
  - intros [= <-]. discriminate.
  - destruct (0 <=? e)%Z eqn:He.
    + intros [= <-]. destruct s; [discriminate|]. intros _.
      cbn [value]. rewrite He. now rewrite Qfloor_Z.
    + destruct (Z.pos m / Z.pos (2 ^ Z.to_pos (- e)))%Z as [|q|q] eqn:Hq;
        intros [= <-]; try discriminate.
      destruct s; [discriminate|]. intros _.
      cbn [value]. rewrite He.
      change (Qfloor (Z.pos m # 2 ^ Z.to_pos (- e)))
        with (Z.pos m / Z.pos (2 ^ Z.to_pos (- e)))%Z.
      rewrite Hq. unfold Qeq. cbn [Qnum Qden inject_Z].
      rewrite Pos2Z.inj_mul. ring.
Qed.

(** C6.  A buy order whose requested cost
    [quantity * execution_price + commission] exceeds the available cash.
    When the cash does not exceed that commission the order is dropped: no
    trade, engine as it was.  Otherwise the quantity becomes
    [int((available_cash - commission) / execution_price)], the commission
    in this formula being the one of the requested quantity; the division
    and [int()] may raise, and then the call raises.  A result that is not
    positive drops the order.  A positive one is the floor of the quotient;
    the trade is made for that many shares at the same execution price, with
    the commission and the amount recomputed for them; the amount leaves the
    cash balance, the shares enter the position as [add_position] adds
    them, and the trade is logged and returned.  All operations are those
    of binary64. *)
Theorem buy_clipped_to_affordable_quantity
    (cr sr : float) (execution_date : Z) (prices : gmap string float)
    (eng : ExecutionEngine) (executed : list Trade) (order : Order)
    (price : float) :
  fltb zero (ord_quantity order) = true ->
  prices !! ord_symbol order = Some price ->
  let execution_price := fmul price (fadd one sr) in
  let commission :=
    fabs (fmul (fmul (ord_quantity order) execution_price) cr) in
  let available_cash := cash (portfolio eng) in
  fltb available_cash
    (fadd (fmul (ord_quantity order) execution_price) commission) = true ->
  let run := execute_buy cr sr execution_date prices (eng, executed) order in
  (fleb available_cash commission = true -> run = Done (eng, executed)) /\
  (fleb available_cash commission = false ->
   match py_div (fsub available_cash commission) execution_price with
   | Raised e => run = Raised e
   | Done quotient =>
       match py_int quotient with
       | Raised e => run = Raised e
       | Done clipped =>
           (fleb clipped zero = true -> run = Done (eng, executed)) /\
           (fleb clipped zero = false ->
            value clipped == inject_Z (Qfloor (value quotient)) /\
            let commission' :=
              fabs (fmul (fmul clipped execution_price) cr) in
            let amount := fadd (fmul clipped execution_price) commission' in
            let t :=
              {| trd_symbol := ord_symbol order;
                 trd_quantity := clipped;
                 trd_order_date := ord_date order;
                 trd_order_type := ord_type order;
                 trd_execution_date := execution_date;
                 trd_execution_price := execution_price;
                 trd_commission := commission';
                 trd_amount := amount;
                 trd_pnl := zero |} in
            exists eng',
              run = Done (eng', executed ++ [t]) /\
              cash (portfolio eng') = fsub available_cash amount /\
              positions (portfolio eng')
              = positions (add_position (portfolio eng) (ord_symbol order)
                             clipped execution_price None) /\
              history (portfolio eng') = history (portfolio eng) /\
              trade_log eng' = trade_log eng ++ [t])
       end
   end).
Proof.
  intros Hbuy Hprice execution_price commission available_cash Hover run.
  assert (Hval :
    validate_buy_order cr sr order prices available_cash =
    if fleb available_cash commission then Done None
    else match max_shares available_cash commission execution_price with
         | Raised e => Raised e
         | Done n => if fleb n zero then Done None
                     else Done (Some (adjusted_order order n))
         end).
  { unfold validate_buy_order. rewrite Hprice.
    unfold calculate_slippage, calculate_commission. rewrite Hbuy.
    fold execution_price. fold commission. now rewrite Hover. }
  subst run. unfold execute_buy. fold available_cash. rewrite Hval.
  split.
  - intros Hle. now rewrite Hle.
  - intros Hle. rewrite Hle. unfold max_shares.
    destruct (py_div (fsub available_cash commission) execution_price)
      as [quotient|e]; [|reflexivity].
    destruct (py_int quotient) as [clipped|e] eqn:Hint; [|reflexivity].
    split.
    + intros Hz. now rewrite Hz.
    + intros Hz. rewrite Hz.
      split; [exact (py_int_floor quotient clipped Hint Hz)|].
      assert (Hpos : fltb zero clipped = true).
      { apply fleb_zero_false_pos; [|exact Hz].
        exact (py_int_not_nan quotient clipped Hint). }
      cbn [adjusted_order ord_symbol]. rewrite Hprice.
      unfold calculate_slippage, calculate_commission.
      cbn [adjusted_order ord_quantity]. rewrite Hpos.
      fold execution_price. unfold update_from_trade.
      cbn [Trade_init trd_quantity trd_amount trd_symbol
           trd_execution_price adjusted_order ord_quantity ord_symbol
           ord_date ord_type].
      rewrite Hpos. eexists. split; [reflexivity|].
      cbn [portfolio trade_log add_trade].
      unfold add_position. cbn [with_cash positions cash history].
      destruct (positions (portfolio eng) !! ord_symbol order) as [pos|];
        [destruct (negb _)|]; repeat split.
Qed.

(** Cash 1005.0, a buy of 1100 shares at 10.05, no commission and no
    slippage: [1005.0 / 10.05] rounds to [100.0], so 100 shares are bought
    (the exact quotient of the two doubles is just below 100). *)
Lemma buy_clipped_to_affordable_quantity_witness :
  fltb zero (ord_quantity rounding_order) = true /\
  rounding_prices !! ord_symbol rounding_order = Some (of_ratio 1005 100) /\
  fltb (cash (portfolio rounding_engine))
    (fadd (fmul (ord_quantity rounding_order)
             (fmul (of_ratio 1005 100) (fadd one zero)))
          (fabs (fmul (fmul (ord_quantity rounding_order)
                         (fmul (of_ratio 1005 100) (fadd one zero)))
                   zero))) = true /\
  fleb (cash (portfolio rounding_engine))
    (fabs (fmul (fmul (ord_quantity rounding_order)
                   (fmul (of_ratio 1005 100) (fadd one zero)))
             zero)) = false /\
  fleb (of_Z 100) zero = false /\
  value (of_Z 100) == 100 /\
  exists eng',
    execute_buy zero zero 1 rounding_prices (rounding_engine, [])
      rounding_order
    = Done (eng', [] ++ [rounding_trade]) /\
    trd_quantity rounding_trade = of_Z 100 /\
    trade_log eng' = [rounding_trade] /\
    cash (portfolio eng')
    = fsub (cash (portfolio rounding_engine)) (trd_amount rounding_trade) /\
    positions (portfolio eng') !! "A"%string
    = Some {| pos_quantity := of_Z 100;
              pos_cost_basis := of_ratio 1005 100;
              pos_value := fmul (of_Z 100) (of_ratio 1005 100) |}.
Proof.
  assert (Hq : fltb zero (ord_quantity rounding_order) = true)
    by (vm_compute; reflexivity).
  assert (Hp : rounding_prices !! ord_symbol rounding_order
               = Some (of_ratio 1005 100)) by (vm_compute; reflexivity).
  assert (Hover :
    fltb (cash (portfolio rounding_engine))
      (fadd (fmul (ord_quantity rounding_order)
               (fmul (of_ratio 1005 100) (fadd one zero)))
            (fabs (fmul (fmul (ord_quantity rounding_order)
                           (fmul (of_ratio 1005 100) (fadd one zero)))
                     zero))) = true) by (vm_compute; reflexivity).
  assert (Hle :
    fleb (cash (portfolio rounding_engine))
      (fabs (fmul (fmul (ord_quantity rounding_order)
                     (fmul (of_ratio 1005 100) (fadd one zero)))
               zero)) = false) by (vm_compute; reflexivity).
  assert (Hz : fleb (of_Z 100) zero = false) by (vm_compute; reflexivity).
  repeat (split; [assumption|]).
  split; [vm_compute; reflexivity|].
  pose proof (proj2 (buy_clipped_to_affordable_quantity zero zero 1
                       rounding_prices rounding_engine [] rounding_order
                       (of_ratio 1005 100) Hq Hp Hover) Hle) as H.
  vm_compute in H. destruct H as [_ H].
  destruct (H eq_refl) as [_ [eng' [Hrun _]]].
  exists eng'. split; [vm_compute; exact Hrun|].
  injection Hrun as <-. repeat split; vm_compute; reflexivity.
Defined.

(** C1.  The balance goes below zero on a clipped buy.  Cash 1005.0, one
    symbol priced 10.05, commission and slippage 0, a buy of 1100 shares:
    the order is cut to [int(1005.0 / 10.05)] shares and the quotient rounds
    to [100.0]; the cost recomputed for 100 shares, [100 * 10.05], rounds to
    [1005.0000000000001] (the amount below), which is taken from the
    balance without a second check and leaves [-2^-43], about
    [-1.14e-13]. *)
Theorem execute_orders_overdraws_on_clipped_buy :
  fleb zero (cash (portfolio rounding_engine)) = true /\
  map_Forall (fun _ p => fltb zero p = true) rounding_prices /\
  match execute_orders zero zero rounding_engine [rounding_order] 1
          rounding_prices with
  | Done (trades, eng') =>
      trades = [rounding_trade] /\
      trd_quantity rounding_trade = of_Z 100 /\
      trd_amount rounding_trade
      = S754_finite false 8840073487319041 (-43) /\
      cash (portfolio eng') = S754_finite true 4503599627370496 (-95) /\
      fltb (cash (portfolio eng')) zero = true
  | Raised _ => False
  end.
Proof.
  split; [vm_compute; reflexivity|].
  split; [apply map_Forall_singleton; vm_compute; reflexivity|].
  vm_compute. repeat split.
Qed.

(** A sell adds the commission to the proceeds instead of deducting it:
    10 shares sold at 100 with a commission rate of 0.01 bring in 1010. *)
Example sell_credits_the_commission :
  match execute_orders (of_ratio 1 100) zero rounding_holder
          [rounding_sell] 1 {[ "A"%string := of_Z 100 ]} with
  | Done (trades, eng') =>
      trd_commission <$> trades = [of_Z 10] /\
      trd_amount <$> trades = [of_Z (-1010)] /\
      cash (portfolio eng') = of_Z 1010
  | Raised _ => False
  end.
Proof. vm_compute. repeat split. Qed.

End Binary64Facts.

(* ===================================================================== *)
(** ** ExecutionEngine: sells *)
(* ===================================================================== *)

(** A sell asking for more than is held is cut to the held quantity. *)
Lemma validate_sell_order_clips (pf : Portfolio) (order : Order)
    (prices : gmap string Q) (price : Q) (pos : Position) :
  prices !! ord_symbol order = Some price ->
  positions pf !! ord_symbol order = Some pos ->
  0 < pos_quantity pos ->
  pos_quantity pos < Qabs (ord_quantity order) ->
  validate_sell_order pf order prices
  = Some (adjusted_order order (- pos_quantity pos)).
Proof.
  intros Hp Hpos Hheld Hover. unfold validate_sell_order, get_position.
  rewrite Hp, Hpos. apply leb_gt in Hheld. rewrite Hheld.
  apply ltb_lt in Hover. now rewrite Hover.
Qed.

(** A sell of a symbol that is not held (or held with a quantity that is
    not positive) is refused. *)
Lemma validate_sell_order_no_position (pf : Portfolio) (order : Order)
    (prices : gmap string Q) :
  (positions pf !! ord_symbol order = None \/
   exists pos, positions pf !! ord_symbol order = Some pos /\
               pos_quantity pos <= 0) ->
  validate_sell_order pf order prices = None.
Proof.
  intros H. unfold validate_sell_order, get_position.
  destruct (prices !! ord_symbol order); [|reflexivity].
  destruct H as [-> | (pos & -> & Hq)]; [reflexivity|].
  apply leb_le in Hq. now rewrite Hq.
Qed.

(** Alone in its batch, an over-sized sell is executed for exactly the held
    quantity and closes the position. *)
Lemma single_sell_clipped_and_executed (cr sr : Q) (eng : ExecutionEngine)
    (order : Order) (execution_date : Z) (prices : gmap string Q)
    (price : Q) (pos : Position) :
  ord_quantity order < 0 ->
  prices !! ord_symbol order = Some price ->
  positions (portfolio eng) !! ord_symbol order = Some pos ->
  0 < pos_quantity pos ->
  pos_quantity pos < Qabs (ord_quantity order) ->
  exists t eng',
    execute_orders cr sr eng [order] execution_date prices = ([t], eng') /\
    trd_symbol t = ord_symbol order /\
    trd_quantity t = - pos_quantity pos /\
    positions (portfolio eng') !! ord_symbol order = None /\
    trade_log eng' = trade_log eng ++ [t].
Proof.
  intros Hneg Hp Hpos Hheld Hover.
  unfold execute_orders. cbn [List.filter].
  assert (Hs : is_sell order = true) by (apply ltb_lt; exact Hneg).
  assert (Hb : is_buy order = false) by (apply ltb_ge; lra).
  rewrite Hs, Hb. cbn [omap list_omap]. unfold build_sell_trade.
  rewrite (validate_sell_order_clips _ _ _ _ _ Hp Hpos Hheld Hover).
  cbn [adjusted_order ord_symbol]. rewrite Hp.
  cbn [fold_left]. unfold apply_sell_trade.
  rewrite update_from_trade_sell
    by (cbn [Trade_init trd_quantity ord_quantity adjusted_order]; lra).
  unfold remove_position.
  cbn [Trade_init trd_symbol trd_quantity ord_symbol ord_quantity
       adjusted_order positions with_cash].
  rewrite Hpos.
  assert (Habs : Qabs (- pos_quantity pos) == pos_quantity pos).
  { rewrite Qabs_opp. apply Qabs_pos. lra. }
  assert (Hle : leb (Qabs (- pos_quantity pos)) (pos_quantity pos) = true)
    by (apply leb_le; lra).
  assert (Hz : ltb 0 (pos_quantity pos - Qabs (- pos_quantity pos)) = false)
    by (apply ltb_ge; lra).
  rewrite Hle, Hz. cbn [fst snd].
  eexists. eexists. split; [reflexivity|].
  cbn [set_pnl trd_symbol trd_quantity portfolio positions with_positions
       trade_log Trade_init ord_symbol ord_quantity adjusted_order].
  repeat split. apply lookup_delete_eq.
Qed.

(** Alone in its batch, a sell of a symbol that is not held produces no
    trade and leaves the engine as it was. *)
Lemma single_sell_without_position_dropped (cr sr : Q)
    (eng : ExecutionEngine) (order : Order) (execution_date : Z)
    (prices : gmap string Q) :
  ord_quantity order < 0 ->
  (positions (portfolio eng) !! ord_symbol order = None \/
   exists pos, positions (portfolio eng) !! ord_symbol order = Some pos /\
               pos_quantity pos <= 0) ->
  execute_orders cr sr eng [order] execution_date prices = ([], eng).
Proof.
  intros Hneg Hnone. unfold execute_orders. cbn [List.filter].
  assert (Hs : is_sell order = true) by (apply ltb_lt; exact Hneg).
  assert (Hb : is_buy order = false) by (apply ltb_ge; lra).
  rewrite Hs, Hb. cbn [omap list_omap]. unfold build_sell_trade.
  now rewrite (validate_sell_order_no_position _ _ _ Hnone).
Qed.

(** Whatever the batch, a sell trade that is applied successfully does not
    exceed the quantity held just before it. *)
Lemma executed_sell_within_held (pf pf' : Portfolio) (t : Trade) (pnl : Q) :
  trd_quantity t <= 0 ->
  update_from_trade pf t = (true, pnl, pf') ->
  exists pos,
    positions pf !! trd_symbol t = Some pos /\
    Qabs (trd_quantity t) <= pos_quantity pos.
Proof.
  intros Hq. rewrite update_from_trade_sell by exact Hq.
  unfold remove_position. cbn [positions with_cash].
  destruct (positions pf !! trd_symbol t) as [pos|]; [|discriminate].
  destruct (leb (Qabs (trd_quantity t)) (pos_quantity pos)) eqn:Hle;
    [|discriminate].
  intros _. exists pos. split; [reflexivity|]. now apply leb_le.
Qed.

(** C5, evaluated on a batch with two sells of one symbol.  10 shares of A
    are held; the batch asks to sell 6 and then 12.  Both orders are
    validated against the 10 shares held on entry, so the second is cut to
    10, not to the 4 left after the first; its trade is then refused by the
    portfolio although 4 shares are held and a price exists, and the cash it
    would have brought (1000) is credited all the same. *)
Theorem second_sell_validated_against_stale_holding :
  let eng := {| portfolio := one_position "A" 10 100; trade_log := [] |} in
  let prices : gmap string Q := {[ "A"%string := 100 ]} in
  let orders := [sell_order "A" 6; sell_order "A" 12] in
  let result := execute_orders 0 0 eng orders 1 prices in
  (ord_quantity <$> validate_sell_order (portfolio eng) (sell_order "A" 12)
                      prices) = Some (- (10)) /\
  (trd_quantity <$> fst result) = [- (6)] /\
  (pos_quantity <$> positions (portfolio (snd result)) !! "A"%string)
    = Some 4 /\
  cash (portfolio (snd result)) == 1600.
Proof.
  cbv zeta. repeat split; vm_compute; reflexivity.
Qed.

(* ===================================================================== *)
(** ** AllocationPlanner: scenario A *)
(* ===================================================================== *)

(** C4 as stated fails: with 100000 in cash, one symbol at 100 and target
    weight 1, the planner does not return an order for 1000 shares. *)
Lemma scenario_A_quantity_is_not_1000 :
  ~ exists o,
      calculate_rebalance_orders 0 0 (Portfolio_init 100000)
        {[ "A"%string := 1 ]} {[ "A"%string := 100 ]} (Some 1%Z) = [o] /\
      ord_symbol o = "A"%string /\
      ord_quantity o == 1000.
Proof.
  intros (o & Ho & _ & Hq). vm_compute in Ho. injection Ho as <-.
  vm_compute in Hq. discriminate Hq.
Qed.

(** C4 (as amended).  In scenario A the raw quantity 1000 costs 100000,
    above the buffered cash 99900, so the scaling branch is taken: the
    scaled quantity is [int(1000 * 0.999) = 999], which uses up the buffered
    cash exactly; nothing is left, the top-up loop is skipped, and the one
    order returned is a buy of 999 shares of A. *)
Theorem scenario_A_buys_999 (order_date : Z) :
  compare_positions ∅ {[ "A"%string := 1 ]} 100000 {[ "A"%string := 100 ]}
    = [("A"%string, 100000)] /\
  generate_orders_path 0 0 [("A"%string, 100000)] {[ "A"%string := 100 ]}
    (Some order_date) (Some 100000) (Some ∅)
    = ([ {| ord_symbol := "A"; ord_quantity := 999;
            ord_price := PriceNum 100; ord_type := "MARKET";
            ord_date := DateAt order_date |} ],
       Scaled false) /\
  calculate_rebalance_orders 0 0 (Portfolio_init 100000)
    {[ "A"%string := 1 ]} {[ "A"%string := 100 ]} (Some order_date)
    = [ {| ord_symbol := "A"; ord_quantity := 999;
           ord_price := PriceNum 100; ord_type := "MARKET";
           ord_date := DateAt order_date |} ].
Proof.
  repeat split; vm_compute; reflexivity.
Qed.

(* ===================================================================== *)
(** ** The date loop: execution delay and the pending queue *)
(* ===================================================================== *)

Section LoopFacts.

Variables alloc_cr alloc_sr cr sr : Q.
Variable execution_delay : Z.
Variable price_data : list (Z * gmap string Q).
Variable signals_dict : gmap Z (gmap string Q).
Variable rebalance_dates : list Z.

Lemma pop_and_mark_pending (st : BacktestState) (d : Z)
    (current_prices : gmap string Q) :
  pending_orders (pop_and_mark cr sr st d current_prices)
  = delete d (pending_orders st).
Proof.
  unfold pop_and_mark.
  destruct (pending_orders st !! d) as [pending|] eqn:E.
  - destruct (execute_orders cr sr (execution_engine st) pending d
                current_prices) as [trades eng].
    reflexivity.
  - cbn [pending_orders]. symmetry. apply delete_id. exact E.
Qed.

Lemma plan_and_execute_pending (st : BacktestState) (d : Z)
    (current_prices sig : gmap string Q) :
  pending_orders
    (plan_and_execute alloc_cr alloc_sr cr sr execution_delay price_data
       st d current_prices sig)
  = pending_orders st.
Proof.
  unfold plan_and_execute.
  destruct (0 <? execution_delay)%Z; [|reflexivity].
  destruct (price_row price_data (d + execution_delay)); reflexivity.
Qed.

(** No iteration ever adds to [pending_orders]: the only change the loop
    makes to the queue is to drop the current date's key. *)
Lemma backtest_step_never_enqueues (st st' : BacktestState)
    (row : Z * gmap string Q) :
  backtest_step alloc_cr alloc_sr cr sr execution_delay price_data
    signals_dict rebalance_dates st row = Done st' ->
  pending_orders st' = delete (fst row) (pending_orders st).
Proof.
  destruct row as [d current_prices]. unfold backtest_step. cbn [fst].
  rewrite <- (pop_and_mark_pending st d current_prices).
  generalize (pop_and_mark cr sr st d current_prices). intros st1.
  destruct (_should_rebalance rebalance_dates d); cbn [signals].
  - destruct (bool_decide _); intros [= <-]; [reflexivity|].
    now rewrite plan_and_execute_pending.
  - destruct (signals st1) as [sig|]; [|discriminate].
    destruct (bool_decide _); intros [= <-]; [reflexivity|].
    now rewrite plan_and_execute_pending.
Qed.

(** Orders planned for an execution date that is not in the price table
    are never handed to the execution engine. *)
Lemma unreachable_execution_date_drops_orders (st : BacktestState)
    (d : Z) (current_prices sig : gmap string Q) :
  (0 < execution_delay)%Z ->
  price_row price_data (d + execution_delay) = None ->
  execution_engine
    (plan_and_execute alloc_cr alloc_sr cr sr execution_delay price_data
       st d current_prices sig)
  = execution_engine st.
Proof.
  intros Hdelay Hrow. unfold plan_and_execute.
  apply Z.ltb_lt in Hdelay. rewrite Hdelay, Hrow. reflexivity.
Qed.

End LoopFacts.

(** C2, evaluated with [execution_delay = 1].  Day 0 is the rebalance date
    and day 1 is in the price table.  After the iteration for day 0 alone
    the trade dated day 1 is already on the log, priced at day 1's price 50:
    the orders were executed at once, and the queue stayed empty.  The whole
    run adds nothing: when the loop reaches day 1 there is nothing to pop. *)
Theorem delayed_orders_executed_before_their_date :
  let after_day0 :=
    backtest_step 0 0 0 0 1 two_days signals_day0 [0%Z]
      (BacktestEngine_init 100000) (0%Z, prices_A 100) in
  let run := run_backtest 0 0 0 0 1 two_days signals_day0 [0%Z] 100000 in
  log_dates after_day0 = [(1%Z, 999, 50)] /\
  final_pending after_day0 = Some ∅ /\
  (exists orders,
     final_trace after_day0 = [Planned 0 orders; Executed 0 1 orders]) /\
  log_dates run = [(1%Z, 999, 50)] /\
  Forall (fun ev => match ev with PendingExecuted _ _ => False | _ => True end)
         (final_trace run).
Proof.
  cbv zeta. split; [vm_compute; reflexivity|].
  split; [vm_compute; reflexivity|].
  split; [eexists; vm_compute; reflexivity|].
  split; [vm_compute; reflexivity|].
  vm_compute. repeat constructor.
Qed.

(** C3, evaluated.  Day 0 is the only rebalance date; on day 1 the variable
    [signals] still holds day 0's targets, so the planner and the execution
    engine run again and a trade dated day 1 is made. *)
Theorem non_rebalance_date_plans_and_trades :
  let run := run_backtest 0 0 0 0 0 two_days signals_day0 [0%Z] 100000 in
  _should_rebalance [0%Z] 1 = false /\
  log_dates run = [(0%Z, 999, 100); (1%Z, 1, 50)] /\
  exists orders0 orders1,
    final_trace run =
      [Planned 0 orders0; Executed 0 0 orders0;
       Planned 1 orders1; Executed 1 1 orders1] /\
    (ord_quantity <$> orders1) = [1].
Proof.
  cbv zeta. split; [vm_compute; reflexivity|].
  split; [vm_compute; reflexivity|].
  eexists. eexists. split; vm_compute; reflexivity.
Qed.

(** When the first date is not a rebalance date, [signals] is read before
    any assignment and the run stops with an exception. *)
Example first_date_not_rebalance_raises :
  run_backtest 0 0 0 0 0 two_days signals_day0 [1%Z] 100000
  = Raised "UnboundLocalError".
Proof. vm_compute. reflexivity. Qed.

(** Starting from the empty queue of a fresh engine, the queue is empty
    after every date: the loop never has pending orders to pop. *)
Lemma backtest_loop_pending_empty (alloc_cr alloc_sr cr sr : Q)
    (execution_delay : Z) (price_data : list (Z * gmap string Q))
    (signals_dict : gmap Z (gmap string Q)) (rebalance_dates : list Z)
    (rows : list (Z * gmap string Q)) :
  forall st st',
    pending_orders st = ∅ ->
    backtest_loop alloc_cr alloc_sr cr sr execution_delay price_data
      signals_dict rebalance_dates st rows = Done st' ->
    pending_orders st' = ∅.
Proof.
  induction rows as [|row rows IH]; intros st st' Hst; cbn [backtest_loop].
  - now intros [= <-].
  - destruct (backtest_step alloc_cr alloc_sr cr sr execution_delay
                price_data signals_dict rebalance_dates st row)
      as [st1|e] eqn:Hstep; [|discriminate].
    apply IH.
    rewrite (backtest_step_never_enqueues _ _ _ _ _ _ _ _ _ _ _ Hstep).
    rewrite Hst. apply delete_empty.
Qed.

(* ===================================================================== *)
(** ** Reachable portfolios hold positive quantities *)
(* ===================================================================== *)

Lemma mark_to_market_holdings_positive (pf : Portfolio) (d : Z)
    (prices : gmap string Q) :
  holdings_positive pf -> holdings_positive (mark_to_market pf d prices).
Proof.
  intros Hpf symbol pos'. cbn [mark_to_market positions].
  rewrite refresh_positions_lookup.
  destruct (positions pf !! symbol) as [pos|] eqn:E; [|discriminate].
  intros [= <-]. pose proof (Hpf _ _ E) as Hq. unfold refresh_position.
  destruct (prices !! symbol); exact Hq.
Qed.

Lemma apply_sell_trade_portfolio (st : ExecutionEngine * list Trade)
    (t : Trade) :
  portfolio (fst (apply_sell_trade st t))
  = snd (update_from_trade (portfolio (fst st)) t).
Proof.
  destruct st as [eng executed]. unfold apply_sell_trade. cbn [fst].
  destruct (update_from_trade (portfolio eng) t) as [[success pnl] pf].
  destruct success; reflexivity.
Qed.

Lemma execute_buy_holdings_positive (cr sr : Q) (d : Z)
    (prices : gmap string Q) (st : ExecutionEngine * list Trade)
    (order : Order) :
  holdings_positive (portfolio (fst st)) ->
  holdings_positive (portfolio (fst (execute_buy cr sr d prices st order))).
Proof.
  destruct st as [eng executed]. cbn [fst]. intros Hpf. unfold execute_buy.
  destruct (validate_buy_order cr sr order prices (cash (portfolio eng)))
    as [o|]; [|exact Hpf].
  destruct (prices !! ord_symbol o) as [price|]; [|exact Hpf].
  match goal with
  | |- context [update_from_trade ?pf ?t] =>
      pose proof (update_from_trade_holdings_positive pf t Hpf) as Hnext;
      destruct (update_from_trade pf t) as [[success pnl] pf']
  end.
  destruct success; exact Hnext.
Qed.

Lemma execute_orders_holdings_positive (cr sr : Q) (eng : ExecutionEngine)
    (orders : list Order) (d : Z) (prices : gmap string Q) :
  holdings_positive (portfolio eng) ->
  holdings_positive (portfolio (snd (execute_orders cr sr eng orders d prices))).
Proof.
  intros Hpf. unfold execute_orders.
  destruct orders as [|o orders]; [exact Hpf|]. cbn [snd].
  assert (Hsells : forall trades st,
             holdings_positive (portfolio (fst st)) ->
             holdings_positive
               (portfolio (fst (fold_left apply_sell_trade trades st)))).
  { induction trades as [|t trades IH]; intros st Hst; cbn [fold_left].
    - exact Hst.
    - apply IH. rewrite apply_sell_trade_portfolio.
      now apply update_from_trade_holdings_positive. }
  assert (Hbuys : forall buys st,
             holdings_positive (portfolio (fst st)) ->
             holdings_positive
               (portfolio (fst (fold_left (execute_buy cr sr d prices)
                                  buys st)))).
  { induction buys as [|b buys IH]; intros st Hst; cbn [fold_left].
    - exact Hst.
    - apply IH. now apply execute_buy_holdings_positive. }
  apply Hbuys. apply Hsells. exact Hpf.
Qed.

(* ===================================================================== *)
(** * Further properties *)
(* ===================================================================== *)

(** ** Portfolio: cash operations *)

(** [remove_cash] succeeds exactly when the amount is covered, and then the
    balance it leaves is not negative, whatever the balance before; when it
    refuses, the portfolio is untouched. *)
Theorem remove_cash_never_overdraws (pf : Portfolio) (amount : Q) :
  (amount <= cash pf ->
   remove_cash pf amount = (true, with_cash pf (cash pf - amount)) /\
   0 <= cash (snd (remove_cash pf amount))) /\
  (cash pf < amount -> remove_cash pf amount = (false, pf)).
Proof.
  unfold remove_cash. split; intros H.
  - apply leb_le in H. rewrite H. split; [reflexivity|].
    apply leb_le in H. cbn. lra.
  - apply leb_gt in H. now rewrite H.
Qed.

(** ** Portfolio: valuation *)

Lemma refresh_positions_insert (prices : gmap string Q)
    (ps : gmap string Position) (symbol : string) (pos : Position) :
  refresh_positions prices (<[symbol := pos]> ps)
  = <[symbol := refresh_position prices symbol pos]>
      (refresh_positions prices ps).
Proof.
  apply map_eq. intros k. rewrite refresh_positions_lookup.
  destruct (decide (symbol = k)) as [->|Hne].
  - now rewrite !lookup_insert_eq.
  - rewrite !lookup_insert_ne by exact Hne.
    now rewrite refresh_positions_lookup.
Qed.

Lemma refresh_position_idempotent (prices : gmap string Q) (symbol : string)
    (pos : Position) :
  refresh_position prices symbol (refresh_position prices symbol pos)
  = refresh_position prices symbol pos.
Proof.
  unfold refresh_position. destruct (prices !! symbol); reflexivity.
Qed.

Lemma refresh_positions_idempotent (prices : gmap string Q)
    (ps : gmap string Position) :
  refresh_positions prices (refresh_positions prices ps)
  = refresh_positions prices ps.
Proof.
  apply map_eq. intros k. rewrite !refresh_positions_lookup.
  destruct (ps !! k) as [pos|]; [|reflexivity]. cbn.
  now rewrite refresh_position_idempotent.
Qed.

(** Marking the same date again with the same prices changes nothing:
    cash, positions and the whole history are as after the first marking. *)
Theorem mark_to_market_idempotent (pf : Portfolio) (current_date : Z)
    (prices : gmap string Q) :
  mark_to_market (mark_to_market pf current_date prices) current_date prices
  = mark_to_market pf current_date prices.
Proof.
  unfold mark_to_market. cbn [cash positions history].
  rewrite refresh_positions_idempotent. f_equal.
  apply insert_insert_eq.
Qed.

(** Sums over a positions map, one addend per held symbol. *)
Lemma fold_add_insert {A : Type} (g : string -> A -> Q)
    (m : gmap string A) (i : string) (x : A) :
  m !! i = None ->
  map_fold (fun k a acc => acc + g k a) 0 (<[i := x]> m)
  == map_fold (fun k a acc => acc + g k a) 0 m + g i x.
Proof.
  intros Hi.
  apply (map_fold_insert Qeq (fun k a acc => acc + g k a)); [| |exact Hi].
  - intros j z a b Hab. now rewrite Hab.
  - intros j1 j2 z1 z2 y _ _ _. ring.
Qed.

Lemma fold_add_ext {A : Type} (f : string -> A -> Q -> Q)
    (g : string -> A -> Q) (m : gmap string A) :
  (forall k a acc, f k a acc = acc + g k a) ->
  map_fold f 0 m = map_fold (fun k a acc => acc + g k a) 0 m.
Proof.
  intros Hf. rewrite !map_fold_foldr.
  induction (map_to_list m) as [|[k a] l IH]; [reflexivity|].
  cbn. rewrite Hf. now rewrite IH.
Qed.

(** What [get_total_value(prices)] adds up. *)
Lemma get_total_value_priced (pf : Portfolio) (prices : gmap string Q) :
  get_total_value pf (Some prices)
  = cash pf
    + map_fold (fun k a acc => acc + held_value (Some prices) k a) 0
        (positions pf).
Proof.
  unfold get_total_value. f_equal. apply fold_add_ext.
  intros k a acc. unfold held_value. destruct (prices !! k); reflexivity.
Qed.

Lemma sum_values_refreshed (prices : gmap string Q)
    (ps : gmap string Position) :
  sum_values (refresh_positions prices ps)
  == map_fold (fun k a acc => acc + held_value (Some prices) k a) 0 ps.
Proof.
  unfold sum_values.
  induction ps as [|i x m Hi IH] using map_ind.
  - unfold refresh_positions. rewrite map_imap_empty.
    now rewrite !map_fold_empty.
  - rewrite refresh_positions_insert.
    rewrite (fold_add_insert (fun _ pos => pos_value pos))
      by (rewrite refresh_positions_lookup, Hi; reflexivity).
    rewrite fold_add_insert by exact Hi.
    rewrite IH. unfold refresh_position, held_value.
    destruct (prices !! i); reflexivity.
Qed.

(** Valuing a portfolio at given prices and marking it to market at those
    prices agree: the total recorded in the snapshot, and the stored-value
    total read afterwards, equal [get_total_value(prices)] taken before. *)
Theorem mark_to_market_total_is_priced_total (pf : Portfolio)
    (current_date : Z) (prices : gmap string Q) :
  get_total_value (mark_to_market pf current_date prices) None
    == get_total_value pf (Some prices) /\
  (snap_total_value <$>
     history (mark_to_market pf current_date prices) !! current_date)
    = Some (get_total_value (mark_to_market pf current_date prices) None).
Proof.
  split.
  - rewrite get_total_value_priced. cbn [get_total_value mark_to_market
      cash positions].
    now rewrite sum_values_refreshed.
  - cbn [mark_to_market history]. rewrite lookup_insert_eq. reflexivity.
Qed.

(** ** Sums of weight maps *)

Lemma sum_weights_empty : sum_weights ∅ = 0.
Proof. unfold sum_weights. apply map_fold_empty. Qed.

Lemma sum_weights_insert_fresh (m : gmap string Q) (i : string) (x : Q) :
  m !! i = None -> sum_weights (<[i := x]> m) == sum_weights m + x.
Proof. apply (fold_add_insert (fun _ w => w)). Qed.

Lemma sum_weights_insert (m : gmap string Q) (i : string) (x : Q) :
  sum_weights (<[i := x]> m) == sum_weights (delete i m) + x.
Proof.
  rewrite <- (insert_delete_eq m i x).
  apply sum_weights_insert_fresh. apply lookup_delete_eq.
Qed.

Lemma sum_weights_scale (m : gmap string Q) (s : Q) :
  sum_weights ((fun w => w / s) <$> m) == sum_weights m / s.
Proof.
  induction m as [|i x m Hi IH] using map_ind.
  - rewrite fmap_empty, sum_weights_empty. unfold Qdiv. ring.
  - rewrite fmap_insert.
    rewrite sum_weights_insert_fresh by (rewrite lookup_fmap, Hi; reflexivity).
    rewrite sum_weights_insert_fresh by exact Hi.
    rewrite IH. unfold Qdiv. ring.
Qed.

Lemma sum_weights_const {A : Type} (m : gmap string A) (c : Q) :
  sum_weights ((fun _ => c) <$> m) == inject_Z (Z.of_nat (size m)) * c.
Proof.
  induction m as [|i x m Hi IH] using map_ind.
  - rewrite fmap_empty, sum_weights_empty, map_size_empty. cbn. ring.
  - rewrite fmap_insert.
    rewrite sum_weights_insert_fresh by (rewrite lookup_fmap, Hi; reflexivity).
    rewrite map_size_insert_None by exact Hi.
    rewrite IH, Nat2Z.inj_succ. unfold Z.succ. rewrite inject_Z_plus. ring.
Qed.

Lemma sum_weights_nonneg (m : gmap string Q) :
  (forall k w, m !! k = Some w -> 0 <= w) -> 0 <= sum_weights m.
Proof.
  induction m as [|i x m Hi IH] using map_ind; intros Hall.
  - rewrite sum_weights_empty. lra.
  - rewrite sum_weights_insert_fresh by exact Hi.
    assert (0 <= x) by (apply (Hall i); apply lookup_insert_eq).
    assert (0 <= sum_weights m).
    { apply IH. intros k w Hk. apply (Hall k).
      rewrite lookup_insert_ne; [exact Hk|]. intros ->. congruence. }
    lra.
Qed.

Lemma size_pos_inject (n : nat) : n <> 0%nat -> 0 < inject_Z (Z.of_nat n).
Proof. intros H. apply inject_Z_pos. lia. Qed.

(** ** Portfolio: weights *)

Lemma isclose_one (s : Q) :
  isclose s 1 = true ->
  Qabs (s - 1) <= (1 # 100000000) + (1 # 100000).
Proof.
  unfold isclose. intros H. apply leb_le in H.
  change (Qabs 1) with 1 in H. lra.
Qed.

(** The weights [get_weights] returns add up to 1 within the tolerance of
    [np.isclose], or to 0 (all positions worthless and no usable cash
    weight); nothing else is possible, with or without prices. *)
Theorem get_weights_sum (pf : Portfolio) (prices : option (gmap string Q)) :
  sum_weights (get_weights pf prices) == 0 \/
  Qabs (sum_weights (get_weights pf prices) - 1)
    <= (1 # 100000000) + (1 # 100000).
Proof.
  unfold get_weights.
  destruct (eqb (get_total_value pf prices) 0).
  - (* zero total value *)
    assert (Hz : sum_weights (delete "Cash"%string
                                ((fun _ => 0) <$> positions pf)) == 0).
    { rewrite <- fmap_delete, sum_weights_const. ring. }
    destruct (eqb (cash pf) 0 && bool_decide (positions pf = ∅))%bool.
    + right. rewrite sum_weights_insert, Hz.
      setoid_replace (0 + 1 - 1) with 0 using relation Qeq by ring.
      by_computation.
    + left. rewrite sum_weights_insert, Hz. ring.
  - set (W := <["Cash"%string := _]> _).
    destruct (isclose (sum_weights W) 1) eqn:Hclose; cbn [negb andb].
    + right. now apply isclose_one.
    + destruct (eqb (sum_weights W) 0) eqn:Hzero; cbn [negb].
      * left. now apply eqb_eq.
      * right. apply eqb_neq in Hzero.
        rewrite sum_weights_scale.
        assert (H1 : sum_weights W / sum_weights W - 1 == 0)
          by (field; exact Hzero).
        rewrite H1. by_computation.
Qed.

Lemma sum_weights_imap_scale (g : string -> Position -> Q) (t : Q)
    (ps : gmap string Position) :
  sum_weights (map_imap (fun k a => Some (g k a / t)) ps)
  == map_fold (fun k a acc => acc + g k a) 0 ps / t.
Proof.
  induction ps as [|i x m Hi IH] using map_ind.
  - rewrite map_imap_empty, sum_weights_empty, map_fold_empty.
    unfold Qdiv. ring.
  - rewrite (map_imap_insert_Some _ i x m (g i x / t)) by reflexivity.
    rewrite sum_weights_insert_fresh
      by (rewrite map_lookup_imap, Hi; reflexivity).
    rewrite fold_add_insert by exact Hi.
    rewrite IH. unfold Qdiv. ring.
Qed.

Lemma get_total_value_held (pf : Portfolio)
    (prices : option (gmap string Q)) :
  get_total_value pf prices
  = cash pf
    + map_fold (fun k a acc => acc + held_value prices k a) 0 (positions pf).
Proof.
  destruct prices as [prices|]; [apply get_total_value_priced|].
  reflexivity.
Qed.

(** With a non-negative cash balance, a positive total value and no held
    symbol called "Cash", no renormalisation takes place: every held symbol
    gets exactly [value / total_value] and "Cash" gets
    [cash / total_value]. *)
Theorem get_weights_exact (pf : Portfolio)
    (prices : option (gmap string Q)) :
  0 <= cash pf ->
  0 < get_total_value pf prices ->
  positions pf !! "Cash"%string = None ->
  get_weights pf prices !! "Cash"%string
    = Some (py_max 0 (cash pf / get_total_value pf prices)) /\
  py_max 0 (cash pf / get_total_value pf prices)
    == cash pf / get_total_value pf prices /\
  forall symbol pos,
    positions pf !! symbol = Some pos ->
    get_weights pf prices !! symbol
      = Some (held_value prices symbol pos / get_total_value pf prices).
Proof.
  intros Hcash Htotal Hname.
  set (t := get_total_value pf prices) in *.
  assert (Hcw : 0 <= cash pf / t).
  { apply Qle_shift_div_l; [exact Htotal|]. lra. }
  assert (Hmax : py_max 0 (cash pf / t) == cash pf / t).
  { unfold py_max. destruct (ltb 0 (cash pf / t)) eqn:E; [reflexivity|].
    apply ltb_ge in E. lra. }
  assert (Hw : get_weights pf prices
               = <["Cash"%string := py_max 0 (cash pf / t)]>
                   (map_imap (fun symbol position =>
                                Some (held_value prices symbol position / t))
                             (positions pf))).
  { unfold get_weights. fold t.
    assert (Hne : eqb t 0 = false) by (apply eqb_neq; intros H0; lra).
    rewrite Hne.
    set (W := <["Cash"%string := _]> _).
    assert (Hsum : sum_weights W == 1).
    { unfold W. rewrite sum_weights_insert_fresh
        by (rewrite map_lookup_imap, Hname; reflexivity).
      rewrite sum_weights_imap_scale, Hmax.
      assert (Ht : t == cash pf
                        + map_fold (fun k a acc => acc + held_value prices k a)
                            0 (positions pf))
        by (unfold t; now rewrite get_total_value_held).
      field_simplify_eq; [|lra]. rewrite Ht. ring. }
    assert (Hclose : isclose (sum_weights W) 1 = true).
    { unfold isclose. apply leb_le. rewrite Hsum.
      by_computation. }
    now rewrite Hclose. }
  rewrite Hw. split; [apply lookup_insert_eq|]. split; [exact Hmax|].
  intros symbol pos Hpos.
  rewrite lookup_insert_ne by (intros <-; congruence).
  rewrite map_lookup_imap, Hpos. reflexivity.
Qed.

Lemma get_weights_exact_witness :
  let pf := {| cash := 100;
               positions := {[ "A"%string :=
                                {| pos_quantity := 10; pos_cost_basis := 80;
                                   pos_value := 900 |} ]};
               history := ∅ |} in
  0 <= cash pf /\
  0 < get_total_value pf None /\
  positions pf !! "Cash"%string = None /\
  get_weights pf None !! "Cash"%string
    = Some (py_max 0 (cash pf / get_total_value pf None)) /\
  py_max 0 (cash pf / get_total_value pf None)
    == cash pf / get_total_value pf None /\
  forall symbol pos,
    positions pf !! symbol = Some pos ->
    get_weights pf None !! symbol
      = Some (held_value None symbol pos / get_total_value pf None).
Proof.
  intros pf.
  assert (H1 : 0 <= cash pf) by by_computation.
  assert (H2 : 0 < get_total_value pf None) by by_computation.
  assert (H3 : positions pf !! "Cash"%string = None) by reflexivity.
  split; [exact H1|]. split; [exact H2|]. split; [exact H3|].
  exact (get_weights_exact pf None H1 H2 H3).
Defined.

(** ** Signals *)

Lemma clamp_nonneg (w : Q) : 0 <= (if ltb w 0 then 0 else w).
Proof.
  destruct (ltb w 0) eqn:E; [lra|]. now apply ltb_ge in E.
Qed.

Lemma validate_signals_nonempty (signals : gmap string Q) :
  signals <> ∅ ->
  dom (validate_signals (Some signals)) = dom signals /\
  (forall symbol w,
      validate_signals (Some signals) !! symbol = Some w -> 0 <= w) /\
  sum_weights (validate_signals (Some signals)) == 1.
Proof.
  intros Hne. unfold validate_signals.
  assert (Hsize : size signals <> 0%nat).
  { intros H0. apply Hne. now apply map_size_empty_inv. }
  assert (Hs : (size signals =? 0)%nat = false) by now apply Nat.eqb_neq.
  rewrite Hs.
  set (clamped := (fun w => if ltb w 0 then 0 else w) <$> signals).
  assert (Hclamped : forall k w, clamped !! k = Some w -> 0 <= w).
  { intros k w. unfold clamped. rewrite lookup_fmap.
    destruct (signals !! k) as [v|]; [|discriminate].
    intros [= <-]. apply clamp_nonneg. }
  destruct (ltb 0 (sum_weights clamped)) eqn:Htotal.
  - apply ltb_lt in Htotal. split; [|split].
    + unfold clamped. now rewrite !dom_fmap_L.
    + intros symbol w. rewrite lookup_fmap.
      destruct (clamped !! symbol) as [v|] eqn:Hv; [|discriminate].
      intros [= <-]. apply Qle_shift_div_l; [exact Htotal|].
      pose proof (Hclamped _ _ Hv). lra.
    + rewrite sum_weights_scale. field. lra.
  - pose proof (size_pos_inject _ Hsize) as Hn.
    assert (Hsz : size clamped = size signals) by apply map_size_fmap.
    rewrite Hsz. split; [|split].
    + unfold clamped. now rewrite !dom_fmap_L.
    + intros symbol w. rewrite lookup_fmap.
      destruct (clamped !! symbol) as [v|]; [|discriminate].
      intros [= <-]. apply Qle_shift_div_l; [exact Hn|]. lra.
    + rewrite sum_weights_const, Hsz. field. lra.
Qed.

(** [validate_signals] turns any non-empty weight map into one over the
    same symbols whose weights are non-negative and add up to 1; [None] and
    the empty map give the empty map. *)
Theorem validate_signals_normalised (signals : gmap string Q) :
  validate_signals None = ∅ /\
  validate_signals (Some ∅) = ∅ /\
  (signals <> ∅ ->
   dom (validate_signals (Some signals)) = dom signals /\
   (forall symbol w,
       validate_signals (Some signals) !! symbol = Some w -> 0 <= w) /\
   sum_weights (validate_signals (Some signals)) == 1).
Proof.
  split; [reflexivity|]. split; [reflexivity|].
  apply validate_signals_nonempty.
Qed.

Lemma validate_signals_normalised_witness :
  ({[ "A"%string := 3; "B"%string := -(2) ]} : gmap string Q) <> ∅ /\
  dom (validate_signals (Some {[ "A"%string := 3; "B"%string := -(2) ]}))
    = dom ({[ "A"%string := 3; "B"%string := -(2) ]} : gmap string Q) /\
  (forall symbol w,
      validate_signals (Some {[ "A"%string := 3; "B"%string := -(2) ]})
        !! symbol = Some w -> 0 <= w) /\
  sum_weights
    (validate_signals (Some {[ "A"%string := 3; "B"%string := -(2) ]})) == 1.
Proof.
  assert (Hne : ({[ "A"%string := 3; "B"%string := -(2) ]} : gmap string Q)
                <> ∅).
  { intros H. apply (f_equal (fun m => m !! "A"%string)) in H.
    vm_compute in H. discriminate H. }
  split; [exact Hne|].
  exact (proj2 (proj2 (validate_signals_normalised
                         {[ "A"%string := 3; "B"%string := -(2) ]})) Hne).
Defined.

(** The equal-weight generator gives every column of the price table the
    same weight, one over the number of distinct columns, and these weights
    add up to 1; without columns it divides by zero. *)
Theorem equal_weight_signals_uniform (columns : list string) :
  equal_weight_signals [] = Raised "ZeroDivisionError" /\
  (columns <> [] ->
   exists weights,
     equal_weight_signals columns = Done weights /\
     (forall symbol, symbol ∈ columns <-> is_Some (weights !! symbol)) /\
     (forall symbol w,
         weights !! symbol = Some w ->
         w == 1 / inject_Z (Z.of_nat (size weights))) /\
     sum_weights weights == 1).
Proof.
  split; [reflexivity|]. intros Hne.
  unfold equal_weight_signals.
  destruct columns as [|c0 cs] eqn:Hcols; [congruence|]. rewrite <- Hcols.
  assert (Hlen : length columns <> 0%nat) by (rewrite Hcols; discriminate).
  set (ew := 1 / inject_Z (Z.of_nat (length columns))).
  assert (Hew : 0 < ew).
  { unfold ew. apply Qlt_shift_div_l; [now apply size_pos_inject|]. lra. }
  set (raw := list_to_map ((fun s => (s, ew)) <$> columns) : gmap string Q).
  assert (Hraw : forall k w, raw !! k = Some w -> w = ew).
  { intros k w Hk. apply elem_of_list_to_map_2 in Hk.
    apply list_elem_of_fmap in Hk as (s & [= _ ->] & _). reflexivity. }
  assert (Hdom : forall k, k ∈ columns <-> is_Some (raw !! k)).
  { intros k. split.
    - intros Hin. destruct (raw !! k) eqn:E; [eauto|].
      apply not_elem_of_list_to_map_2 in E. exfalso. apply E.
      rewrite <- list_fmap_compose. apply list_elem_of_fmap.
      exists k. split; [reflexivity|exact Hin].
    - intros [w Hk]. apply elem_of_list_to_map_2 in Hk.
      apply list_elem_of_fmap in Hk as (s & [= -> _] & Hs). exact Hs. }
  assert (Hrne : raw <> ∅).
  { intros H0. assert (Hc : c0 ∈ columns) by (rewrite Hcols; left).
    apply Hdom in Hc as [w Hw]. rewrite H0 in Hw.
    now rewrite lookup_empty in Hw. }
  assert (Hsize : size raw <> 0%nat).
  { intros H0. apply Hrne. now apply map_size_empty_inv. }
  eexists. split; [reflexivity|].
  destruct (validate_signals_nonempty raw Hrne) as (Hd & _ & Hsum).
  split; [|split; [|exact Hsum]].
  - intros symbol. rewrite Hdom.
    rewrite <- !elem_of_dom. now rewrite Hd.
  - (* every weight is [ew / (size * ew)] *)
    assert (Hsz : size (validate_signals (Some raw)) = size raw).
    { rewrite <- !size_dom. now rewrite Hd. }
    rewrite Hsz. clear Hd Hsum Hsz.
    unfold validate_signals.
    assert (Hs : (size raw =? 0)%nat = false) by now apply Nat.eqb_neq.
    rewrite Hs.
    set (clamped := (fun w => if ltb w 0 then 0 else w) <$> raw).
    assert (Hclamped : clamped = (fun _ => ew) <$> raw).
    { apply map_eq. intros k. unfold clamped. rewrite !lookup_fmap.
      destruct (raw !! k) as [v|] eqn:Hv; [|reflexivity]. cbn.
      rewrite (Hraw _ _ Hv).
      assert (E : ltb ew 0 = false) by (apply ltb_ge; lra).
      now rewrite E. }
    pose proof (size_pos_inject _ Hsize) as Hn.
    assert (Htotal : sum_weights clamped
                     == inject_Z (Z.of_nat (size raw)) * ew).
    { rewrite Hclamped. apply sum_weights_const. }
    assert (Hpos : 0 < sum_weights clamped).
    { rewrite Htotal. apply Qmult_lt_0_compat; assumption. }
    apply ltb_lt in Hpos. rewrite Hpos. apply ltb_lt in Hpos.
    intros symbol w. rewrite lookup_fmap, Hclamped, lookup_fmap.
    destruct (raw !! symbol); [|discriminate].
    intros [= <-]. rewrite <- Hclamped, Htotal. field. split; lra.
Qed.

Lemma equal_weight_signals_uniform_witness :
  ["A"%string; "B"%string] <> [] /\
  exists weights,
    equal_weight_signals ["A"%string; "B"%string] = Done weights /\
    (forall symbol,
        symbol ∈ ["A"%string; "B"%string] <-> is_Some (weights !! symbol)) /\
    (forall symbol w,
        weights !! symbol = Some w ->
        w == 1 / inject_Z (Z.of_nat (size weights))) /\
    sum_weights weights == 1.
Proof.
  assert (Hne : ["A"%string; "B"%string] <> []) by discriminate.
  split; [exact Hne|].
  exact (proj2 (equal_weight_signals_uniform ["A"%string; "B"%string]) Hne).
Defined.

(** ** ExecutionEngine: validators *)

(** An order that [validate_sell_order] lets through is a sell of the same,
    priced and held symbol, for no more than is held and no more than was
    asked. *)
Theorem validate_sell_order_within_holding (pf : Portfolio)
    (order o : Order) (prices : gmap string Q) :
  ord_quantity order < 0 ->
  validate_sell_order pf order prices = Some o ->
  exists pos,
    positions pf !! ord_symbol order = Some pos /\
    is_Some (prices !! ord_symbol order) /\
    ord_symbol o = ord_symbol order /\
    ord_quantity o < 0 /\
    Qabs (ord_quantity o) <= pos_quantity pos /\
    Qabs (ord_quantity o) <= Qabs (ord_quantity order).
Proof.
  intros Hneg. unfold validate_sell_order, get_position.
  destruct (prices !! ord_symbol order) as [price|]; [|discriminate].
  destruct (positions pf !! ord_symbol order) as [pos|]; [|discriminate].
  destruct (leb (pos_quantity pos) 0) eqn:Hheld; [discriminate|].
  apply leb_gt in Hheld.
  destruct (ltb (pos_quantity pos) (Qabs (ord_quantity order))) eqn:Hover;
    intros [= <-]; exists pos; cbn [adjusted_order ord_symbol ord_quantity].
  - apply ltb_lt in Hover.
    assert (Habs : Qabs (- pos_quantity pos) == pos_quantity pos).
    { rewrite Qabs_opp. apply Qabs_pos. lra. }
    repeat split; eauto; lra.
  - apply ltb_ge in Hover. repeat split; eauto; lra.
Qed.

Lemma validate_sell_order_within_holding_witness :
  ord_quantity (sell_order "A" 12) < 0 /\
  validate_sell_order (one_position "A" 10 100) (sell_order "A" 12)
    {[ "A"%string := 100 ]}
    = Some (adjusted_order (sell_order "A" 12) (- (10))) /\
  exists pos,
    positions (one_position "A" 10 100) !! ord_symbol (sell_order "A" 12)
      = Some pos /\
    is_Some (({[ "A"%string := 100 ]} : gmap string Q)
               !! ord_symbol (sell_order "A" 12)) /\
    ord_symbol (adjusted_order (sell_order "A" 12) (- (10)))
      = ord_symbol (sell_order "A" 12) /\
    ord_quantity (adjusted_order (sell_order "A" 12) (- (10))) < 0 /\
    Qabs (ord_quantity (adjusted_order (sell_order "A" 12) (- (10))))
      <= pos_quantity pos /\
    Qabs (ord_quantity (adjusted_order (sell_order "A" 12) (- (10))))
      <= Qabs (ord_quantity (sell_order "A" 12)).
Proof.
  assert (H1 : ord_quantity (sell_order "A" 12) < 0) by reflexivity.
  assert (H2 : validate_sell_order (one_position "A" 10 100)
                 (sell_order "A" 12) {[ "A"%string := 100 ]}
               = Some (adjusted_order (sell_order "A" 12) (- (10))))
    by (vm_compute; reflexivity).
  split; [exact H1|]. split; [exact H2|].
  exact (validate_sell_order_within_holding (one_position "A" 10 100)
           (sell_order "A" 12) (adjusted_order (sell_order "A" 12) (- (10)))
           {[ "A"%string := 100 ]} H1 H2).
Defined.

(** ** ExecutionEngine: what a batch leaves behind *)

Lemma update_from_trade_history (pf : Portfolio) (t : Trade) :
  history (snd (update_from_trade pf t)) = history pf.
Proof.
  unfold update_from_trade. destruct (ltb 0 (trd_quantity t)); cbn [snd].
  - unfold add_position. cbn [positions with_cash].
    destruct (positions pf !! trd_symbol t) as [pos|]; [|reflexivity].
    destruct (negb _); reflexivity.
  - unfold remove_position. cbn [positions with_cash].
    destruct (positions pf !! trd_symbol t) as [pos|]; [|reflexivity].
    destruct (leb _ _); [|reflexivity].
    destruct (ltb _ _); reflexivity.
Qed.

Section BatchFacts.

Variables cr sr : Q.
Variable execution_date : Z.
Variable prices : gmap string Q.

(** A trade of the batch: stamped with the batch's date, for a symbol that
    has a price. *)
Let of_batch (t : Trade) : Prop :=
  trd_execution_date t = execution_date /\
  is_Some (prices !! trd_symbol t).

(** What one loop iteration may do to the engine and the list of executed
    trades: append the same trades to both, and leave the history alone. *)
Let extends (P : Trade -> Prop) (st st' : ExecutionEngine * list Trade)
    : Prop :=
  exists new,
    snd st' = snd st ++ new /\
    trade_log (fst st') = trade_log (fst st) ++ new /\
    history (portfolio (fst st')) = history (portfolio (fst st)) /\
    Forall P new.

Lemma extends_refl (P : Trade -> Prop) st : extends P st st.
Proof.
  exists []. rewrite !app_nil_r. repeat split. constructor.
Qed.

Lemma extends_trans (P : Trade -> Prop) st1 st2 st3 :
  extends P st1 st2 -> extends P st2 st3 -> extends P st1 st3.
Proof.
  intros (n1 & Ha1 & Hb1 & Hc1 & Hd1) (n2 & Ha2 & Hb2 & Hc2 & Hd2).
  exists (n1 ++ n2). rewrite Ha2, Ha1, Hb2, Hb1, Hc2, Hc1, !app_assoc.
  repeat split. now apply Forall_app.
Qed.

Lemma build_sell_trade_of_batch (pf : Portfolio) (order : Order) (t : Trade) :
  ord_quantity order < 0 ->
  build_sell_trade cr sr pf execution_date prices order = Some t ->
  trd_quantity t < 0 /\ of_batch t.
Proof.
  intros Hneg. unfold build_sell_trade.
  destruct (validate_sell_order pf order prices) as [o|] eqn:Hval;
    [|discriminate].
  assert (Ho : ord_quantity o < 0).
  { revert Hval. unfold validate_sell_order, get_position.
    destruct (prices !! ord_symbol order); [|discriminate].
    destruct (positions pf !! ord_symbol order) as [pos|]; [|discriminate].
    destruct (leb (pos_quantity pos) 0) eqn:Hheld; [discriminate|].
    apply leb_gt in Hheld.
    destruct (ltb _ _); intros [= <-]; cbn; lra. }
  destruct (prices !! ord_symbol o) as [price|] eqn:Hp; [|discriminate].
  intros [= <-]. cbn [Trade_init trd_quantity]. split; [exact Ho|].
  split; [reflexivity|]. cbn [Trade_init trd_symbol]. rewrite Hp. eauto.
Qed.

Lemma apply_sell_trade_extends (st : ExecutionEngine * list Trade)
    (t : Trade) :
  trd_quantity t < 0 -> of_batch t ->
  extends (fun t' => trd_quantity t' < 0 /\ of_batch t') st
    (apply_sell_trade st t).
Proof.
  intros Hq Hb. destruct st as [eng executed]. unfold apply_sell_trade.
  pose proof (update_from_trade_history (portfolio eng) t) as Hh.
  destruct (update_from_trade (portfolio eng) t) as [[success pnl] pf].
  cbn [snd] in Hh. destruct success.
  - exists [set_pnl t pnl]. cbn [fst snd trade_log portfolio].
    unfold add_trade. repeat split; try assumption.
    constructor; [|constructor]. split; [exact Hq|exact Hb].
  - exists []. cbn [fst snd trade_log portfolio]. rewrite !app_nil_r.
    repeat split; try assumption. constructor.
Qed.

Lemma execute_buy_extends (st : ExecutionEngine * list Trade)
    (order : Order) :
  0 < ord_quantity order ->
  extends (fun t' => 0 < trd_quantity t' /\ of_batch t') st
    (execute_buy cr sr execution_date prices st order).
Proof.
  intros Hbuy. destruct st as [eng executed]. unfold execute_buy.
  destruct (validate_buy_order cr sr order prices (cash (portfolio eng)))
    as [o|] eqn:Hval; [|apply extends_refl].
  assert (Ho : 0 < ord_quantity o).
  { revert Hval. unfold validate_buy_order.
    destruct (prices !! ord_symbol order); [|discriminate].
    destruct (ltb _ _); [|intros [= <-]; exact Hbuy].
    destruct (leb _ _); [discriminate|].
    destruct (_ <=? 0)%Z eqn:Hm; [discriminate|].
    apply Z.leb_gt in Hm. intros [= <-]. cbn. now apply inject_Z_pos. }
  destruct (prices !! ord_symbol o) as [price|] eqn:Hp; [|apply extends_refl].
  match goal with
  | |- context [update_from_trade ?pf ?t] =>
      pose proof (update_from_trade_history pf t) as Hh;
      destruct (update_from_trade pf t) as [[success pnl] pf']
  end.
  cbn [snd] in Hh. destruct success.
  - eexists [_]. cbn [fst snd trade_log portfolio]. unfold add_trade.
    repeat split; try assumption.
    constructor; [|constructor]. split; [exact Ho|].
    split; [reflexivity|]. cbn [Trade_init trd_symbol]. rewrite Hp. eauto.
  - exists []. cbn [fst snd trade_log portfolio]. rewrite !app_nil_r.
    repeat split; try assumption. constructor.
Qed.

Lemma apply_sell_trades_extend (trades : list Trade) :
  Forall (fun t => trd_quantity t < 0 /\ of_batch t) trades ->
  forall st,
    extends (fun t' => trd_quantity t' < 0 /\ of_batch t') st
      (fold_left apply_sell_trade trades st).
Proof.
  induction 1 as [|t trades [Hq Hb] _ IH]; intros st; cbn [fold_left].
  - apply extends_refl.
  - eapply extends_trans; [|apply IH]. now apply apply_sell_trade_extends.
Qed.

Lemma execute_buys_extend (orders : list Order) :
  forall st,
    extends (fun t' => 0 < trd_quantity t' /\ of_batch t') st
      (fold_left (execute_buy cr sr execution_date prices)
         (List.filter is_buy orders) st).
Proof.
  induction orders as [|o orders IH]; intros st; cbn [List.filter].
  - apply extends_refl.
  - destruct (is_buy o) eqn:Hb; [|apply IH]. cbn [fold_left].
    eapply extends_trans; [|apply IH]. apply execute_buy_extends.
    unfold is_buy in Hb. now apply ltb_lt in Hb.
Qed.

Lemma sell_trades_of_batch (pf : Portfolio) (orders : list Order) :
  Forall (fun t => trd_quantity t < 0 /\ of_batch t)
    (omap (build_sell_trade cr sr pf execution_date prices)
          (List.filter is_sell orders)).
Proof.
  induction orders as [|o orders IH]; cbn [List.filter omap list_omap].
  - constructor.
  - destruct (is_sell o) eqn:Hs; [|exact IH]. cbn [omap list_omap].
    destruct (build_sell_trade cr sr pf execution_date prices o) as [t|]
      eqn:Hb; [|exact IH].
    constructor; [|exact IH].
    apply (build_sell_trade_of_batch pf o t); [|exact Hb].
    unfold is_sell in Hs. now apply ltb_lt in Hs.
Qed.

(** The shape of every batch: the executed sells, then the executed buys,
    appended to the log as they are returned. *)
Lemma execute_orders_structure (eng : ExecutionEngine) (orders : list Order) :
  exists sells buys,
    fst (execute_orders cr sr eng orders execution_date prices)
      = sells ++ buys /\
    trade_log (snd (execute_orders cr sr eng orders execution_date prices))
      = trade_log eng ++ sells ++ buys /\
    history (portfolio
               (snd (execute_orders cr sr eng orders execution_date prices)))
      = history (portfolio eng) /\
    Forall (fun t => trd_quantity t < 0 /\ of_batch t) sells /\
    Forall (fun t => 0 < trd_quantity t /\ of_batch t) buys.
Proof.
  unfold execute_orders. destruct orders as [|o orders].
  - exists [], []. cbn. rewrite app_nil_r. repeat split; constructor.
  - set (all := o :: orders).
    set (st1 := fold_left apply_sell_trade _ (eng, [])).
    destruct (apply_sell_trades_extend _
                (sell_trades_of_batch (portfolio eng) all) (eng, []))
      as (sells & Ha1 & Hb1 & Hc1 & Hd1). fold st1 in Ha1, Hb1, Hc1.
    destruct (execute_buys_extend all st1) as (buys & Ha2 & Hb2 & Hc2 & Hd2).
    exists sells, buys. cbn [fst snd] in *.
    rewrite Ha2, Ha1, Hb2, Hb1, Hc2, Hc1, app_assoc.
    repeat split; assumption.
Qed.

End BatchFacts.

(** [execute_orders] appends exactly the trades it returns to the trade
    log, in the order returned, and never touches the valuation history. *)
Theorem execute_orders_log_grows_by_returned_trades (cr sr : Q)
    (eng : ExecutionEngine) (orders : list Order) (execution_date : Z)
    (prices : gmap string Q) :
  trade_log (snd (execute_orders cr sr eng orders execution_date prices))
    = trade_log eng
      ++ fst (execute_orders cr sr eng orders execution_date prices) /\
  history (portfolio
             (snd (execute_orders cr sr eng orders execution_date prices)))
    = history (portfolio eng).
Proof.
  destruct (execute_orders_structure cr sr execution_date prices eng orders)
    as (sells & buys & Hret & Hlog & Hhist & _ & _).
  rewrite Hret, Hlog, Hhist. split; reflexivity.
Qed.

(** In the list [execute_orders] returns every sell precedes every buy,
    whatever the order of the input; orders of quantity 0 produce no
    trade. *)
Theorem execute_orders_sells_before_buys (cr sr : Q)
    (eng : ExecutionEngine) (orders : list Order) (execution_date : Z)
    (prices : gmap string Q) :
  exists sells buys,
    fst (execute_orders cr sr eng orders execution_date prices)
      = sells ++ buys /\
    Forall (fun t => trd_quantity t < 0) sells /\
    Forall (fun t => 0 < trd_quantity t) buys.
Proof.
  destruct (execute_orders_structure cr sr execution_date prices eng orders)
    as (sells & buys & Hret & _ & _ & Hs & Hb).
  exists sells, buys. split; [exact Hret|].
  split; eapply Forall_impl; eauto; cbn; tauto.
Qed.

Lemma filter_all_true {A : Type} (f : A -> bool) (l : list A) :
  Forall (fun x => f x = true) l -> List.filter f l = l.
Proof.
  induction 1 as [|x l Hx _ IH]; cbn; [reflexivity|].
  now rewrite Hx, IH.
Qed.

(** Every trade [execute_orders] makes carries the execution date it was
    given and is for a symbol that has a price; hence the log's trades for
    that date are those it had before followed by the returned ones. *)
Theorem execute_orders_trades_dated_and_priced (cr sr : Q)
    (eng : ExecutionEngine) (orders : list Order) (execution_date : Z)
    (prices : gmap string Q) :
  Forall (fun t => trd_execution_date t = execution_date /\
                   is_Some (prices !! trd_symbol t))
    (fst (execute_orders cr sr eng orders execution_date prices)) /\
  get_trades_for_date
    (trade_log (snd (execute_orders cr sr eng orders execution_date prices)))
    execution_date
  = get_trades_for_date (trade_log eng) execution_date
    ++ fst (execute_orders cr sr eng orders execution_date prices).
Proof.
  destruct (execute_orders_structure cr sr execution_date prices eng orders)
    as (sells & buys & Hret & Hlog & _ & Hs & Hb).
  assert (Hall : Forall (fun t => trd_execution_date t = execution_date /\
                                  is_Some (prices !! trd_symbol t))
                   (sells ++ buys)).
  { apply Forall_app. split; eapply Forall_impl; eauto; cbn; tauto. }
  rewrite Hret, Hlog. split; [exact Hall|].
  unfold get_trades_for_date. rewrite List.filter_app. f_equal.
  apply filter_all_true. eapply Forall_impl; [exact Hall|].
  cbn. intros t [Hd _]. now apply Z.eqb_eq.
Qed.

(** A batch none of whose orders has a price (in particular the empty
    batch) makes no trade and leaves the engine exactly as it was. *)
Theorem execute_orders_unpriced_is_noop (cr sr : Q)
    (eng : ExecutionEngine) (orders : list Order) (execution_date : Z)
    (prices : gmap string Q) :
  Forall (fun o => prices !! ord_symbol o = None) orders ->
  execute_orders cr sr eng orders execution_date prices = ([], eng).
Proof.
  intros Hall. unfold execute_orders.
  destruct orders as [|o0 rest] eqn:Horders; [reflexivity|].
  rewrite <- Horders in *. clear Horders o0 rest.
  assert (Hsells : omap (build_sell_trade cr sr (portfolio eng)
                           execution_date prices)
                        (List.filter is_sell orders) = []).
  { induction Hall as [|o l Ho _ IH]; [reflexivity|]. cbn [List.filter].
    destruct (is_sell o); [|exact IH]. cbn [omap list_omap].
    unfold build_sell_trade, validate_sell_order at 1. rewrite Ho.
    exact IH. }
  rewrite Hsells. cbn [fold_left].
  assert (Hbuys : fold_left (execute_buy cr sr execution_date prices)
                    (List.filter is_buy orders) (eng, []) = (eng, [])).
  { clear Hsells.
    induction Hall as [|o l Ho _ IH]; [reflexivity|]. cbn [List.filter].
    destruct (is_buy o); [|exact IH]. cbn [fold_left].
    unfold execute_buy at 2, validate_buy_order. rewrite Ho.
    exact IH. }
  rewrite Hbuys. reflexivity.
Qed.

Lemma execute_orders_unpriced_is_noop_witness :
  Forall (fun o => ({[ "A"%string := 100 ]} : gmap string Q)
                     !! ord_symbol o = None)
    [buy_order_of "B" 5; sell_order "C" 3] /\
  execute_orders 0 0 (ExecutionEngine_init 1000)
    [buy_order_of "B" 5; sell_order "C" 3] 1 {[ "A"%string := 100 ]}
  = ([], ExecutionEngine_init 1000).
Proof.
  assert (H : Forall (fun o => ({[ "A"%string := 100 ]} : gmap string Q)
                                 !! ord_symbol o = None)
                [buy_order_of "B" 5; sell_order "C" 3]).
  { repeat constructor. }
  split; [exact H|].
  exact (execute_orders_unpriced_is_noop 0 0 (ExecutionEngine_init 1000)
           [buy_order_of "B" 5; sell_order "C" 3] 1
           {[ "A"%string := 100 ]} H).
Defined.

(** ** The portfolio check of the backtest engine *)

Lemma _validate_portfolio_state_positive (pf : Portfolio)
    (prices : gmap string Q) :
  holdings_positive pf -> _validate_portfolio_state pf prices = true.
Proof.
  unfold holdings_positive, _validate_portfolio_state.
  generalize (positions pf). intros ps.
  apply (map_fold_weak_ind
           (fun r m => (forall symbol pos, m !! symbol = Some pos ->
                                            0 < pos_quantity pos) ->
                       r = true)).
  - reflexivity.
  - intros i x m r Hi IH Hall.
    assert (Hr : r = true).
    { apply IH. intros symbol pos Hs. apply (Hall symbol).
      rewrite lookup_insert_ne; [exact Hs|]. intros ->. congruence. }
    assert (Hx : 0 < pos_quantity x)
      by (apply (Hall i); apply lookup_insert_eq).
    destruct (prices !! i); [|exact Hr].
    assert (E : ltb (pos_quantity x) 0 = false) by (apply ltb_ge; lra).
    now rewrite E.
Qed.

(** Starting from a portfolio whose holdings are positive (a fresh one has
    none), the state left by [execute_orders] always passes
    [_validate_portfolio_state], for any price map used in the check. *)
Theorem execute_orders_leaves_valid_portfolio (cr sr : Q)
    (eng : ExecutionEngine) (orders : list Order) (execution_date : Z)
    (prices check_prices : gmap string Q) :
  holdings_positive (portfolio eng) ->
  _validate_portfolio_state
    (portfolio (snd (execute_orders cr sr eng orders execution_date prices)))
    check_prices = true.
Proof.
  intros H. apply _validate_portfolio_state_positive.
  now apply execute_orders_holdings_positive.
Qed.

Lemma execute_orders_leaves_valid_portfolio_witness :
  holdings_positive (portfolio (ExecutionEngine_init 1000)) /\
  _validate_portfolio_state
    (portfolio (snd (execute_orders 0 0 (ExecutionEngine_init 1000)
                       [buy_order_of "A" 5] 1 {[ "A"%string := 100 ]})))
    {[ "A"%string := 100 ]} = true.
Proof.
  assert (H : holdings_positive (portfolio (ExecutionEngine_init 1000)))
    by apply Portfolio_init_holdings_positive.
  split; [exact H|].
  exact (execute_orders_leaves_valid_portfolio 0 0
           (ExecutionEngine_init 1000) [buy_order_of "A" 5] 1
           {[ "A"%string := 100 ]} {[ "A"%string := 100 ]} H).
Defined.

(** ** AllocationPlanner: priority order *)

Lemma insert_by_change_perm (x : string * BuyEstimate)
    (l : list (string * BuyEstimate)) :
  Permutation (insert_by_change x l) (x :: l).
Proof.
  induction l as [|y l IH]; cbn; [reflexivity|].
  destruct (ltb _ _); [reflexivity|].
  rewrite IH. apply perm_swap.
Qed.

Lemma insert_by_change_sorted (x : string * BuyEstimate)
    (l : list (string * BuyEstimate)) :
  Sorted change_ge l -> Sorted change_ge (insert_by_change x l).
Proof.
  induction 1 as [|y l Hs IH Hhd]; cbn.
  - repeat constructor.
  - destruct (ltb (est_dollar_change (snd y)) (est_dollar_change (snd x)))
      eqn:E.
    + apply ltb_lt in E. constructor; [now constructor|].
      constructor. unfold change_ge. lra.
    + apply ltb_ge in E. constructor; [exact IH|].
      destruct l as [|z l]; cbn.
      * constructor. exact E.
      * destruct (ltb _ _); constructor; [exact E|].
        now inversion Hhd.
Qed.

Lemma sort_fold_spec (l acc : list (string * BuyEstimate)) :
  Sorted change_ge acc ->
  Sorted change_ge (fold_left (fun acc x => insert_by_change x acc) l acc) /\
  Permutation (fold_left (fun acc x => insert_by_change x acc) l acc)
              (l ++ acc).
Proof.
  revert acc. induction l as [|x l IH]; intros acc Hacc; cbn [fold_left].
  - split; [exact Hacc|reflexivity].
  - destruct (IH (insert_by_change x acc)
                 (insert_by_change_sorted x acc Hacc)) as [Hs Hp].
    split; [exact Hs|]. rewrite Hp, insert_by_change_perm. cbn.
    now rewrite Permutation_middle.
Qed.

Lemma sort_by_change_desc_perm (l : list (string * BuyEstimate)) :
  Permutation (sort_by_change_desc l) l.
Proof.
  unfold sort_by_change_desc.
  destruct (sort_fold_spec l [] (Sorted_nil _)) as [_ Hp].
  now rewrite Hp, app_nil_r.
Qed.

(** The priority list is the list of estimates rearranged, largest dollar
    change first: nothing is lost or duplicated. *)
Theorem sort_by_change_desc_sorts (l : list (string * BuyEstimate)) :
  Sorted change_ge (sort_by_change_desc l) /\
  Permutation (sort_by_change_desc l) l.
Proof.
  unfold sort_by_change_desc.
  destruct (sort_fold_spec l [] (Sorted_nil _)) as [Hs Hp].
  split; [exact Hs|]. now rewrite Hp, app_nil_r.
Qed.

(** ** AllocationPlanner: the orders it returns *)

Lemma Qsum_app (a b : list Q) : Qsum (a ++ b) == Qsum a + Qsum b.
Proof.
  unfold Qsum. induction a as [|x a IH]; cbn; [ring|]. rewrite IH. ring.
Qed.

Lemma fold_left_Qsum {A : Type} (g : A -> Q) (l : list A) (a : Q) :
  fold_left (fun acc it => acc + g it) l a == a + Qsum (g <$> l).
Proof.
  revert a. induction l as [|x l IH]; intros a; cbn.
  - unfold Qsum. cbn. ring.
  - rewrite IH. unfold Qsum. cbn. ring.
Qed.

Lemma assoc_alter_split {A : Type} (f : A -> A) (symbol : string)
    (d : list (string * A)) (a : A) :
  assoc_get symbol d = Some a ->
  exists l1 l2,
    d = l1 ++ (symbol, a) :: l2 /\
    assoc_alter f symbol d = l1 ++ (symbol, f a) :: l2.
Proof.
  induction d as [|[k v] d IH]; cbn; [discriminate|].
  destruct (String.eqb k symbol) eqn:E.
  - apply String.eqb_eq in E as ->. intros [= ->]. now exists [], d.
  - intros H. destruct (IH H) as (l1 & l2 & -> & ->).
    now exists ((k, v) :: l1), l2.
Qed.

Section PlannerFacts.

Variables cr sr : Q.
Variable prices : gmap string Q.
Variable order_date : option Z.
Variable current_positions : option (gmap string Position).

(** A sell the planner may emit: for a priced, held symbol and for no more
    than is held. *)
Let sell_ok (o : Order) : Prop :=
  ord_quantity o < 0 /\
  is_Some (prices !! ord_symbol o) /\
  exists held,
    held_quantity current_positions (ord_symbol o) = Some held /\
    Qabs (ord_quantity o) <= held.

(** A buy the planner may emit: a positive whole number of shares of a
    priced symbol. *)
Let buy_ok (o : Order) : Prop :=
  is_Some (prices !! ord_symbol o) /\
  exists z, (0 < z)%Z /\ ord_quantity o = inject_Z z.

Let held_item (it : string * Q) : Prop :=
  exists held,
    held_quantity current_positions (fst it) = Some held /\ 0 < held.

Lemma plan_sell_step (orders : list Order) (cash_freed : Q)
    (it : string * Q) :
  held_item it ->
  exists new cash_freed',
    plan_sell cr prices order_date current_positions (orders, cash_freed) it
      = (orders ++ new, cash_freed') /\
    cash_freed'
      == cash_freed + Qsum (estimated_proceeds cr prices <$> new) /\
    Forall sell_ok new.
Proof.
  destruct it as [symbol dollar_change]. intros (held & Hheld & Hpos).
  cbn [fst] in Hheld.
  assert (Hnone : exists new cash_freed',
             (orders, cash_freed) = (orders ++ new, cash_freed') /\
             cash_freed'
               == cash_freed + Qsum (estimated_proceeds cr prices <$> new) /\
             Forall sell_ok new).
  { exists [], cash_freed. rewrite app_nil_r. split; [reflexivity|].
    split; [unfold Qsum; cbn; ring|constructor]. }
  unfold plan_sell.
  destruct (prices !! symbol) as [price|] eqn:Hp; [|exact Hnone].
  rewrite Hheld. change (default 0 (Some held)) with held.
  set (m0 := inject_Z (Z.abs (py_round (dollar_change / price)))).
  set (m := if ltb held m0 then held else m0).
  assert (Hm : m <= held).
  { unfold m. destruct (ltb held m0) eqn:E; [lra|]. now apply ltb_ge in E. }
  destruct (leb m 0) eqn:Hle; [exact Hnone|]. apply leb_gt in Hle.
  destruct (eqb (- m) 0); [exact Hnone|].
  eexists [_], _. split; [reflexivity|]. split.
  - unfold Qsum, estimated_proceeds.
    cbn [fmap list_fmap foldr ord_quantity ord_symbol]. rewrite Hp. ring.
  - constructor; [|constructor]. unfold sell_ok.
    cbn [ord_quantity ord_symbol].
    split; [lra|]. split; [rewrite Hp; eauto|].
    exists held. split; [exact Hheld|].
    rewrite Qabs_opp, Qabs_pos by lra. exact Hm.
Qed.

Lemma plan_sells_fold (items : list (string * Q)) :
  Forall held_item items ->
  forall orders cash_freed,
  exists new cash_freed',
    fold_left (plan_sell cr prices order_date current_positions) items
      (orders, cash_freed) = (orders ++ new, cash_freed') /\
    cash_freed'
      == cash_freed + Qsum (estimated_proceeds cr prices <$> new) /\
    Forall sell_ok new.
Proof.
  induction 1 as [|it items Hit _ IH]; intros orders cash_freed;
    cbn [fold_left].
  - exists [], cash_freed. rewrite app_nil_r. split; [reflexivity|].
    split; [unfold Qsum; cbn; ring|constructor].
  - destruct (plan_sell_step orders cash_freed it Hit)
      as (n1 & c1 & -> & Hc1 & Hn1).
    destruct (IH (orders ++ n1) c1) as (n2 & c2 & -> & Hc2 & Hn2).
    exists (n1 ++ n2), c2. rewrite app_assoc. split; [reflexivity|].
    split; [|now apply Forall_app].
    rewrite Hc2, Hc1, fmap_app, Qsum_app. ring.
Qed.

Lemma sell_changes_held (l : list (string * Q)) :
  Forall held_item
    (List.filter
       (fun it =>
          (negb (ltb 0 (snd it)) && ltb (snd it) 0 &&
           match held_quantity current_positions (fst it) with
           | Some current_qty => ltb 0 current_qty
           | None => false
           end)%bool) l).
Proof.
  induction l as [|it l IH]; cbn [List.filter]; [constructor|].
  destruct (negb (ltb 0 (snd it)) && ltb (snd it) 0)%bool; cbn [andb];
    [|exact IH].
  destruct (held_quantity current_positions (fst it)) as [q|] eqn:Hq;
    [|exact IH].
  destruct (ltb 0 q) eqn:Hpos; [|exact IH].
  constructor; [|exact IH]. exists q. split; [exact Hq|].
  now apply ltb_lt.
Qed.

(** One estimate of the first pass. *)
Let est_ok (it : string * BuyEstimate) : Prop :=
  exists price,
    prices !! fst it = Some price /\
    est_adjusted_price (snd it) = price * (1 + sr) /\
    est_single_share_cost (snd it) = price * (1 + sr) * (1 + cr) /\
    est_total_cost (snd it)
      == inject_Z (est_quantity (snd it)) * unit_cost cr sr prices (fst it) /\
    (0 < est_quantity (snd it))%Z.

Lemma estimates_ok (l : list (string * Q)) :
  Forall est_ok (omap (estimate_buy cr sr prices) l).
Proof.
  induction l as [|[symbol dc] l IH]; cbn [omap list_omap]; [constructor|].
  unfold estimate_buy at 1.
  destruct (prices !! symbol) as [price|] eqn:Hp; [|exact IH].
  destruct (py_round (dc / price) <=? 0)%Z eqn:Hq; [exact IH|].
  apply Z.leb_gt in Hq. constructor; [|exact IH].
  exists price. cbn. split; [exact Hp|]. split; [reflexivity|].
  split; [reflexivity|]. split; [|exact Hq].
  unfold unit_cost. rewrite Hp. ring.
Qed.

(** One entry of [adjusted_orders]. *)
Let adj_ok (it : string * AdjustedOrder) : Prop :=
  (0 < adj_quantity (snd it))%Z /\
  is_Some (prices !! fst it) /\
  adj_total (snd it)
    == inject_Z (adj_quantity (snd it)) * unit_cost cr sr prices (fst it).

Let total_of (adj : list (string * AdjustedOrder)) : Q :=
  Qsum ((fun it => adj_total (snd it)) <$> adj).

Lemma scale_buy_entries (f : Q) (st : list (string * AdjustedOrder) * Q)
    (it : string * BuyEstimate) :
  est_ok it -> Forall adj_ok (fst st) ->
  Forall adj_ok (fst (scale_buy cr f st it)).
Proof.
  destruct st as [adj rem], it as [symbol e].
  intros (price & Hp & Hap & _ & _ & _) Hadj. cbn [fst snd] in *.
  unfold scale_buy.
  set (q := if (_ && _)%bool then 1%Z else _).
  destruct (0 <? q)%Z eqn:Hq; [|exact Hadj]. apply Z.ltb_lt in Hq.
  lazymatch goal with
  | |- Forall _ (fst (if ?b then _ else _)) => destruct b
  end; [|exact Hadj].
  cbn [fst].
  apply Forall_app. split; [exact Hadj|]. constructor; [|constructor].
  unfold adj_ok. cbn [fst snd adj_quantity adj_total].
  split; [exact Hq|]. split; [rewrite Hp; eauto|].
  unfold unit_cost. rewrite Hp, Hap. ring.
Qed.

Lemma top_up_buy_entries (st : list (string * AdjustedOrder) * Q)
    (it : string * BuyEstimate) :
  est_ok it -> Forall adj_ok (fst st) ->
  Forall adj_ok (fst (top_up_buy cr st it)).
Proof.
  destruct st as [adj rem], it as [symbol e].
  intros (price & Hp & Hap & _ & _ & _) Hadj. cbn [fst snd] in *.
  unfold top_up_buy.
  destruct (assoc_get symbol adj) as [a|] eqn:Ha; [|exact Hadj].
  destruct (leb _ rem); [|exact Hadj].
  destruct (0 <? py_int _)%Z; [|exact Hadj].
  set (add := Z.min _ _).
  destruct (0 <? add)%Z eqn:Hadd; [|exact Hadj]. apply Z.ltb_lt in Hadd.
  cbn [fst].
  match goal with
  | |- context [assoc_alter ?f symbol adj] =>
      destruct (assoc_alter_split f symbol adj a Ha) as (l1 & l2 & Hd & ->)
  end.
  rewrite Hd in Hadj. apply Forall_app in Hadj as [H1 H2].
  apply Forall_cons in H2 as [(Hq & Hpr & Ht) H2].
  apply Forall_app. split; [exact H1|]. constructor; [|exact H2].
  unfold adj_ok in *. cbn in *. split; [lia|]. split; [exact Hpr|].
  rewrite Ht, Hap, inject_Z_plus. unfold unit_cost. rewrite Hp. ring.
Qed.

Lemma fold_entries {A : Type} (step : list (string * AdjustedOrder) * Q ->
                                      A -> list (string * AdjustedOrder) * Q)
    (P : A -> Prop) (l : list A) :
  (forall st it, P it -> Forall adj_ok (fst st) ->
                 Forall adj_ok (fst (step st it))) ->
  Forall P l ->
  forall st, Forall adj_ok (fst st) ->
             Forall adj_ok (fst (fold_left step l st)).
Proof.
  intros Hstep. induction 1 as [|it l Hit _ IH]; intros st Hst;
    cbn [fold_left]; [exact Hst|].
  apply IH. now apply Hstep.
Qed.

(** The orders made from [adjusted_orders], and what they are reckoned to
    cost. *)
Lemma adjusted_orders_emitted (adj : list (string * AdjustedOrder)) :
  Forall adj_ok adj ->
  Forall buy_ok
    (omap (fun it =>
             if (0 <? adj_quantity (snd it))%Z
             then Some (buy_order prices order_date (fst it)
                          (adj_quantity (snd it)) 0)
             else None) adj) /\
  Qsum (estimated_cost cr sr prices <$>
          omap (fun it =>
                  if (0 <? adj_quantity (snd it))%Z
                  then Some (buy_order prices order_date (fst it)
                               (adj_quantity (snd it)) 0)
                  else None) adj)
  == total_of adj.
Proof.
  unfold total_of.
  induction 1 as [|[symbol a] adj (Hq & Hpr & Ht) _ [IH1 IH2]];
    cbn [omap list_omap fmap list_fmap].
  - split; [constructor|reflexivity].
  - cbn [fst snd] in *. apply Z.ltb_lt in Hq. rewrite Hq.
    apply Z.ltb_lt in Hq. split.
    + constructor; [|exact IH1]. split; [exact Hpr|].
      exists (adj_quantity a). split; [exact Hq|reflexivity].
    + unfold Qsum in *. cbn [fmap list_fmap foldr]. rewrite IH2.
      unfold estimated_cost at 1. cbn [buy_order ord_quantity ord_symbol].
      rewrite Ht. reflexivity.
Qed.

Lemma estimates_emitted (E : list (string * BuyEstimate)) :
  Forall est_ok E ->
  Forall buy_ok
    (List.map (fun it => buy_order prices order_date (fst it)
                           (est_quantity (snd it)) (est_price (snd it))) E) /\
  Qsum (estimated_cost cr sr prices <$>
          List.map (fun it => buy_order prices order_date (fst it)
                                (est_quantity (snd it)) (est_price (snd it)))
                   E)
  == Qsum ((fun it => est_total_cost (snd it)) <$> E).
Proof.
  induction 1 as [|[symbol e] E (price & Hp & _ & _ & Ht & Hq) _ [IH1 IH2]];
    cbn [List.map fmap list_fmap].
  - split; [constructor|reflexivity].
  - cbn [fst snd] in *. split.
    + constructor; [|exact IH1]. split; [cbn; rewrite Hp; eauto|].
      exists (est_quantity e). split; [exact Hq|reflexivity].
    + unfold Qsum in *. cbn [fmap list_fmap foldr]. rewrite IH2.
      unfold estimated_cost at 1. cbn [buy_order ord_quantity ord_symbol].
      rewrite Ht. reflexivity.
Qed.

(** The cash bookkeeping of the scaling branch: what the accepted entries
    are reckoned to cost plus what remains is the buffered cash, and what
    remains is never negative. *)
Let budget (B : Q) (st : list (string * AdjustedOrder) * Q) : Prop :=
  0 <= snd st /\ total_of (fst st) + snd st == B.

Lemma scale_buy_budget (B f : Q) (st : list (string * AdjustedOrder) * Q)
    (it : string * BuyEstimate) :
  budget B st -> budget B (scale_buy cr f st it).
Proof.
  destruct st as [adj rem], it as [symbol e]. unfold budget. cbn [fst snd].
  intros [Hrem Hsum]. unfold scale_buy.
  set (q := if (_ && _)%bool then 1%Z else _).
  destruct (0 <? q)%Z; [|split; assumption].
  lazymatch goal with
  | |- 0 <= snd (if ?b then _ else _) /\ _ => destruct b eqn:Hfit
  end; [|split; assumption].
  apply leb_le in Hfit. cbn [fst snd]. split; [lra|].
  unfold total_of in *. rewrite fmap_app, Qsum_app.
  unfold Qsum at 2. cbn [fmap list_fmap foldr snd adj_total].
  rewrite <- Hsum. ring.
Qed.

Lemma top_up_buy_budget (B : Q) (st : list (string * AdjustedOrder) * Q)
    (it : string * BuyEstimate) :
  0 <= cr -> 0 <= sr -> prices_positive prices ->
  est_ok it -> budget B st -> budget B (top_up_buy cr st it).
Proof.
  intros Hcr Hsr Hpp.
  destruct st as [adj rem], it as [symbol e]. unfold budget. cbn [fst snd].
  intros (price & Hp & Hap & Hsingle & _ & _) [Hrem Hsum].
  cbn [fst snd] in Hp, Hap, Hsingle.
  unfold top_up_buy. rewrite Hsingle, Hap.
  set (u := price * (1 + sr) * (1 + cr)).
  assert (Hu : 0 < u).
  { pose proof (Hpp _ _ Hp). unfold u.
    apply Qmult_lt_0_compat; [apply Qmult_lt_0_compat|]; lra. }
  destruct (assoc_get symbol adj) as [a|] eqn:Ha; [|split; assumption].
  destruct (leb u rem) eqn:Hle; [|split; assumption]. apply leb_le in Hle.
  set (x := rem / u).
  destruct (0 <? py_int x)%Z; [|split; assumption].
  set (add := Z.min (py_int x) (est_quantity e - adj_quantity a)).
  destruct (0 <? add)%Z eqn:Hadd; [|split; assumption].
  apply Z.ltb_lt in Hadd. cbn [fst snd].
  assert (Hx : 0 <= x) by (unfold x; apply Qle_shift_div_l; lra).
  assert (Hxu : x * u == rem) by (unfold x; field; lra).
  assert (Hle_add : inject_Z add <= x).
  { apply Qle_trans with (inject_Z (py_int x)); [|now apply py_int_le].
    rewrite <- Zle_Qle. apply Z.le_min_l. }
  assert (Hcost : inject_Z add * (price * (1 + sr))
                  + inject_Z add * (price * (1 + sr)) * cr
                  == inject_Z add * u) by (unfold u; ring).
  assert (Hfit : inject_Z add * u <= rem).
  { rewrite <- Hxu. apply Qmult_le_compat_r; lra. }
  split; [lra|].
  match goal with
  | |- context [assoc_alter ?f symbol adj] =>
      destruct (assoc_alter_split f symbol adj a Ha) as (l1 & l2 & Hd & ->)
  end.
  rewrite Hd in Hsum. unfold total_of in *.
  rewrite fmap_app, Qsum_app in *.
  unfold Qsum at 2. unfold Qsum at 2 in Hsum.
  cbn [fmap list_fmap foldr snd adj_total] in *.
  rewrite <- Hsum. ring.
Qed.

Lemma fold_budget {A : Type} (step : list (string * AdjustedOrder) * Q ->
                                     A -> list (string * AdjustedOrder) * Q)
    (P : A -> Prop) (B : Q) (l : list A) :
  (forall st it, P it -> budget B st -> budget B (step st it)) ->
  Forall P l ->
  forall st, budget B st -> budget B (fold_left step l st).
Proof.
  intros Hstep. induction 1 as [|it l Hit _ IH]; intros st Hst;
    cbn [fold_left]; [exact Hst|].
  apply IH. now apply Hstep.
Qed.

End PlannerFacts.

Lemma Forall_trivial {A : Type} (l : list A) : Forall (fun _ => True) l.
Proof. induction l; constructor; auto. Qed.

Lemma generate_orders_shape (cr sr : Q) (dollar_changes : list (string * Q))
    (prices : gmap string Q) (order_date : option Z)
    (available_cash : option Q)
    (current_positions : option (gmap string Position)) :
  exists sells buys cash_freed,
    generate_orders cr sr dollar_changes prices order_date available_cash
      current_positions = sells ++ buys /\
    Forall (fun o =>
              ord_quantity o < 0 /\
              is_Some (prices !! ord_symbol o) /\
              exists held,
                held_quantity current_positions (ord_symbol o) = Some held /\
                Qabs (ord_quantity o) <= held) sells /\
    cash_freed == Qsum (estimated_proceeds cr prices <$> sells) /\
    Forall (fun o =>
              is_Some (prices !! ord_symbol o) /\
              exists z, (0 < z)%Z /\ ord_quantity o = inject_Z z) buys /\
    (0 <= cr -> 0 <= sr -> prices_positive prices ->
     buys = [] \/
     Qsum (estimated_cost cr sr prices <$> buys)
       <= (default 0 available_cash + cash_freed) * cash_buffer_factor).
Proof.
  unfold generate_orders, generate_orders_path.
  set (priced := List.filter _ dollar_changes).
  set (buy_changes := List.filter (fun it => ltb 0 (snd it)) priced).
  pose proof (sell_changes_held current_positions priced) as Hheld.
  destruct (plan_sells_fold cr prices order_date current_positions _ Hheld
              [] 0) as (sells & cf & Hfold & Hcf & Hs).
  cbv zeta in Hfold. cbn [app] in Hfold. rewrite Hfold.
  assert (Hcf' : cf == Qsum (estimated_proceeds cr prices <$> sells))
    by (rewrite Hcf; ring).
  set (tac := default 0 available_cash + cf).
  assert (Hbudget_cf :
            (default 0 available_cash + cf) * cash_buffer_factor
            = tac * cash_buffer_factor) by reflexivity.
  lazymatch goal with
  | |- context [if ?b then (sells, NoBuys) else _] => destruct b eqn:Hearly
  end.
  { exists sells, [], cf. rewrite app_nil_r. cbn [fst].
    split; [reflexivity|]. split; [exact Hs|]. split; [exact Hcf'|].
    split; [constructor|]. intros _ _ _. now left. }
  apply orb_false_iff in Hearly as [Htac _]. apply leb_gt in Htac.
  set (E := omap (estimate_buy cr sr prices) buy_changes).
  pose proof (estimates_ok cr sr prices buy_changes) as HE.
  cbv zeta in HE. fold E in HE.
  lazymatch goal with
  | |- context [if ?b then _ else (_, AsIs)] => destruct b eqn:Hscale
  end.
  - (* scaling branch *)
    set (B := tac * cash_buffer_factor).
    set (P := sort_by_change_desc E).
    assert (HP : Forall (fun it => exists price,
                           prices !! fst it = Some price /\
                           est_adjusted_price (snd it) = price * (1 + sr) /\
                           est_single_share_cost (snd it)
                             = price * (1 + sr) * (1 + cr) /\
                           est_total_cost (snd it)
                             == inject_Z (est_quantity (snd it))
                                * unit_cost cr sr prices (fst it) /\
                           (0 < est_quantity (snd it))%Z) P).
    { unfold P. rewrite sort_by_change_desc_perm. exact HE. }
    set (f := B / _).
    pose proof (fold_entries cr sr prices (scale_buy cr f) _ P
                  (scale_buy_entries cr sr prices f) HP ([], B)
                  (List.Forall_nil _)) as Hent1.
    assert (HB0 : 0 <= B).
    { unfold B, cash_buffer_factor.
      apply Qmult_le_0_compat; [lra|by_computation]. }
    pose proof (fold_budget (scale_buy cr f) (fun _ => True)
                  B P (fun st it _ => scale_buy_budget cr B f st it)
                  (Forall_trivial P) ([], B)) as Hbud1.
    cbv zeta in Hent1, Hbud1.
    assert (Hbud1' :
              0 <= snd (fold_left (scale_buy cr f) P ([], B)) /\
              Qsum ((fun it => adj_total (snd it)) <$>
                      fst (fold_left (scale_buy cr f) P ([], B)))
              + snd (fold_left (scale_buy cr f) P ([], B)) == B).
    { apply Hbud1. cbn [fst snd]. split; [exact HB0|].
      unfold Qsum. cbn. ring. }
    clear Hbud1.
    destruct (fold_left (scale_buy cr f) P ([], B)) as [adj rem] eqn:Hfold1.
    cbn [fst snd] in Hent1, Hbud1'.
    assert (Hfinal : exists adj' rem',
               (if ltb 0 rem
                then fold_left (top_up_buy cr) P (adj, rem)
                else (adj, rem)) = (adj', rem') /\
               Forall (fun it =>
                         (0 < adj_quantity (snd it))%Z /\
                         is_Some (prices !! fst it) /\
                         adj_total (snd it)
                           == inject_Z (adj_quantity (snd it))
                              * unit_cost cr sr prices (fst it)) adj' /\
               (0 <= cr -> 0 <= sr -> prices_positive prices ->
                0 <= rem' /\
                Qsum ((fun it => adj_total (snd it)) <$> adj') + rem' == B)).
    { destruct (ltb 0 rem).
      - pose proof (fold_entries cr sr prices (top_up_buy cr) _ P
                      (top_up_buy_entries cr sr prices) HP (adj, rem)
                      Hent1) as Hent2.
        cbv zeta in Hent2.
        assert (Hbud2 : 0 <= cr -> 0 <= sr -> prices_positive prices ->
                  0 <= snd (fold_left (top_up_buy cr) P (adj, rem)) /\
                  Qsum ((fun it => adj_total (snd it)) <$>
                          fst (fold_left (top_up_buy cr) P (adj, rem)))
                  + snd (fold_left (top_up_buy cr) P (adj, rem)) == B).
        { intros Hcr Hsr Hpp.
          exact (fold_budget (top_up_buy cr) _ B P
                   (fun st it => top_up_buy_budget cr sr prices B st it
                                   Hcr Hsr Hpp)
                   HP (adj, rem) Hbud1'). }
        destruct (fold_left (top_up_buy cr) P (adj, rem)) as [adj' rem'].
        exists adj', rem'. cbn [fst snd] in *.
        split; [reflexivity|]. split; [exact Hent2|exact Hbud2].
      - exists adj, rem. split; [reflexivity|]. split; [exact Hent1|].
        intros _ _ _. exact Hbud1'. }
    destruct Hfinal as (adj' & rem' & -> & Hent & Hbud).
    destruct (adjusted_orders_emitted cr sr prices order_date adj' Hent)
      as [Hbuys Hcost].
    cbv zeta in Hbuys, Hcost.
    eexists sells, _, cf. cbn [fst]. split; [reflexivity|].
    split; [exact Hs|]. split; [exact Hcf'|]. split; [exact Hbuys|].
    intros Hcr Hsr Hpp. right. destruct (Hbud Hcr Hsr Hpp) as [Hrem Hsum].
    rewrite Hcost.
    change ((default 0 available_cash + cf) * cash_buffer_factor) with B.
    lra.
  - (* enough cash for every candidate *)
    destruct (estimates_emitted cr sr prices order_date E HE)
      as [Hbuys Hcost].
    cbv zeta in Hbuys, Hcost.
    eexists sells, _, cf. cbn [fst]. split; [reflexivity|].
    split; [exact Hs|]. split; [exact Hcf'|]. split; [exact Hbuys|].
    intros _ _ _.
    apply andb_false_iff in Hscale as [Hfits | Hempty].
    + right. apply ltb_ge in Hfits. rewrite Hcost.
      rewrite fold_left_Qsum in Hfits.
      change (default 0 available_cash + cf) with tac. lra.
    + left. destruct E; [reflexivity|discriminate].
Qed.

(** The list [generate_orders] returns is the sells followed by the buys.
    Every sell is for a priced symbol that is held and asks for no more
    than the held quantity; every buy is a positive whole number of shares
    of a priced symbol. *)
Theorem generate_orders_sells_then_buys (cr sr : Q)
    (dollar_changes : list (string * Q)) (prices : gmap string Q)
    (order_date : option Z) (available_cash : option Q)
    (current_positions : option (gmap string Position)) :
  exists sells buys,
    generate_orders cr sr dollar_changes prices order_date available_cash
      current_positions = sells ++ buys /\
    Forall (fun o =>
              ord_quantity o < 0 /\
              is_Some (prices !! ord_symbol o) /\
              exists held,
                held_quantity current_positions (ord_symbol o) = Some held /\
                Qabs (ord_quantity o) <= held) sells /\
    Forall (fun o =>
              is_Some (prices !! ord_symbol o) /\
              exists z, (0 < z)%Z /\ ord_quantity o = inject_Z z) buys.
Proof.
  destruct (generate_orders_shape cr sr dollar_changes prices order_date
              available_cash current_positions)
    as (sells & buys & cf & Hout & Hs & _ & Hb & _).
  exists sells, buys. repeat split; assumption.
Qed.



(** With a 1% commission and 0.1% slippage the scenario buys 988 shares. *)
Example generate_orders_costly_scenario :
  ord_quantity <$>
    generate_orders (1 # 100) (1 # 1000) [("A"%string, 100000)]
      {[ "A"%string := 100 ]} None (Some 100000) (Some ∅)
  = [inject_Z 988].
Proof. vm_compute. reflexivity. Qed.

(** ** AllocationPlanner: nothing to do *)

Lemma default_union_zero {A : Type} (m1 : gmap string Q)
    (m2 : gmap string A) (symbol : string) :
  default 0 ((m1 ∪ ((fun _ => 0) <$> m2)) !! symbol)
  = default 0 (m1 !! symbol).
Proof.
  destruct (m1 !! symbol) as [w|] eqn:E.
  - now rewrite (lookup_union_Some_l _ _ _ _ E).
  - rewrite lookup_union_r by exact E. rewrite lookup_fmap.
    destruct (m2 !! symbol); reflexivity.
Qed.

Lemma omap_all_none {A B : Type} (f : A -> option B) (l : list A) :
  (forall x, f x = None) -> omap f l = [].
Proof.
  intros H. induction l as [|x l IH]; cbn [omap list_omap]; [reflexivity|].
  now rewrite H.
Qed.

Lemma generate_orders_nothing (cr sr : Q) (prices : gmap string Q)
    (order_date : option Z) (available_cash : option Q)
    (current_positions : option (gmap string Position)) :
  generate_orders cr sr [] prices order_date available_cash current_positions
  = [].
Proof.
  unfold generate_orders, generate_orders_path. cbn [List.filter fold_left].
  rewrite orb_true_r. reflexivity.
Qed.

Lemma compare_positions_small_changes
    (current_positions : gmap string Position)
    (target_allocations : gmap string Q) (portfolio_value : Q)
    (prices : gmap string Q) :
  (forall symbol,
      Qabs ((default 0 (target_allocations !! symbol)
             - match current_positions !! symbol with
               | Some pos =>
                   held_value (Some prices) symbol pos / portfolio_value
               | None => 0
               end) * portfolio_value) <= 1 # 100) ->
  compare_positions current_positions target_allocations portfolio_value
    prices = [].
Proof.
  intros Hsmall. unfold compare_positions. apply omap_all_none.
  intros symbol. rewrite !default_union_zero.
  rewrite map_lookup_imap.
  specialize (Hsmall symbol). unfold held_value in Hsmall.
  destruct (current_positions !! symbol) as [pos|]; cbn [mbind option_bind
    default from_option id].
  - destruct (prices !! symbol);
      cbn [default from_option id];
      (apply ltb_ge in Hsmall; now rewrite Hsmall).
  - apply ltb_ge in Hsmall. now rewrite Hsmall.
Qed.

(** When the current weights can be computed (the total value is not zero,
    or nothing is held and nothing is divided) and every symbol's target
    weight is within one cent of its current weight (in currency: the dollar
    change is at most 0.01 in absolute value), the planner returns no order
    at all.  With holdings and a total value of zero [compare_positions]
    divides by zero instead. *)
Theorem calculate_rebalance_orders_on_target (cr sr : Q) (pf : Portfolio)
    (target_allocations : gmap string Q) (prices : gmap string Q)
    (order_date : option Z) :
  positions pf = ∅ \/ ~ get_total_value pf (Some prices) == 0 ->
  (forall symbol,
      Qabs ((default 0 (target_allocations !! symbol)
             - current_weight pf prices symbol)
            * get_total_value pf (Some prices)) <= 1 # 100) ->
  calculate_rebalance_orders cr sr pf target_allocations prices order_date
  = [].
Proof.
  intros _ Hsmall. unfold calculate_rebalance_orders.
  rewrite compare_positions_small_changes; [apply generate_orders_nothing|].
  exact Hsmall.
Qed.

Lemma calculate_rebalance_orders_on_target_witness :
  (positions (one_position "A" 10 100) = ∅ \/
   ~ get_total_value (one_position "A" 10 100)
       (Some {[ "A"%string := 100 ]}) == 0) /\
  (forall symbol,
      Qabs ((default 0 (({[ "A"%string := 1 ]} : gmap string Q) !! symbol)
             - current_weight (one_position "A" 10 100)
                 {[ "A"%string := 100 ]} symbol)
            * get_total_value (one_position "A" 10 100)
                (Some {[ "A"%string := 100 ]})) <= 1 # 100) /\
  calculate_rebalance_orders 0 0 (one_position "A" 10 100)
    {[ "A"%string := 1 ]} {[ "A"%string := 100 ]} None = [].
Proof.
  assert (H : forall symbol,
      Qabs ((default 0 (({[ "A"%string := 1 ]} : gmap string Q) !! symbol)
             - current_weight (one_position "A" 10 100)
                 {[ "A"%string := 100 ]} symbol)
            * get_total_value (one_position "A" 10 100)
                (Some {[ "A"%string := 100 ]})) <= 1 # 100).
  { intros symbol. unfold current_weight, one_position. cbn [positions].
    destruct (decide (symbol = "A"%string)) as [->|Hne].
    - by_computation.
    - rewrite !lookup_singleton_ne by congruence. by_computation. }
  assert (H0 : positions (one_position "A" 10 100) = ∅ \/
               ~ get_total_value (one_position "A" 10 100)
                   (Some {[ "A"%string := 100 ]}) == 0)
    by (right; by_computation).
  split; [exact H0|]. split; [exact H|].
  exact (calculate_rebalance_orders_on_target 0 0 (one_position "A" 10 100)
           {[ "A"%string := 1 ]} {[ "A"%string := 100 ]} None H0 H).
Defined.

(** ** The date loop: snapshots, the queue, and when a run fails *)

Section RunFacts.

Variables alloc_cr alloc_sr cr sr : Q.
Variable execution_delay : Z.
Variable price_data : list (Z * gmap string Q).
Variable signals_dict : gmap Z (gmap string Q).
Variable rebalance_dates : list Z.

Let step := backtest_step alloc_cr alloc_sr cr sr execution_delay price_data
              signals_dict rebalance_dates.
Let loop := backtest_loop alloc_cr alloc_sr cr sr execution_delay price_data
              signals_dict rebalance_dates.
Let hist (st : BacktestState) : gmap Z Snapshot :=
  history (portfolio (execution_engine st)).

Lemma execute_orders_history (eng : ExecutionEngine) (orders : list Order)
    (d : Z) (prices : gmap string Q) :
  history (portfolio (snd (execute_orders cr sr eng orders d prices)))
  = history (portfolio eng).
Proof.
  destruct (execute_orders_structure cr sr d prices eng orders)
    as (sells & buys & _ & _ & Hh & _ & _).
  exact Hh.
Qed.

Lemma pop_and_mark_history (st : BacktestState) (d : Z)
    (current_prices : gmap string Q) :
  exists snap,
    hist (pop_and_mark cr sr st d current_prices) = <[d := snap]> (hist st).
Proof.
  unfold pop_and_mark, hist.
  destruct (pending_orders st !! d) as [pending|].
  - pose proof (execute_orders_history (execution_engine st) pending d
                  current_prices) as Hh.
    destruct (execute_orders cr sr (execution_engine st) pending d
                current_prices) as [trades eng].
    cbn [snd] in Hh. cbn [execution_engine portfolio mark_to_market history].
    rewrite Hh. eauto.
  - cbn [execution_engine portfolio mark_to_market history]. eauto.
Qed.

Lemma pop_and_mark_signals (st : BacktestState) (d : Z)
    (current_prices : gmap string Q) :
  signals (pop_and_mark cr sr st d current_prices) = signals st.
Proof.
  unfold pop_and_mark.
  destruct (pending_orders st !! d) as [pending|]; [|reflexivity].
  destruct (execute_orders cr sr (execution_engine st) pending d
              current_prices) as [trades eng].
  reflexivity.
Qed.

Lemma plan_and_execute_history_signals (st : BacktestState) (d : Z)
    (current_prices sig : gmap string Q) :
  hist (plan_and_execute alloc_cr alloc_sr cr sr execution_delay price_data
          st d current_prices sig) = hist st /\
  signals (plan_and_execute alloc_cr alloc_sr cr sr execution_delay
             price_data st d current_prices sig) = signals st.
Proof.
  unfold plan_and_execute, hist.
  destruct (0 <? execution_delay)%Z.
  - destruct (price_row price_data (d + execution_delay)) as [row|];
      cbn [execution_engine signals]; split; try reflexivity.
    apply execute_orders_history.
  - cbn [execution_engine signals]. split; [|reflexivity].
    apply execute_orders_history.
Qed.

Lemma step_done (st st' : BacktestState) (d : Z)
    (current_prices : gmap string Q) :
  step st (d, current_prices) = Done st' ->
  (exists snap, hist st' = <[d := snap]> (hist st)) /\
  is_Some (signals st').
Proof.
  unfold step, backtest_step.
  destruct (pop_and_mark_history st d current_prices) as [snap Hh].
  pose proof (pop_and_mark_signals st d current_prices) as Hs.
  revert Hh Hs. generalize (pop_and_mark cr sr st d current_prices).
  intros st1 Hh Hs.
  destruct (_should_rebalance rebalance_dates d); cbn [signals].
  - destruct (bool_decide _); intros [= <-].
    + split; [exists snap; exact Hh|cbn; eauto].
    + destruct (plan_and_execute_history_signals
                  {| execution_engine := execution_engine st1;
                     pending_orders := pending_orders st1;
                     signals := Some (default ∅ (signals_dict !! d));
                     last_rebalance_date := last_rebalance_date st1;
                     trace := trace st1 |}
                  d current_prices (default ∅ (signals_dict !! d)))
        as [H1 H2].
      rewrite H2. split; [|cbn; eauto].
      exists snap. rewrite H1. exact Hh.
  - destruct (signals st1) as [sig|] eqn:Hsig; [|discriminate].
    destruct (bool_decide _); intros [= <-].
    + split; [exists snap; exact Hh|rewrite Hsig; eauto].
    + destruct (plan_and_execute_history_signals st1 d current_prices sig)
        as [H1 H2].
      rewrite H2, Hsig. split; [|eauto].
      exists snap. rewrite H1. exact Hh.
Qed.

Lemma step_with_signals (st : BacktestState) (row : Z * gmap string Q) :
  is_Some (signals st) -> exists st', step st row = Done st'.
Proof.
  destruct row as [d current_prices]. intros [sig0 Hsig].
  unfold step, backtest_step.
  pose proof (pop_and_mark_signals st d current_prices) as Hs.
  revert Hs. generalize (pop_and_mark cr sr st d current_prices).
  intros st1 Hs. rewrite Hsig in Hs.
  destruct (_should_rebalance rebalance_dates d); cbn [signals].
  - destruct (bool_decide _); eauto.
  - rewrite Hs. destruct (bool_decide _); eauto.
Qed.

Lemma loop_with_signals (rows : list (Z * gmap string Q)) :
  forall st, is_Some (signals st) -> exists st', loop st rows = Done st'.
Proof.
  induction rows as [|[d p] rows IH]; intros st Hst;
    unfold loop; cbn [backtest_loop]; [eauto|].
  destruct (step_with_signals st (d, p) Hst) as [st1 Hstep].
  unfold step in Hstep. rewrite Hstep.
  apply IH. now destruct (step_done st st1 d p Hstep).
Qed.


End RunFacts.



Lemma backtest_loop_completes_iff (alloc_cr alloc_sr cr sr : Q)
    (execution_delay : Z) (price_data : list (Z * gmap string Q))
    (signals_dict : gmap Z (gmap string Q)) (rebalance_dates : list Z)
    (initial_capital : Q) (rows : list (Z * gmap string Q)) :
  match rows with
  | [] =>
      backtest_loop alloc_cr alloc_sr cr sr execution_delay price_data
        signals_dict rebalance_dates (BacktestEngine_init initial_capital)
        rows
      = Done (BacktestEngine_init initial_capital)
  | (d, _) :: _ =>
      if bool_decide (d ∈ rebalance_dates) then
        exists st,
          backtest_loop alloc_cr alloc_sr cr sr execution_delay price_data
            signals_dict rebalance_dates
            (BacktestEngine_init initial_capital) rows = Done st
      else
        backtest_loop alloc_cr alloc_sr cr sr execution_delay price_data
          signals_dict rebalance_dates (BacktestEngine_init initial_capital)
          rows
        = Raised "UnboundLocalError"
  end.
Proof.
  destruct rows as [|[d p] rows]; [reflexivity|]. cbn [backtest_loop].
  destruct (bool_decide (d ∈ rebalance_dates)) eqn:Hd.
  - destruct (backtest_step alloc_cr alloc_sr cr sr execution_delay
                price_data signals_dict rebalance_dates
                (BacktestEngine_init initial_capital) (d, p))
      as [st1|e] eqn:Hstep.
    + apply loop_with_signals.
      now destruct (step_done _ _ _ _ _ _ _ _ _ _ _ _ Hstep).
    + exfalso. revert Hstep. unfold backtest_step, _should_rebalance.
      rewrite Hd. cbn [signals].
      destruct (bool_decide (default ∅ (signals_dict !! d) = ∅));
        discriminate.
  - unfold backtest_step, _should_rebalance. rewrite Hd.
    rewrite pop_and_mark_signals. reflexivity.
Qed.

(** When the price table starts on a date that is not a rebalance date, the
    first iteration reads [signals] before any assignment and the run stops
    there with [UnboundLocalError]; hence a run that completes had an empty
    table or started on a rebalance date. *)
Theorem run_backtest_stops_on_unscheduled_first_date
    (alloc_cr alloc_sr cr sr : Q)
    (execution_delay : Z) (price_data : list (Z * gmap string Q))
    (signals_dict : gmap Z (gmap string Q)) (rebalance_dates : list Z)
    (initial_capital : Q) :
  (forall d p rest,
      price_data = (d, p) :: rest ->
      _should_rebalance rebalance_dates d = false ->
      run_backtest alloc_cr alloc_sr cr sr execution_delay price_data
        signals_dict rebalance_dates initial_capital
      = Raised "UnboundLocalError") /\
  (forall st,
      run_backtest alloc_cr alloc_sr cr sr execution_delay price_data
        signals_dict rebalance_dates initial_capital = Done st ->
      match price_data with
      | [] => True
      | (d, _) :: _ => _should_rebalance rebalance_dates d = true
      end).
Proof.
  unfold run_backtest, _should_rebalance. split.
  - intros d p rest -> Hd.
    pose proof (backtest_loop_completes_iff alloc_cr alloc_sr cr sr
                  execution_delay ((d, p) :: rest) signals_dict
                  rebalance_dates initial_capital ((d, p) :: rest)) as H.
    cbv beta iota in H. rewrite Hd in H. exact H.
  - intros st Hdone. destruct price_data as [|[d p] rest]; [exact I|].
    pose proof (backtest_loop_completes_iff alloc_cr alloc_sr cr sr
                  execution_delay ((d, p) :: rest) signals_dict
                  rebalance_dates initial_capital ((d, p) :: rest)) as H.
    cbv beta iota in H.
    destruct (bool_decide (d ∈ rebalance_dates)); [reflexivity|].
    rewrite H in Hdone. discriminate.
Qed.

(** The queue of pending orders is never filled: it is empty after every
    run that completes, whatever the execution delay. *)
Theorem run_backtest_queue_stays_empty (alloc_cr alloc_sr cr sr : Q)
    (execution_delay : Z) (price_data : list (Z * gmap string Q))
    (signals_dict : gmap Z (gmap string Q)) (rebalance_dates : list Z)
    (initial_capital : Q) (st : BacktestState) :
  run_backtest alloc_cr alloc_sr cr sr execution_delay price_data
    signals_dict rebalance_dates initial_capital = Done st ->
  pending_orders st = ∅.
Proof.
  unfold run_backtest. apply backtest_loop_pending_empty. reflexivity.
Qed.

Lemma run_backtest_queue_stays_empty_witness :
  exists st,
    run_backtest 0 0 0 0 1 two_days signals_day0 [0%Z] 100000 = Done st /\
    pending_orders st = ∅.
Proof.
  eexists. split; [vm_compute; reflexivity|].
  apply (run_backtest_queue_stays_empty 0 0 0 0 1 two_days signals_day0
           [0%Z] 100000).
  vm_compute. reflexivity.
Defined.

(** ** Trade log: profit and loss, win rate *)

(** [TradeLog.calculate_pnl] and the portfolio disagree by the commission:
    for a sell that the portfolio accepted, recomputing the pnl from the
    cost basis the position had gives the pnl recorded at execution minus
    the trade's commission.  Buys are left as they are. *)
Theorem calculate_pnl_subtracts_commission (pf pf' : Portfolio) (t : Trade)
    (pos : Position) (pnl : Q) :
  trd_quantity t < 0 ->
  positions pf !! trd_symbol t = Some pos ->
  update_from_trade pf t = (true, pnl, pf') ->
  (exists t',
     calculate_pnl [set_pnl t pnl] {[ trd_symbol t := pos_cost_basis pos ]}
       = [t'] /\
     trd_pnl t' == pnl - trd_commission t) /\
  (forall (b : Trade) (costs : gmap string Q),
      0 <= trd_quantity b -> calculate_pnl [b] costs = [b]).
Proof.
  intros Hneg Hpos Hup. split.
  - rewrite update_from_trade_sell in Hup by lra.
    unfold remove_position in Hup. cbn [positions with_cash] in Hup.
    rewrite Hpos in Hup.
    destruct (leb (Qabs (trd_quantity t)) (pos_quantity pos));
      [|discriminate].
    assert (Hpnl : pnl = (trd_execution_price t - pos_cost_basis pos)
                         * Qabs (trd_quantity t)).
    { destruct (ltb 0 _); now injection Hup as <- _. }
    unfold calculate_pnl. cbn [List.map set_pnl trd_quantity trd_symbol].
    apply ltb_lt in Hneg. rewrite Hneg. apply ltb_lt in Hneg.
    rewrite lookup_singleton_eq. eexists. split; [reflexivity|].
    cbn [set_pnl trd_pnl trd_quantity trd_execution_price trd_commission].
    rewrite Hpnl, (Qabs_neg (trd_quantity t)) by lra. ring.
  - intros b costs Hb. unfold calculate_pnl. cbn [List.map].
    apply ltb_ge in Hb. now rewrite Hb.
Qed.

Lemma calculate_pnl_subtracts_commission_witness :
  let pf := portfolio scenario_B_engine in
  let t := scenario_B_trade 6 in
  let pos := {| pos_quantity := 50; pos_cost_basis := 10;
                pos_value := 50 * 10 |} in
  trd_quantity t < 0 /\
  positions pf !! trd_symbol t = Some pos /\
  update_from_trade pf t
    = (true, (12 - 10) * Qabs (- (50)), snd (update_from_trade pf t)) /\
  (exists t',
     calculate_pnl [set_pnl t ((12 - 10) * Qabs (- (50)))]
       {[ trd_symbol t := pos_cost_basis pos ]} = [t'] /\
     trd_pnl t' == (12 - 10) * Qabs (- (50)) - trd_commission t) /\
  (forall (b : Trade) (costs : gmap string Q),
      0 <= trd_quantity b -> calculate_pnl [b] costs = [b]).
Proof.
  intros pf t pos.
  assert (H1 : trd_quantity t < 0) by reflexivity.
  assert (H2 : positions pf !! trd_symbol t = Some pos) by reflexivity.
  assert (H3 : update_from_trade pf t
               = (true, (12 - 10) * Qabs (- (50)),
                  snd (update_from_trade pf t)))
    by (vm_compute; reflexivity).
  split; [exact H1|]. split; [exact H2|]. split; [exact H3|].
  exact (calculate_pnl_subtracts_commission pf _ t pos _ H1 H2 H3).
Defined.

Lemma filter_length_bound {A : Type} (f : A -> bool) (l : list A) :
  (length (List.filter f l) <= length l)%nat.
Proof.
  induction l as [|x l IH]; cbn; [lia|]. destruct (f x); cbn; lia.
Qed.

(** The win rate is a fraction between 0 and 1; every logged trade counts
    in the denominator, so buys (whose pnl stays 0) lower it. *)
Theorem win_rate_bounds (trades : list Trade) :
  0 <= win_rate trades <= 1 /\
  (Forall (fun t => trd_pnl t <= 0) trades -> win_rate trades == 0).
Proof.
  unfold win_rate.
  destruct (0 <? length trades)%nat eqn:Hlen.
  - apply Nat.ltb_lt in Hlen.
    set (wins := List.filter (fun t => ltb 0 (trd_pnl t)) trades).
    pose proof (filter_length_bound (fun t => ltb 0 (trd_pnl t)) trades)
      as Hle. fold wins in Hle.
    assert (Hn : 0 < inject_Z (Z.of_nat (length trades)))
      by (apply inject_Z_pos; lia).
    assert (Hw : 0 <= inject_Z (Z.of_nat (length wins))).
    { change 0 with (inject_Z 0). rewrite <- Zle_Qle. lia. }
    assert (Hwn : inject_Z (Z.of_nat (length wins))
                  <= inject_Z (Z.of_nat (length trades)))
      by (rewrite <- Zle_Qle; lia).
    split; [split|].
    + apply Qle_shift_div_l; [exact Hn|]. lra.
    + apply Qle_shift_div_r; [exact Hn|]. lra.
    + intros Hall. assert (Hnil : wins = []).
      { unfold wins. clear -Hall.
        induction Hall as [|t l Ht _ IH]; [reflexivity|]. cbn.
        apply ltb_ge in Ht. now rewrite Ht. }
      rewrite Hnil. cbn. unfold Qdiv. ring.
  - split; [lra|]. intros _. reflexivity.
Qed.

(** ** The loop over pre-computed signals applies every trade twice *)




(** Scenario A through [run_backtest_with_signals]: the 999 shares are paid
    for twice and booked twice, leaving 1998 shares and a cash balance of
    -99800. *)
Example run_backtest_with_signals_overdraws :
  let eng := fst (run_backtest_with_signals 0 0 0 0 signals_day0 100000
                    [(0%Z, prices_A 100)]) in
  cash (portfolio eng) == - (99800) /\
  (pos_quantity <$> positions (portfolio eng) !! "A"%string) = Some 1998.
Proof. cbv zeta. split; vm_compute; reflexivity. Qed.
